(** * Telemetry ingestion and connectivity tracking of the IoT platform

  A shallow embedding of the MQTT handler ([mqtt_handler.py]), the data
  processor ([data_processor.py]), the device registry handler
  ([mongo_handler.py]) and the time-series handler ([influx_handler.py]),
  followed by the properties proved about them.

  Conventions of the embedding:
  - a Python [str] is the [string] of its UTF-8 bytes, a [bytes] object
    is a [string] of arbitrary bytes;
  - a raised exception is a value of [res]; side effects made before the
    exception are kept in the state, as in Python;
  - answers of the outside world (broker, clock, database drivers) are
    arguments of the functions that consume them. *)

From Stdlib Require Import ZArith String Ascii List Lia Bool.
From stdpp Require Import base list strings.

#[local] Set Warnings "-register-all".
#[local] Set Warnings "-notation-overridden".
#[local] Set Warnings "-notation-incompatible-prefix".

Open Scope string_scope.

(** ** Python values, strings and exceptions *)
Module Py.

(** A float is kept as the decimal literal it was read from. *)
Inductive pyfloat :=
| FDec (mantissa exponent : Z)
| FInf (negative : bool)
| FNaN.

Inductive pyval :=
| PNone
| PBool (b : bool)
| PInt (z : Z)
| PFloat (f : pyfloat)
| PStr (s : string)
| PList (l : list pyval)
| PDict (d : list (string * pyval)).

(** A [dict] with [str] keys: keys are unique, insertion order is kept. *)
Definition dict := list (string * pyval).

Fixpoint dict_lookup (k : string) (d : dict) : option pyval :=
  match d with
  | [] => None
  | (k', v) :: d' => if String.eqb k' k then Some v else dict_lookup k d'
  end.

(** [d[k] = v] *)
Fixpoint dict_set (k : string) (v : pyval) (d : dict) : dict :=
  match d with
  | [] => [(k, v)]
  | (k', v') :: d' =>
      if String.eqb k' k then (k', v) :: d' else (k', v') :: dict_set k v d'
  end.

Definition dict_keys (d : dict) : list string := map fst d.

(** The decimal literal [m * 10^e] is read as [0.0]: it is zero, or so
    small that it rounds to zero, at most [2^-1075]. *)
Definition reads_as_zero (m e : Z) : bool :=
  Z.eqb m 0 || (Z.ltb e 0 && Z.leb (Z.abs m * 2 ^ 1075) (10 ^ (- e))).

(** Truth value of an object, as tested by [if x:]. *)
Definition truthy (v : pyval) : bool :=
  match v with
  | PNone => false
  | PBool b => b
  | PInt z => negb (Z.eqb z 0)
  | PFloat (FDec m e) => negb (reads_as_zero m e)
  | PFloat _ => true
  | PStr s => negb (String.eqb s "")
  | PList l => match l with [] => false | _ => true end
  | PDict d => match d with [] => false | _ => true end
  end.

Definition is_none (v : pyval) : bool :=
  match v with PNone => true | _ => false end.

Inductive exn :=
| AttributeError
| TypeError
| ValueError
| UnicodeDecodeError
| JSONDecodeError
| ConnectionError.

Inductive res (A : Type) :=
| Ok (a : A)
| Raise (e : exn).
Arguments Ok {A} a.
Arguments Raise {A} e.

(** Computations with a state that may raise; the state reached when
    the exception is raised is kept. *)
Definition M (S A : Type) : Type := S -> res A * S.

Definition ret {S A} (a : A) : M S A := fun s => (Ok a, s).
Definition raise {S A} (e : exn) : M S A := fun s => (Raise e, s).
Definition bind {S A B} (m : M S A) (k : A -> M S B) : M S B :=
  fun s => match m s with
           | (Ok a, s') => k a s'
           | (Raise e, s') => (Raise e, s')
           end.
(** [try: m except Exception as e: h e] *)
Definition try_except {S A} (m : M S A) (h : exn -> M S A) : M S A :=
  fun s => match m s with
           | (Ok a, s') => (Ok a, s')
           | (Raise e, s') => h e s'
           end.
Definition modify {S} (f : S -> S) : M S unit := fun s => (Ok tt, f s).
Definition gets {S A} (f : S -> A) : M S A := fun s => (Ok (f s), s).

(** [v.get(k)]: only a [dict] has the method. *)
Definition py_get (v : pyval) (k : string) : res pyval :=
  match v with
  | PDict d => Ok (default PNone (dict_lookup k d))
  | _ => Raise AttributeError
  end.

(** [v.items()] *)
Definition py_items (v : pyval) : res dict :=
  match v with
  | PDict d => Ok d
  | _ => Raise AttributeError
  end.

(** [s.split(sep)] for a one-character separator. *)
Fixpoint split (sep : ascii) (s : string) : list string :=
  match s with
  | "" => [""]
  | String c s' =>
      if Ascii.eqb c sep then "" :: split sep s'
      else match split sep s' with
           | [] => [String c ""]
           | w :: ws => String c w :: ws
           end
  end.

(** [s.replace(c, new)] for a one-character pattern. *)
Fixpoint replace (c : ascii) (new : string) (s : string) : string :=
  match s with
  | "" => ""
  | String a s' =>
      if Ascii.eqb a c then new +:+ replace c new s'
      else String a (replace c new s')
  end.

(** [s.startswith(p)] *)
Fixpoint startswith (p s : string) : bool :=
  match p, s with
  | EmptyString, _ => true
  | String a p', String b s' => Ascii.eqb a b && startswith p' s'
  | String _ _, EmptyString => false
  end.

(** [v.replace(c, new)]: only a [str] has the method. *)
Definition py_replace (v : pyval) (c : ascii) (new : string) : res string :=
  match v with
  | PStr s => Ok (replace c new s)
  | _ => Raise AttributeError
  end.

Definition byte_in (lo hi : N) (c : ascii) : bool :=
  (N.leb lo (N_of_ascii c) && N.leb (N_of_ascii c) hi)%bool.

(** Well-formed UTF-8, as accepted by the strict codec. *)
Fixpoint utf8_valid (s : string) : bool :=
  match s with
  | "" => true
  | String b0 r0 =>
    if byte_in 0 127 b0 then utf8_valid r0 else
    match r0 with
    | "" => false
    | String b1 r1 =>
      if byte_in 194 223 b0 then byte_in 128 191 b1 && utf8_valid r1 else
      match r1 with
      | "" => false
      | String b2 r2 =>
        if byte_in 224 224 b0 then
          byte_in 160 191 b1 && byte_in 128 191 b2 && utf8_valid r2
        else if byte_in 225 236 b0 || byte_in 238 239 b0 then
          byte_in 128 191 b1 && byte_in 128 191 b2 && utf8_valid r2
        else if byte_in 237 237 b0 then
          byte_in 128 159 b1 && byte_in 128 191 b2 && utf8_valid r2
        else
        match r2 with
        | "" => false
        | String b3 r3 =>
          if byte_in 240 240 b0 then
            byte_in 144 191 b1 && byte_in 128 191 b2 && byte_in 128 191 b3
            && utf8_valid r3
          else if byte_in 241 243 b0 then
            byte_in 128 191 b1 && byte_in 128 191 b2 && byte_in 128 191 b3
            && utf8_valid r3
          else if byte_in 244 244 b0 then
            byte_in 128 143 b1 && byte_in 128 191 b2 && byte_in 128 191 b3
            && utf8_valid r3
          else false
        end
      end
    end
  end.

(** [raw.decode()] *)
Definition bytes_decode (raw : string) : res string :=
  if utf8_valid raw then Ok raw else Raise UnicodeDecodeError.

End Py.

Declare Scope py_scope.
Delimit Scope py_scope with py.
Notation "x <~ m ;; k" := (Py.bind m (fun x => k))
  (at level 100, m at next level, right associativity) : py_scope.
Notation "m ;;; k" := (Py.bind m (fun _ => k))
  (at level 100, right associativity) : py_scope.

(** ** [json.loads]

    The decoder of the standard library, as its scanner reads a document:
    whitespace, the three literals, [NaN] and the infinities, numbers,
    strings with their escapes, arrays and objects.  [None] stands for
    [JSONDecodeError].  The limits of an interpreter, on the depth of
    nesting and on the number of digits of an integer, are left out. *)
Module Json.
Import Py.

Definition dquote : ascii := ascii_of_nat 34.
Definition backslash : ascii := ascii_of_nat 92.

Definition is_ws (c : ascii) : bool :=
  (Ascii.eqb c " " || Ascii.eqb c (ascii_of_nat 9)
   || Ascii.eqb c (ascii_of_nat 10) || Ascii.eqb c (ascii_of_nat 13))%bool.

Fixpoint skip_ws (s : string) : string :=
  match s with
  | String c r => if is_ws c then skip_ws r else s
  | EmptyString => EmptyString
  end.

Definition is_digit (c : ascii) : bool := byte_in 48 57 c.

Definition digit_val (c : ascii) : Z := Z.of_N (N_of_ascii c) - 48.

(** Value of a string of decimal digits, most significant first. *)
Fixpoint digits_val (acc : Z) (s : string) : Z :=
  match s with
  | String c r => digits_val (10 * acc + digit_val c) r
  | EmptyString => acc
  end.

(** The longest prefix of digits and what follows it. *)
Fixpoint take_digits (s : string) : string * string :=
  match s with
  | String c r =>
      if is_digit c then
        let (ds, rest) := take_digits r in (String c ds, rest)
      else (EmptyString, s)
  | EmptyString => (EmptyString, EmptyString)
  end.

Definition hex_val (c : ascii) : option N :=
  let n := N_of_ascii c in
  if byte_in 48 57 c then Some (n - 48)%N
  else if byte_in 97 102 c then Some (n - 87)%N
  else if byte_in 65 70 c then Some (n - 55)%N
  else None.

Definition hex4 (a b c d : ascii) : option N :=
  match hex_val a, hex_val b, hex_val c, hex_val d with
  | Some x, Some y, Some z, Some w => Some (((x * 16 + y) * 16 + z) * 16 + w)%N
  | _, _, _, _ => None
  end.

(** The UTF-8 bytes of a code point (a lone surrogate is written in the
    same three-byte form). *)
Definition utf8_encode (n : N) : string :=
  if (n <? 128)%N then String (ascii_of_N n) EmptyString
  else if (n <? 2048)%N then
    String (ascii_of_N (192 + n / 64))
      (String (ascii_of_N (128 + n mod 64)) EmptyString)
  else if (n <? 65536)%N then
    String (ascii_of_N (224 + n / 4096))
      (String (ascii_of_N (128 + (n / 64) mod 64))
         (String (ascii_of_N (128 + n mod 64)) EmptyString))
  else
    String (ascii_of_N (240 + n / 262144))
      (String (ascii_of_N (128 + (n / 4096) mod 64))
         (String (ascii_of_N (128 + (n / 64) mod 64))
            (String (ascii_of_N (128 + n mod 64)) EmptyString))).

Definition simple_escape (c : ascii) : option ascii :=
  if Ascii.eqb c dquote then Some dquote
  else if Ascii.eqb c backslash then Some backslash
  else if Ascii.eqb c "/" then Some "/"%char
  else if Ascii.eqb c "b" then Some (ascii_of_nat 8)
  else if Ascii.eqb c "f" then Some (ascii_of_nat 12)
  else if Ascii.eqb c "n" then Some (ascii_of_nat 10)
  else if Ascii.eqb c "r" then Some (ascii_of_nat 13)
  else if Ascii.eqb c "t" then Some (ascii_of_nat 9)
  else None.

Definition is_high_surrogate (n : N) : bool := (55296 <=? n)%N && (n <=? 56319)%N.
Definition is_low_surrogate (n : N) : bool := (56320 <=? n)%N && (n <=? 57343)%N.

(** A low surrogate escape right at the head of [s], with what follows. *)
Definition low_surrogate_escape (s : string) : option N :=
  match s with
  | String e0 (String e1 (String a (String b (String c (String d _))))) =>
      if Ascii.eqb e0 backslash && Ascii.eqb e1 "u" then
        match hex4 a b c d with
        | Some lo => if is_low_surrogate lo then Some lo else None
        | None => None
        end
      else None
  | _ => None
  end.

(** The body of a string after its opening quote: the text up to the
    closing quote and what follows it (strict mode). *)
Fixpoint scanstring (s : string) : option (string * string) :=
  match s with
  | EmptyString => None
  | String c r =>
    if Ascii.eqb c dquote then Some (EmptyString, r)
    else if byte_in 0 31 c then None
    else if Ascii.eqb c backslash then
      match r with
      | EmptyString => None
      | String e r1 =>
        if Ascii.eqb e "u" then
          match r1 with
          | String h1 (String h2 (String h3 (String h4 r2))) =>
            match hex4 h1 h2 h3 h4 with
            | None => None
            | Some hi =>
              match (if is_high_surrogate hi then low_surrogate_escape r2
                     else None), r2 with
              | Some lo, String _ (String _ (String _ (String _ (String _ (String _ r3))))) =>
                  match scanstring r3 with
                  | Some (t, rest) =>
                      Some (utf8_encode (65536 + (hi - 55296) * 1024 + (lo - 56320))
                            +:+ t, rest)
                  | None => None
                  end
              | _, _ =>
                  match scanstring r2 with
                  | Some (t, rest) => Some (utf8_encode hi +:+ t, rest)
                  | None => None
                  end
              end
            end
          | _ => None
          end
        else
          match simple_escape e with
          | Some x =>
              match scanstring r1 with
              | Some (t, rest) => Some (String x t, rest)
              | None => None
              end
          | None => None
          end
      end
    else
      match scanstring r with
      | Some (t, rest) => Some (String c t, rest)
      | None => None
      end
  end.

(** [s] starts with [p]: what follows [p]. *)
Fixpoint strip_prefix (p s : string) : option string :=
  match p, s with
  | EmptyString, _ => Some s
  | String a p', String b s' => if Ascii.eqb a b then strip_prefix p' s' else None
  | String _ _, EmptyString => None
  end.

(** An optional fraction [.ddd] at the head of [s]. *)
Definition take_frac (s : string) : string * string :=
  match s with
  | String dot (String d r) =>
      if Ascii.eqb dot "." && is_digit d then
        let (fs, rest) := take_digits r in (String d fs, rest)
      else (EmptyString, s)
  | _ => (EmptyString, s)
  end.

(** An optional exponent [e±ddd] at the head of [s]: present or not, its
    value, and what follows; an [e] without digits is not consumed. *)
Definition take_exp (s : string) : bool * Z * string :=
  match s with
  | String e r =>
      if Ascii.eqb e "e" || Ascii.eqb e "E" then
        let '(neg, r1) :=
          match r with
          | String sg r' =>
              if Ascii.eqb sg "-" then (true, r')
              else if Ascii.eqb sg "+" then (false, r')
              else (false, r)
          | EmptyString => (false, r)
          end in
        let (es, rest) := take_digits r1 in
        match es with
        | EmptyString => (false, 0%Z, s)
        | _ => (true, if neg then (- digits_val 0 es)%Z else digits_val 0 es, rest)
        end
      else (false, 0%Z, s)
  | EmptyString => (false, 0%Z, s)
  end.

(** A number at the head of [s]. *)
Definition match_number (s : string) : option (pyval * string) :=
  let '(neg, s1) :=
    match s with
    | String c r => if Ascii.eqb c "-" then (true, r) else (false, s)
    | EmptyString => (false, s)
    end in
  let int_part :=
    match s1 with
    | String c r =>
        if byte_in 49 57 c then
          let (ds, rest) := take_digits r in Some (String c ds, rest)
        else if Ascii.eqb c "0" then Some (String c EmptyString, r)
        else None
    | EmptyString => None
    end in
  match int_part with
  | None => None
  | Some (ds, r1) =>
      let (fs, r2) := take_frac r1 in
      let '(has_exp, ex, r3) := take_exp r2 in
      let sign := fun z : Z => if neg then (- z)%Z else z in
      match fs, has_exp with
      | EmptyString, false => Some (PInt (sign (digits_val 0 ds)), r3)
      | _, _ =>
          Some (PFloat (FDec (sign (digits_val 0 (ds +:+ fs)))
                          (ex - Z.of_nat (String.length fs))), r3)
      end
  end.

Definition literals : list (string * pyval) :=
  [("null", PNone); ("true", PBool true); ("false", PBool false);
   ("NaN", PFloat FNaN); ("Infinity", PFloat (FInf false));
   ("-Infinity", PFloat (FInf true))].

Fixpoint match_literal (ls : list (string * pyval)) (s : string)
  : option (pyval * string) :=
  match ls with
  | [] => None
  | (name, v) :: ls' =>
      match strip_prefix name s with
      | Some rest => Some (v, rest)
      | None => match_literal ls' s
      end
  end.

(** One value at the head of [s]; [parse_members] and [parse_elements]
    read the rest of an object or an array after its first token.  Two
    units of [fuel] per character of [s], and one more, are never used
    up ([scan_once_fuel] below). *)
Fixpoint scan_once (fuel : nat) (s : string) {struct fuel}
  : option (pyval * string) :=
  match fuel with
  | O => None
  | S fuel' =>
    match s with
    | EmptyString => None
    | String c r =>
      if Ascii.eqb c dquote then
        match scanstring r with
        | Some (t, rest) => Some (PStr t, rest)
        | None => None
        end
      else if Ascii.eqb c "{" then
        match skip_ws r with
        | String c' r' =>
            if Ascii.eqb c' "}" then Some (PDict [], r')
            else parse_members fuel' (String c' r') []
        | EmptyString => None
        end
      else if Ascii.eqb c "[" then
        match skip_ws r with
        | String c' r' =>
            if Ascii.eqb c' "]" then Some (PList [], r')
            else parse_elements fuel' (String c' r') []
        | EmptyString => None
        end
      else
        match match_literal literals s with
        | Some x => Some x
        | None => match_number s
        end
    end
  end
with parse_members (fuel : nat) (s : string) (acc : dict) {struct fuel}
  : option (pyval * string) :=
  match fuel with
  | O => None
  | S fuel' =>
    match s with
    | EmptyString => None
    | String q r =>
      if Ascii.eqb q dquote then
        match scanstring r with
        | None => None
        | Some (key, r1) =>
          match skip_ws r1 with
          | EmptyString => None
          | String colon r2 =>
            if Ascii.eqb colon ":" then
              match scan_once fuel' (skip_ws r2) with
              | None => None
              | Some (v, r3) =>
                let acc' := dict_set key v acc in
                match skip_ws r3 with
                | EmptyString => None
                | String d r4 =>
                  if Ascii.eqb d "}" then Some (PDict acc', r4)
                  else if Ascii.eqb d "," then parse_members fuel' (skip_ws r4) acc'
                  else None
                end
              end
            else None
          end
        end
      else None
    end
  end
with parse_elements (fuel : nat) (s : string) (acc : list pyval) {struct fuel}
  : option (pyval * string) :=
  match fuel with
  | O => None
  | S fuel' =>
    match scan_once fuel' s with
    | None => None
    | Some (v, r1) =>
      let acc' := (acc ++ [v])%list in
      match skip_ws r1 with
      | EmptyString => None
      | String d r2 =>
        if Ascii.eqb d "]" then Some (PList acc', r2)
        else if Ascii.eqb d "," then parse_elements fuel' (skip_ws r2) acc'
        else None
      end
    end
  end.

Definition loads (s : string) : res pyval :=
  match scan_once (S (2 * String.length s)) (skip_ws s) with
  | Some (v, rest) =>
      match skip_ws rest with
      | EmptyString => Ok v
      | String _ _ => Raise JSONDecodeError
      end
  | None => Raise JSONDecodeError
  end.

End Json.

(** ** Logging

    What a module's logger has been handed: the level, the text of the
    message as it is written in the source, and the values of its fields. *)
Module Log.

Inductive level := DEBUG | INFO | WARNING | ERROR.

Inductive arg :=
| AStr (s : string)
| ANat (n : nat)
| AInt (z : Z)
| AExn (e : Py.exn)
| AVal (v : Py.pyval).

Record record := mk { lvl : level; text : string; args : list arg }.

Definition is_level (l : level) (r : record) : bool :=
  match l, lvl r with
  | DEBUG, DEBUG | INFO, INFO | WARNING, WARNING | ERROR, ERROR => true
  | _, _ => false
  end.

End Log.

(** ** The device registry: [MongoDBHandler]

    The collections [devices] and [projects] of the database; a document
    is a record of its fields (the [_id] the server adds is left out).
    [up = false] is a server that cannot be reached: every driver call
    raises. *)
Module MongoDBHandler.

Record device := mk_device {
  device_id : string;
  name : string;
  device_type : option string;
  location : option string;
  project_id : option string;
  created_at : string;
  last_seen : option Z;
  status : string
}.

Record project := mk_project {
  p_project_id : string;
  p_name : string;
  p_description : option string;
  p_owner : string;
  p_created_at : string
}.

Record database := mk_db {
  devices : list device;
  projects : list project;
  up : bool
}.

Record t := mk {
  client : bool;               (* [self.client is not None] *)
  db : option database;        (* [self.db] *)
  log : list Log.record
}.

Definition emit (r : Log.record) (h : t) : t :=
  mk (client h) (db h) (log h ++ [r]).

Definition set_db (d : database) (h : t) : t :=
  mk (client h) (Some d) (log h).

Definition is_connected (h : t) : bool :=
  client h && match db h with Some _ => true | None => false end.

(** [collection.find_one({'device_id': id})] *)
Definition find_one (id : string) (ds : list device) : option device :=
  List.find (fun d => String.eqb (device_id d) id) ds.

Definition find_project (id : string) (ps : list project) : option project :=
  List.find (fun p => String.eqb (p_project_id p) id) ps.

(** [collection.update_one({'device_id': id}, {'$set': ...})]: the first
    matching document is updated; the count is that of documents whose
    content changed. *)
Fixpoint update_one (id : string) (f : device -> device)
  (changes : device -> bool) (ds : list device) : list device * nat :=
  match ds with
  | [] => ([], 0)
  | d :: ds' =>
      if String.eqb (device_id d) id then
        (f d :: ds', if changes d then 1 else 0)
      else
        let (r, n) := update_one id f changes ds' in (d :: r, n)
  end.

(** [collection.delete_one({'device_id': id})] *)
Fixpoint delete_one (id : string) (ds : list device) : list device * nat :=
  match ds with
  | [] => ([], 0)
  | d :: ds' =>
      if String.eqb (device_id d) id then (ds', 1)
      else let (r, n) := delete_one id ds' in (d :: r, n)
  end.

Fixpoint delete_one_project (id : string) (ps : list project)
  : list project * nat :=
  match ps with
  | [] => ([], 0)
  | p :: ps' =>
      if String.eqb (p_project_id p) id then (ps', 1)
      else let (r, n) := delete_one_project id ps' in (p :: r, n)
  end.

Definition set_status (s : string) (d : device) : device :=
  mk_device (device_id d) (name d) (device_type d) (location d)
    (project_id d) (created_at d) (last_seen d) s.

Definition set_last_seen (now : Z) (d : device) : device :=
  mk_device (device_id d) (name d) (device_type d) (location d)
    (project_id d) (created_at d) (Some now) (status d).

Definition set_project_id (p : option string) (d : device) : device :=
  mk_device (device_id d) (name d) (device_type d) (location d)
    p (created_at d) (last_seen d) (status d).

Definition opt_string_eqb (a b : option string) : bool :=
  match a, b with
  | Some x, Some y => String.eqb x y
  | None, None => true
  | _, _ => false
  end.

Definition opt_Z_eqb (a b : option Z) : bool :=
  match a, b with
  | Some x, Some y => Z.eqb x y
  | None, None => true
  | _, _ => false
  end.

(** [if s:] for an argument that is [None] or a [str]. *)
Definition opt_truthy (s : option string) : bool :=
  match s with
  | Some x => negb (String.eqb x EmptyString)
  | None => false
  end.

Definition not_connected : Log.record :=
  Log.mk Log.ERROR "Not connected to MongoDB" [].

Definition add_device (device_id name : string)
  (device_type location project_id : option string) (now : string) (h : t)
  : bool * t :=
  if negb (is_connected h) then (false, emit not_connected h) else
  match db h with
  | None => (false, h)
  | Some d =>
    if negb (up d) then
      (false, emit (Log.mk Log.ERROR "Failed to add device: {e}"
                      [Log.AExn Py.ConnectionError]) h)
    else
    match find_one device_id (devices d) with
    | Some _ =>
        (false, emit (Log.mk Log.WARNING "Device {device_id} already exists"
                        [Log.AStr device_id]) h)
    | None =>
      if opt_truthy project_id
         && match find_project (default EmptyString project_id) (projects d) with
            | Some _ => false
            | None => true
            end
      then
        (false, emit (Log.mk Log.WARNING "Project {project_id} does not exist"
                        [Log.AStr (default EmptyString project_id)]) h)
      else
        let doc := mk_device device_id name device_type location project_id
                     now None "Offline" in
        (true,
         emit (Log.mk Log.INFO "Added device {device_id} with ID {result.inserted_id}"
                 [Log.AStr device_id])
           (set_db (mk_db (devices d ++ [doc]) (projects d) (up d)) h))
    end
  end.

Definition get_devices (h : t) : list device * t :=
  if negb (is_connected h) then ([], emit not_connected h) else
  match db h with
  | None => ([], h)
  | Some d =>
    if negb (up d) then
      ([], emit (Log.mk Log.ERROR "Failed to get devices: {e}"
                   [Log.AExn Py.ConnectionError]) h)
    else (devices d, h)
  end.

Definition get_device (device_id : string) (h : t) : option device * t :=
  if negb (is_connected h) then (None, emit not_connected h) else
  match db h with
  | None => (None, h)
  | Some d =>
    if negb (up d) then
      (None, emit (Log.mk Log.ERROR "Failed to get device: {e}"
                     [Log.AExn Py.ConnectionError]) h)
    else (find_one device_id (devices d), h)
  end.

Definition update_device_last_seen (device_id : string) (now : Z) (h : t)
  : bool * t :=
  if negb (is_connected h) then (false, emit not_connected h) else
  match db h with
  | None => (false, h)
  | Some d =>
    if negb (up d) then
      (false, emit (Log.mk Log.ERROR "Failed to update device last seen: {e}"
                      [Log.AExn Py.ConnectionError]) h)
    else
      let (ds, modified_count) :=
        update_one device_id (set_last_seen now)
          (fun x => negb (opt_Z_eqb (last_seen x) (Some now))) (devices d) in
      let h' := set_db (mk_db ds (projects d) (up d)) h in
      if Nat.ltb 0 modified_count then (true, h')
      else (false, emit (Log.mk Log.WARNING "Device {device_id} not found"
                           [Log.AStr device_id]) h')
  end.

Definition update_device_status (device_id status : string) (h : t)
  : bool * t :=
  if negb (is_connected h) then (false, emit not_connected h) else
  match db h with
  | None => (false, h)
  | Some d =>
    if negb (up d) then
      (false, emit (Log.mk Log.ERROR "Failed to update device status: {e}"
                      [Log.AExn Py.ConnectionError]) h)
    else
      let (ds, modified_count) :=
        update_one device_id (set_status status)
          (fun x => negb (String.eqb (MongoDBHandler.status x) status))
          (devices d) in
      let h' := set_db (mk_db ds (projects d) (up d)) h in
      if Nat.ltb 0 modified_count then
        (true, emit (Log.mk Log.INFO "Updated device {device_id} status to {status}"
                       [Log.AStr device_id; Log.AStr status]) h')
      else (false, emit (Log.mk Log.WARNING "Device {device_id} not found"
                           [Log.AStr device_id]) h')
  end.

Definition remove_device (device_id : string) (h : t) : bool * t :=
  if negb (is_connected h) then (false, emit not_connected h) else
  match db h with
  | None => (false, h)
  | Some d =>
    if negb (up d) then
      (false, emit (Log.mk Log.ERROR "Failed to remove device: {e}"
                      [Log.AExn Py.ConnectionError]) h)
    else
      let (ds, deleted_count) := delete_one device_id (devices d) in
      let h' := set_db (mk_db ds (projects d) (up d)) h in
      if Nat.ltb 0 deleted_count then
        (true, emit (Log.mk Log.INFO "Removed device {device_id}"
                       [Log.AStr device_id]) h')
      else (false, emit (Log.mk Log.WARNING "Device {device_id} not found"
                           [Log.AStr device_id]) h')
  end.

Definition create_project (project_id name owner : string)
  (description : option string) (now : string) (h : t) : bool * t :=
  if negb (is_connected h) then (false, emit not_connected h) else
  match db h with
  | None => (false, h)
  | Some d =>
    if negb (up d) then
      (false, emit (Log.mk Log.ERROR "Failed to create project: {e}"
                      [Log.AExn Py.ConnectionError]) h)
    else
    match find_project project_id (projects d) with
    | Some _ =>
        (false, emit (Log.mk Log.WARNING "Project {project_id} already exists"
                        [Log.AStr project_id]) h)
    | None =>
        let doc := mk_project project_id name description owner now in
        (true,
         emit (Log.mk Log.INFO "Added project {name} with ID {result.inserted_id}"
                 [Log.AStr name])
           (set_db (mk_db (devices d) (projects d ++ [doc]) (up d)) h))
    end
  end.

Definition get_project (project_id : string) (h : t) : option project * t :=
  if negb (is_connected h) then (None, emit not_connected h) else
  match db h with
  | None => (None, h)
  | Some d =>
    if negb (up d) then
      (None, emit (Log.mk Log.ERROR "Failed to get project: {e}"
                     [Log.AExn Py.ConnectionError]) h)
    else (find_project project_id (projects d), h)
  end.

(** [devices.update_many({'project_id': id}, {'$set': {'project_id': None}})] *)
Definition detach_devices (id : string) (ds : list device) : list device :=
  map (fun x => if opt_string_eqb (project_id x) (Some id)
                then set_project_id None x else x) ds.

Definition remove_project (project_id : string) (h : t) : bool * t :=
  if negb (is_connected h) then (false, emit not_connected h) else
  match db h with
  | None => (false, h)
  | Some d =>
    if negb (up d) then
      (false, emit (Log.mk Log.ERROR "Failed to remove project: {e}"
                      [Log.AExn Py.ConnectionError]) h)
    else
      let (ps, deleted_count) := delete_one_project project_id (projects d) in
      if Nat.ltb 0 deleted_count then
        (true,
         set_db (mk_db (detach_devices project_id (devices d)) ps (up d))
           (emit (Log.mk Log.INFO "Removed project {project_id}"
                    [Log.AStr project_id]) h))
      else
        (false, emit (Log.mk Log.WARNING "Project {project_id} not found"
                        [Log.AStr project_id])
                  (set_db (mk_db (devices d) ps (up d)) h))
  end.

End MongoDBHandler.

(** ** The time-series store: [InfluxDBHandler]

    The server keeps, per bucket, its rows: one row per field it took of
    a point, with a time (in nanoseconds) and the point's measurement and
    tags.  The handler reaches it through its client; the server, its
    clock and what it makes of a point it is sent are arguments of the
    calls. *)
Module InfluxDBHandler.

(** A field value as the handler sends it: a number as it is, anything
    else as its [str()]. *)
Inductive field_value :=
| Number (v : Py.pyval)
| Text (v : Py.pyval).

Record row := mk_row {
  r_time : Z;
  r_measurement : string;
  r_tags : list (string * string);
  r_field : string;
  r_value : field_value
}.

(** A table of a query result: the records of one series, each with the
    value of its [_value] column. *)
Definition table := list Z.

(** The point handed to [write_api.write]. *)
Record point := mk_point {
  p_measurement : string;
  p_tags : list (string * string);
  p_fields : list (string * field_value)
}.

(** What becomes of a point is the affair of the client library and of
    the server: the call raises, or it returns and the server holds one
    row for each of the fields it took. *)
Inductive write_result :=
| Refused (e : Py.exn)
| Taken (fields : list (string * field_value)).

Record server := mk_server {
  buckets : list (string * list row);
  reachable : bool;
  (** what the server answers, from the rows it holds and at its clock,
      to a query whose string literals are broken by the text spliced
      into them *)
  garbled : list (string * list row) -> Z -> string -> string
            -> Py.res (list table);
  (** what client and server make, with the rows the server holds, of a
      point sent to a bucket *)
  ingest : list (string * list row) -> string -> point -> write_result
}.

Record t := mk {
  client : bool;               (* [self.client is not None] *)
  write_api : bool;            (* [self.write_api is not None] *)
  bucket : string;
  log : list Log.record
}.

Definition emit (r : Log.record) (h : t) : t :=
  mk (client h) (write_api h) (bucket h) (log h ++ [r]).

Definition is_connected (h : t) : bool := client h && write_api h.

Fixpoint get_bucket (b : string) (bs : list (string * list row))
  : option (list row) :=
  match bs with
  | [] => None
  | (b', rows) :: bs' => if String.eqb b' b then Some rows else get_bucket b bs'
  end.

Fixpoint set_bucket (b : string) (rows : list row)
  (bs : list (string * list row)) : list (string * list row) :=
  match bs with
  | [] => []
  | (b', rows') :: bs' =>
      if String.eqb b' b then (b', rows) :: bs'
      else (b', rows') :: set_bucket b rows bs'
  end.

(** A text that can be spliced between the quotes of a Flux string
    literal and read back as itself: no quote, backslash or dollar. *)
Definition plain_char (c : ascii) : bool :=
  negb (Ascii.eqb c Json.dquote || Ascii.eqb c Json.backslash
        || Ascii.eqb c "$").

Fixpoint plain (s : string) : bool :=
  match s with
  | EmptyString => true
  | String c r => plain_char c && plain r
  end.

Definition five_minutes : Z := 300 * 1000000000.

Fixpoint tag (k : string) (tags : list (string * string)) : option string :=
  match tags with
  | [] => None
  | (k', v) :: tl => if String.eqb k' k then Some v else tag k tl
  end.

(** [range(start: -5m)]: rows of the last five minutes, up to now
    excluded. *)
Definition in_range (now : Z) (r : row) : bool :=
  (Z.leb (now - five_minutes) (r_time r) && Z.ltb (r_time r) now)%bool.

(** [filter(fn: (r) => r["device_id"] == device_id)] *)
Definition of_device (device_id : string) (r : row) : bool :=
  match tag "device_id" (r_tags r) with
  | Some v => String.eqb v device_id
  | None => false
  end.

Definition series : Type := string * list (string * string) * string.

Definition series_of (r : row) : series :=
  (r_measurement r, r_tags r, r_field r).

Fixpoint bump (k : series) (acc : list (series * Z)) : list (series * Z) :=
  match acc with
  | [] => [(k, 1%Z)]
  | (k', n) :: acc' =>
      if bool_decide (k' = k) then (k', (n + 1)%Z) :: acc'
      else (k', n) :: bump k acc'
  end.

(** [count()]: one table per series, holding one record, the number of
    its rows. *)
Definition count (rows : list row) : list table :=
  map (fun kn => [snd kn])
      (fold_left (fun acc r => bump (series_of r) acc) rows []).

(** The answer of the server at time [now] to the status query built for
    [bucket] and [device_id]. *)
Definition query_status (srv : server) (now : Z) (bucket device_id : string)
  : Py.res (list table) :=
  if negb (reachable srv) then Py.Raise Py.ConnectionError
  else if negb (plain bucket && plain device_id) then
    garbled srv (buckets srv) now bucket device_id
  else
    match get_bucket bucket (buckets srv) with
    | None => Py.Raise Py.ValueError
    | Some rows =>
        Py.Ok (count (List.filter (fun r => in_range now r && of_device device_id r)
                        rows))
    end.

(** The loops over the tables and their records. *)
Definition any_positive (result : list table) : bool :=
  existsb (fun tbl => existsb (fun v => Z.ltb 0 v) tbl) result.

Definition _get_device_status (device_id : string) (srv : server) (now : Z)
  (h : t) : string * t :=
  if negb (is_connected h) then
    ("Offline", emit (Log.mk Log.WARNING "Not connected to InfluxDB" []) h)
  else
    match query_status srv now (bucket h) device_id with
    | Py.Ok result =>
        if any_positive result then ("Online", h) else ("Offline", h)
    | Py.Raise e =>
        ("Offline", emit (Log.mk Log.ERROR "Failed to determine device status: {e}"
                            [Log.AExn e]) h)
    end.

(** [isinstance(value, (int, float))]; a [bool] is an [int]. *)
Definition is_number (v : Py.pyval) : bool :=
  match v with
  | Py.PBool _ | Py.PInt _ | Py.PFloat _ => true
  | _ => false
  end.

Definition field_of (v : Py.pyval) : field_value :=
  if is_number v then Number v else Text v.

(** The loop over [data.items()]: the fields of the point. *)
Definition fields_of (data : Py.dict) : list (string * field_value) :=
  map (fun kv => (fst kv, field_of (snd kv))) data.

(** The rows the server holds for the fields it took of a point; the
    point has no time, the server stamps them with its clock. *)
Definition rows_of (now : Z) (p : point)
  (taken : list (string * field_value)) : list row :=
  map (fun kf => mk_row now (p_measurement p) (p_tags p) (fst kf) (snd kf))
      taken.

Definition write_data (device_id measurement : string) (data : Py.pyval)
  (srv : server) (now : Z) (h : t) : bool * server * t :=
  if negb (is_connected h) then
    (false, srv, emit (Log.mk Log.ERROR "Not connected to InfluxDB" []) h)
  else
    let failed e :=
      (false, srv, emit (Log.mk Log.ERROR "Failed to write data to InfluxDB: {e}"
                           [Log.AExn e]) h) in
    match Py.py_items data with
    | Py.Raise e => failed e
    | Py.Ok items =>
        let p := mk_point measurement [("device_id", device_id)]
                   (fields_of items) in
        if negb (reachable srv) then failed Py.ConnectionError
        else
          match get_bucket (bucket h) (buckets srv) with
          | None => failed Py.ValueError
          | Some rows =>
              match ingest srv (buckets srv) (bucket h) p with
              | Refused e => failed e
              | Taken taken =>
                  (true,
                   mk_server
                     (set_bucket (bucket h) (rows ++ rows_of now p taken)
                        (buckets srv))
                     (reachable srv) (garbled srv) (ingest srv),
                   emit (Log.mk Log.INFO
                           "Wrote data for device {device_id} to InfluxDB"
                           [Log.AStr device_id]) h)
              end
          end
    end.

End InfluxDBHandler.

(** ** The ingestion pipeline: [DataProcessor] *)
Module DataProcessor.
Import Py.

(** The dictionary handed to the storage handler. *)
Record point := mk_point {
  measurement : string;
  tags : list (string * string);
  time : Z;
  fields : dict
}.

(** The object passed as [influx_handler], seen through the calls the
    processor makes on it: what [is_connected()] returns and how
    [write_data_point] and [write_data_points] answer. *)
Record adapter := mk_adapter {
  connected : bool;
  write_data_point : point -> res bool;
  write_data_points : list pyval -> res bool
}.

(** The handler of [influx_handler.py] in that role: it has neither
    method, the attribute lookup fails. *)
Definition of_influx (h : InfluxDBHandler.t) : adapter :=
  mk_adapter (InfluxDBHandler.is_connected h)
    (fun _ => Raise AttributeError) (fun _ => Raise AttributeError).

Record t := mk {
  influx_handler : option adapter;
  mongo_handler : option MongoDBHandler.t;
  (** the calls made to [write_data_point], with their outcome *)
  writes : list (point * res bool);
  (** the calls made to [write_data_points], with their outcome *)
  batches : list (list pyval * res bool);
  log : list Log.record
}.

Definition emit (r : Log.record) (w : t) : t :=
  mk (influx_handler w) (mongo_handler w) (writes w) (batches w) (log w ++ [r]).

Definition set_mongo (m : MongoDBHandler.t) (w : t) : t :=
  mk (influx_handler w) (Some m) (writes w) (batches w) (log w).

Definition add_write (p : point) (r : res bool) (w : t) : t :=
  mk (influx_handler w) (mongo_handler w) (writes w ++ [(p, r)]) (batches w)
    (log w).

Definition add_batch (b : list pyval) (r : res bool) (w : t) : t :=
  mk (influx_handler w) (mongo_handler w) (writes w) (batches w ++ [(b, r)])
    (log w).

Definition reserved : list string := ["device_id"; "timestamp"].

Definition is_reserved (k : string) : bool :=
  existsb (String.eqb k) reserved.

(** The loop that copies the payload into [fields]. *)
Definition extract_fields (items : dict) : dict :=
  fold_left (fun acc kv => if is_reserved (fst kv) then acc
                           else dict_set (fst kv) (snd kv) acc) items [].

Section Process.

(** [datetime.fromisoformat]; [None] stands for the error it raises on a
    text it does not accept. *)
Variable fromisoformat : string -> option Z.

(** The time of the point: the payload's [timestamp] when it can be read,
    the clock otherwise; the flag tells that the clock was used for a
    timestamp that could not be read. *)
Definition point_time (timestamp : pyval) (utcnow : Z) : Z * bool :=
  if truthy timestamp then
    match py_replace timestamp "Z" "+00:00" with
    | Ok s =>
        match fromisoformat s with
        | Some t => (t, false)
        | None => (utcnow, true)
        end
    | Raise _ => (utcnow, true)
    end
  else (utcnow, false).

(** The first block of the [try]: the registry. *)
Definition touch_registry (device_id : string) (now : Z) (w : t) : t :=
  match mongo_handler w with
  | Some m =>
      if MongoDBHandler.is_connected m then
        let (device, m1) := MongoDBHandler.get_device device_id m in
        match device with
        | Some _ =>
            let (_, m2) := MongoDBHandler.update_device_status device_id "Online" m1 in
            let (_, m3) := MongoDBHandler.update_device_last_seen device_id now m2 in
            emit (Log.mk Log.DEBUG
                    "Updated device {device_id} status to Online and last_seen timestamp"
                    [Log.AStr device_id])
              (set_mongo m3 w)
        | None =>
            emit (Log.mk Log.WARNING "Device {device_id} not found in database"
                    [Log.AStr device_id])
              (set_mongo m1 w)
        end
      else w
  | None => w
  end.

Definition unavailable : Log.record :=
  Log.mk Log.WARNING "InfluxDB handler not available" [].

(** The second block of the [try]: the storage. *)
Definition store (device_id measurement : string) (payload : pyval)
  (utcnow : Z) : M t bool :=
  fun w =>
  match influx_handler w with
  | None => (Ok false, emit unavailable w)
  | Some a =>
    if negb (connected a) then (Ok false, emit unavailable w) else
    match py_get payload "value" with
    | Raise e => (Raise e, w)
    | Ok value =>
      if is_none value then
        (Ok false, emit (Log.mk Log.WARNING "No value in payload: {payload}"
                           [Log.AVal payload]) w)
      else
      match py_get payload "timestamp", py_items payload with
      | Ok timestamp, Ok items =>
          let (ts, bad) := point_time timestamp utcnow in
          let w1 :=
            if bad then
              emit (Log.mk Log.WARNING
                      "Invalid timestamp format in payload, using current time" []) w
            else w in
          let p := mk_point measurement [("device_id", device_id)] ts
                     (extract_fields items) in
          match write_data_point a p with
          | Ok true =>
              (Ok true,
               emit (Log.mk Log.DEBUG
                       "Data point for device {device_id} stored in InfluxDB"
                       [Log.AStr device_id])
                 (add_write p (Ok true) w1))
          | Ok false =>
              (Ok false,
               emit (Log.mk Log.WARNING
                       "Failed to store data point for device {device_id} in InfluxDB"
                       [Log.AStr device_id])
                 (add_write p (Ok false) w1))
          | Raise e => (Raise e, add_write p (Raise e) w1)
          end
      | Raise e, _ => (Raise e, w)
      | _, Raise e => (Raise e, w)
      end
    end
  end.

Definition process_mqtt_message (device_id measurement : string)
  (payload : pyval) (now utcnow : Z) (w : t) : bool * t :=
  let w0 := emit (Log.mk Log.DEBUG
                    "Processing MQTT message for device {device_id}, measurement {measurement}"
                    [Log.AStr device_id; Log.AStr measurement]) w in
  match store device_id measurement payload utcnow
          (touch_registry device_id now w0) with
  | (Ok b, w') => (b, w')
  | (Raise e, w') =>
      (false, emit (Log.mk Log.ERROR "Error processing MQTT message: {e}"
                      [Log.AExn e]) w')
  end.

End Process.

Definition process_data_batch (data_batch : list pyval) (w : t) : bool * t :=
  match influx_handler w with
  | None => (false, emit unavailable w)
  | Some a =>
    if negb (connected a) then (false, emit unavailable w) else
    match write_data_points a data_batch with
    | Ok true =>
        (true, emit (Log.mk Log.DEBUG
                       "Data batch with {len(data_batch)} points stored in InfluxDB"
                       [Log.ANat (length data_batch)])
                 (add_batch data_batch (Ok true) w))
    | Ok false =>
        (false, emit (Log.mk Log.WARNING "Failed to store data batch in InfluxDB" [])
                  (add_batch data_batch (Ok false) w))
    | Raise e =>
        (false, emit (Log.mk Log.ERROR "Error processing data batch: {e}"
                        [Log.AExn e])
                  (add_batch data_batch (Raise e) w))
    end
  end.

End DataProcessor.

(** ** The broker session: [MQTTHandler]

    The state of the handler, together with what it drives: the calls it
    has made on the broker client and the timer threads it has started.
    The events of the outside world (acknowledgements, lost sessions,
    messages, a timer firing) are the functions below, run one after the
    other. *)
Module MQTTHandler.
Import Py.

Inductive client_call :=
| UsernamePwSet (username password : string)
| Connect (broker : string) (port keepalive : Z)
| LoopStart
| LoopStop
| Disconnect
| Subscribe (topic : string)
| Publish (topic : string) (payload : pyval) (qos : Z) (retain : bool).

(** A [threading.Timer]: waiting for its interval, running its function,
    cancelled but not yet gone, or finished. *)
Inductive timer := Waiting | Running | Cancelled | Dead.

Section Handler.

(** Registered callbacks are compared with [in]; [W] is what they act on. *)
Context {cb : Type} `{EqDecision cb} {W : Type}.

Record t := mk {
  broker : string;
  port : Z;
  connected : bool;
  callbacks : list cb;
  retry_interval : Z;
  max_retries : nat;
  retry_count : nat;
  retry_thread : option nat;      (* index into [timers] *)
  timers : list timer;
  client : list client_call;
  log : list Log.record
}.

Definition emit (r : Log.record) (h : t) : t :=
  mk (broker h) (port h) (connected h) (callbacks h) (retry_interval h)
    (max_retries h) (retry_count h) (retry_thread h) (timers h) (client h)
    (log h ++ [r]).

Definition call (c : client_call) (h : t) : t :=
  mk (broker h) (port h) (connected h) (callbacks h) (retry_interval h)
    (max_retries h) (retry_count h) (retry_thread h) (timers h)
    (client h ++ [c]) (log h).

Definition set_connected (b : bool) (h : t) : t :=
  mk (broker h) (port h) b (callbacks h) (retry_interval h)
    (max_retries h) (retry_count h) (retry_thread h) (timers h) (client h)
    (log h).

Definition set_retry_count (n : nat) (h : t) : t :=
  mk (broker h) (port h) (connected h) (callbacks h) (retry_interval h)
    (max_retries h) n (retry_thread h) (timers h) (client h) (log h).

Definition set_timers (ts : list timer) (h : t) : t :=
  mk (broker h) (port h) (connected h) (callbacks h) (retry_interval h)
    (max_retries h) (retry_count h) (retry_thread h) ts (client h) (log h).

Definition set_callbacks (cs : list cb) (h : t) : t :=
  mk (broker h) (port h) (connected h) cs (retry_interval h)
    (max_retries h) (retry_count h) (retry_thread h) (timers h) (client h)
    (log h).

(** [threading.Timer(...).start()], kept in [self.retry_thread]. *)
Definition start_timer (h : t) : t :=
  mk (broker h) (port h) (connected h) (callbacks h) (retry_interval h)
    (max_retries h) (retry_count h) (Some (length (timers h)))
    (timers h ++ [Waiting]) (client h) (log h).

Definition is_connected (h : t) : bool := connected h.

(** [thread.is_alive()] *)
Definition alive (ts : list timer) (i : nat) : bool :=
  match ts !! i with
  | Some Waiting | Some Running | Some Cancelled => true
  | Some Dead | None => false
  end.

(** [self.retry_thread is not None and self.retry_thread.is_alive()] *)
Definition retry_alive (h : t) : bool :=
  match retry_thread h with
  | Some i => alive (timers h) i
  | None => false
  end.

Definition _schedule_reconnect (h : t) : t :=
  if Nat.ltb (retry_count h) (max_retries h) then
    let h1 := emit (Log.mk Log.INFO
                      "Scheduling reconnection attempt ({self.retry_count + 1}/{self.max_retries})..."
                      [Log.ANat (retry_count h + 1); Log.ANat (max_retries h)]) h in
    let h2 := set_retry_count (retry_count h1 + 1) h1 in
    if retry_alive h2 then h2 else start_timer h2
  else
    emit (Log.mk Log.ERROR "Maximum reconnection attempts reached" []) h.

(** [ok] tells whether [client.connect] returns or raises. *)
Definition _connect (ok : bool) (h : t) : t :=
  let h1 := emit (Log.mk Log.INFO
                    "Connecting to MQTT broker at {self.broker}:{self.port}..."
                    [Log.AStr (broker h); Log.AInt (port h)]) h in
  let h2 := call (Connect (broker h) (port h) 60) h1 in
  if ok then call LoopStart h2
  else
    _schedule_reconnect
      (emit (Log.mk Log.ERROR "Failed to connect to MQTT broker: {e}"
               [Log.AExn ConnectionError]) h2).

(** The constructor; the creation of the client and the wiring of its
    callbacks leave no trace in the state. *)
Definition __init__ (broker : string) (port : Z)
  (username password : option string) (ok : bool) : t :=
  let h0 := mk broker port false [] 5 12 0 None [] [] [] in
  let h1 :=
    match username, password with
    | Some u, Some p =>
        if negb (String.eqb u EmptyString) && negb (String.eqb p EmptyString)
        then call (UsernamePwSet u p) h0 else h0
    | _, _ => h0
    end in
  _connect ok h1.

Definition _on_connect (rc : Z) (h : t) : t :=
  if Z.eqb rc 0 then
    let h1 := emit (Log.mk Log.INFO "Connected to MQTT broker" []) h in
    let h2 := set_retry_count 0 (set_connected true h1) in
    emit (Log.mk Log.INFO "Subscribed to device data topics" [])
      (call (Subscribe "devices/+/data/#") h2)
  else
    _schedule_reconnect
      (set_connected false
         (emit (Log.mk Log.ERROR "Failed to connect with code {rc}"
                  [Log.AInt rc]) h)).

Definition _on_disconnect (rc : Z) (h : t) : t :=
  let h1 := set_connected false
              (emit (Log.mk Log.WARNING
                       "Disconnected from MQTT broker with code {rc}"
                       [Log.AInt rc]) h) in
  if negb (Z.eqb rc 0) then _schedule_reconnect h1 else h1.

(** The retry timer [i] reaches the end of its interval: its thread runs
    [_connect] and ends. *)
Definition timer_fires (i : nat) (ok : bool) (h : t) : t :=
  match timers h !! i with
  | Some Waiting =>
      let h1 := _connect ok (set_timers (<[i := Running]> (timers h)) h) in
      set_timers (<[i := Dead]> (timers h1)) h1
  | _ => h
  end.

(** The thread of a cancelled timer ends. *)
Definition thread_exits (i : nat) (h : t) : t :=
  match timers h !! i with
  | Some Cancelled => set_timers (<[i := Dead]> (timers h)) h
  | _ => h
  end.

(** [timer.cancel()] *)
Definition cancel (i : nat) (ts : list timer) : list timer :=
  match ts !! i with
  | Some Waiting => <[i := Cancelled]> ts
  | _ => ts
  end.

Definition close (h : t) : t :=
  let h1 :=
    match retry_thread h with
    | Some i => if alive (timers h) i then set_timers (cancel i (timers h)) h
                else h
    | None => h
    end in
  emit (Log.mk Log.INFO "Disconnected from MQTT broker" [])
    (call Disconnect (call LoopStop h1)).

Definition register_callback (c : cb) (h : t) : t :=
  if bool_decide (c ∈ callbacks h) then h
  else set_callbacks (callbacks h ++ [c]) h.

(** The payload handed to the callbacks; the decoding error of bytes
    that are not UTF-8 is not the one the inner [try] catches. *)
Definition decode (raw : string) : res pyval :=
  match bytes_decode raw with
  | Raise e => Raise e
  | Ok text =>
      match Json.loads text with
      | Ok v => Ok v
      | Raise _ => Ok (PDict [("value", PStr text)])
      end
  end.

(** Topic of a message: [(parts[1], parts[3])] when there are four
    parts. *)
Definition parse (topic : string) : option (string * string) :=
  let parts := split "/" topic in
  if Nat.leb 4 (length parts) then
    match parts !! 1, parts !! 3 with
    | Some device_id, Some measurement => Some (device_id, measurement)
    | _, _ => None
    end
  else None.

(** A call of a registered callback: it returns, leaving the payload it
    was handed as given back, or raises. *)
Variable invoke : cb -> string -> string -> pyval -> W -> res pyval * W.

(** [for callback in self.callbacks: callback(...)] *)
Fixpoint dispatch (cs : list cb) (device_id measurement : string)
  (payload : pyval) (w : W) : res unit * W :=
  match cs with
  | [] => (Ok tt, w)
  | c :: cs' =>
      match invoke c device_id measurement payload w with
      | (Ok payload', w') => dispatch cs' device_id measurement payload' w'
      | (Raise e, w') => (Raise e, w')
      end
  end.

Definition _on_message (topic raw : string) (h : t) (w : W) : t * W :=
  let h0 := emit (Log.mk Log.DEBUG "Received message on topic: {msg.topic}"
                    [Log.AStr topic]) h in
  let failed e := emit (Log.mk Log.ERROR "Error processing message: {e}"
                          [Log.AExn e]) h0 in
  match parse topic with
  | Some (device_id, measurement) =>
      match decode raw with
      | Raise e => (failed e, w)
      | Ok payload =>
          match dispatch (callbacks h0) device_id measurement payload w with
          | (Ok _, w') => (h0, w')
          | (Raise e, w') => (failed e, w')
          end
      end
  | None =>
      (emit (Log.mk Log.WARNING "Invalid topic format: {msg.topic}"
               [Log.AStr topic]) h0, w)
  end.

(** [json.dumps]; every value of [pyval] can be serialised. *)
Variable json_dumps : pyval -> string.

(** [answer] is what [client.publish] does: the return code of its
    result, or an exception. *)
Definition publish (topic : string) (payload : pyval) (qos : Z)
  (retain : bool) (answer : res Z) (h : t) : bool * t :=
  if negb (connected h) then
    (false, emit (Log.mk Log.WARNING "Not connected to MQTT broker" []) h)
  else
    let failed e h' :=
      (false, emit (Log.mk Log.ERROR "Error publishing message: {e}"
                      [Log.AExn e]) h') in
    let p :=
      match payload with
      | PDict _ => PStr (json_dumps payload)
      | _ => payload
      end in
    let h1 := call (Publish topic p qos retain) h in
    match answer with
    | Raise e => failed e h1
    | Ok rc =>
        if Z.eqb rc 0 then
          (true, emit (Log.mk Log.DEBUG "Published message to {topic}"
                         [Log.AStr topic]) h1)
        else
          (false, emit (Log.mk Log.ERROR "Failed to publish message: {result.rc}"
                          [Log.AInt rc]) h1)
    end.

(** [payload['timestamp'] = ...], on the empty dictionary when no payload
    is given; only a dictionary takes the assignment. *)
Definition stamped (payload : pyval) (now_iso : string) : res pyval :=
  match payload with
  | PNone => Ok (PDict [("timestamp", PStr now_iso)])
  | PDict d => Ok (PDict (dict_set "timestamp" (PStr now_iso) d))
  | _ => Raise TypeError
  end.

Definition command_topic (device_id command : string) : string :=
  "devices/" +:+ device_id +:+ "/commands/" +:+ command.

Definition send_command (device_id command : string) (payload : pyval)
  (now_iso : string) (answer : res Z) (h : t) : res bool * t :=
  match stamped payload now_iso with
  | Raise e => (Raise e, h)
  | Ok p =>
      let (r, h') := publish (command_topic device_id command) p 0 false answer h in
      (Ok r, h')
  end.

(** What can happen to a handler: the callbacks the broker client and
    the timer threads run, and the calls of its users. *)
Inductive event :=
| OnConnect (rc : Z)
| OnDisconnect (rc : Z)
| OnMessage (topic raw : string)
| TimerFires (i : nat) (ok : bool)
| ThreadExits (i : nat)
| RegisterCallback (c : cb)
| CallPublish (topic : string) (payload : pyval) (qos : Z) (retain : bool)
    (answer : res Z)
| SendCommand (device_id command : string) (payload : pyval)
    (now_iso : string) (answer : res Z)
| Close.

Definition step (e : event) (s : t * W) : t * W :=
  let (h, w) := s in
  match e with
  | OnConnect rc => (_on_connect rc h, w)
  | OnDisconnect rc => (_on_disconnect rc h, w)
  | OnMessage topic raw => _on_message topic raw h w
  | TimerFires i ok => (timer_fires i ok h, w)
  | ThreadExits i => (thread_exits i h, w)
  | RegisterCallback c => (register_callback c h, w)
  | CallPublish topic payload qos retain answer =>
      (snd (publish topic payload qos retain answer h), w)
  | SendCommand device_id command payload now_iso answer =>
      (snd (send_command device_id command payload now_iso answer h), w)
  | Close => (close h, w)
  end.

Definition run (es : list event) (s : t * W) : t * W :=
  fold_left (fun s e => step e s) es s.

(** The states a handler can be in: the one its constructor leaves, and
    those an event leads to. *)
Inductive reachable : t * W -> Prop :=
| reachable_init broker port username password ok w :
    reachable (__init__ broker port username password ok, w)
| reachable_step e s : reachable s -> reachable (step e s).

(** The acknowledgement of a successful connection. *)
Definition is_connack (e : event) : bool :=
  match e with
  | OnConnect rc => Z.eqb rc 0
  | _ => false
  end.

(** Timer [i] waits for its interval to end. *)
Definition pending (h : t) (i : nat) : Prop := timers h !! i = Some Waiting.

End Handler.

Arguments t : clear implicits.
Arguments event : clear implicits.

End MQTTHandler.

(** ** The device manager: [DeviceManager]

    The registry handler it is given, or none, and the MQTT object, seen
    through the two methods the manager looks for: [publish_message],
    whose presence is [has_mqtt], and the optional [subscribe_to_topic]
    and [unsubscribe_from_topic].  [M] is the state of that object. *)
Module DeviceManager.
Import Py.

(** A demo device: id, name, type, location and the time of creation. *)
Record demo := mk_demo {
  demo_id : string;
  demo_name : string;
  demo_type : string;
  demo_location : string;
  demo_last_seen : string
}.

Section Manager.

Context {M : Type}.

Record t := mk {
  mongo_handler : option MongoDBHandler.t;
  mqtt_handler : M;
  has_mqtt : bool;
  demo_devices : list demo;
  log : list Log.record
}.

Definition has_mongo (dm : t) : bool :=
  match mongo_handler dm with Some _ => true | None => false end.

Definition emit (r : Log.record) (dm : t) : t :=
  mk (mongo_handler dm) (mqtt_handler dm) (has_mqtt dm) (demo_devices dm)
    (log dm ++ [r]).

Definition set_mongo (m : MongoDBHandler.t) (dm : t) : t :=
  mk (Some m) (mqtt_handler dm) (has_mqtt dm) (demo_devices dm) (log dm).

Definition set_mqtt (q : M) (dm : t) : t :=
  mk (mongo_handler dm) q (has_mqtt dm) (demo_devices dm) (log dm).

Definition __init__ (mongo : option MongoDBHandler.t) (mqtt : M)
  (has_publish_message : bool) (now_iso : string) : t :=
  mk mongo mqtt has_publish_message
    [mk_demo "demo-temp-sensor-1" "Demo Temperature Sensor 1"
       "Temperature Sensor" "Living Room" now_iso;
     mk_demo "demo-temp-sensor-2" "Demo Temperature Sensor 2"
       "Temperature Sensor" "Bedroom" now_iso;
     mk_demo "demo-humid-sensor-1" "Demo Humidity Sensor 1"
       "Humidity Sensor" "Kitchen" now_iso]
    [].

(** The methods of the MQTT object. *)
Variable subscribe_to_topic : option (string -> M -> res unit * M).
Variable unsubscribe_from_topic : option (string -> M -> res unit * M).
Variable publish_message : string -> pyval -> M -> res unit * M.

(** The body of a [try]: the optional call, then the message; an
    exception of either ends it and is logged. *)
Definition notify (optional : option (string -> M -> res unit * M))
  (device_id topic : string) (message : pyval) (failure : string) (dm : t) : t :=
  let first :=
    match optional with
    | Some f => f ("devices/" +:+ device_id +:+ "/#") (mqtt_handler dm)
    | None => (Ok tt, mqtt_handler dm)
    end in
  match first with
  | (Raise e, q) => emit (Log.mk Log.ERROR failure [Log.AExn e]) (set_mqtt q dm)
  | (Ok _, q) =>
      match publish_message topic message q with
      | (Ok _, q') => set_mqtt q' dm
      | (Raise e, q') =>
          emit (Log.mk Log.ERROR failure [Log.AExn e]) (set_mqtt q' dm)
      end
  end.

Definition add_device (device_id name : string)
  (device_type location project_id : option string)
  (now_text : string) (now : pyfloat) (dm : t) : bool * t :=
  match mongo_handler dm with
  | None =>
      (false, emit (Log.mk Log.WARNING "MongoDB not available, can't add device" [])
                dm)
  | Some m =>
      let (result, m') :=
        MongoDBHandler.add_device device_id name device_type location
          project_id now_text m in
      let dm' := set_mongo m' dm in
      if result && has_mqtt dm then
        (result,
         notify subscribe_to_topic device_id
           ("devices/" +:+ device_id +:+ "/control")
           (PDict [("action", PStr "welcome");
                   ("message", PStr ("Welcome to IoT Platform, " +:+ name +:+ "!"));
                   ("timestamp", PFloat now)])
           "MQTT error while adding device: {e}" dm')
      else (result, dm')
  end.

(** The registered devices, or the demo devices when the registry is
    not connected or holds none. *)
Definition get_devices (dm : t) : (list demo + list MongoDBHandler.device) * t :=
  match mongo_handler dm with
  | None => (inl (demo_devices dm), dm)
  | Some m =>
      if negb (MongoDBHandler.is_connected m) then (inl (demo_devices dm), dm)
      else
        let (devices, m') := MongoDBHandler.get_devices m in
        match devices with
        | [] => (inl (demo_devices dm), set_mongo m' dm)
        | _ => (inr devices, set_mongo m' dm)
        end
  end.

Definition remove_device (device_id : string) (now : pyfloat) (dm : t)
  : bool * t :=
  match mongo_handler dm with
  | None =>
      (false,
       emit (Log.mk Log.WARNING "MongoDB not available, can't remove device" [])
         dm)
  | Some m =>
      if startswith "demo-" device_id then
        (true, emit (Log.mk Log.INFO "Simulating removal of demo device {device_id}"
                       [Log.AStr device_id]) dm)
      else
        let (result, m') := MongoDBHandler.remove_device device_id m in
        let dm' := set_mongo m' dm in
        if result && has_mqtt dm then
          (result,
           notify unsubscribe_from_topic device_id
             ("devices/" +:+ device_id +:+ "/control")
             (PDict [("action", PStr "goodbye");
                     ("message", PStr "Device removed from platform");
                     ("timestamp", PFloat now)])
             "MQTT error while removing device: {e}" dm')
        else (result, dm')
  end.

End Manager.

Arguments t : clear implicits.

End DeviceManager.

(** ** The helpers of [utils.py] *)
Module Utils.
Import Py.

(** [parse_mqtt_topic]: the tests on the number of parts are the cases
    of the match. *)
Definition parse_mqtt_topic (topic : string) : dict :=
  let parts := split "/" topic in
  let result := [("full_topic", PStr topic);
                 ("levels", PInt (Z.of_nat (length parts)))] in
  match parts with
  | p0 :: p1 :: rest =>
      if String.eqb p0 "devices" then
        let result := dict_set "device_id" (PStr p1)
                        (dict_set "type" (PStr "device") result) in
        match rest with
        | p2 :: _ => dict_set "channel" (PStr p2) result
        | [] => result
        end
      else result
  | _ => result
  end.

End Utils.

(** ** Vocabulary of the statements *)
Module Statement.
Import Py.

(** [c] occurs in [s]. *)
Fixpoint has_char (c : ascii) (s : string) : bool :=
  match s with
  | EmptyString => false
  | String a r => Ascii.eqb a c || has_char c r
  end.

(** *** The time-series store *)

(** The rows a bucket of the server holds. *)
Definition rows_in (srv : InfluxDBHandler.server) (bucket : string)
  : list InfluxDBHandler.row :=
  default [] (InfluxDBHandler.get_bucket bucket (InfluxDBHandler.buckets srv)).

(** A reading of the device has been recorded in the five minutes before
    [now]. *)
Definition fresh_reading (srv : InfluxDBHandler.server) (bucket : string)
  (device_id : string) (now : Z) : Prop :=
  exists r, In r (rows_in srv bucket)
            /\ InfluxDBHandler.tag "device_id" (InfluxDBHandler.r_tags r)
               = Some device_id
            /\ (now - 300 * 1000000000 <= InfluxDBHandler.r_time r < now)%Z.

(** A device id that the client writes and the server reads as it is:
    not empty, of letters, digits, [-], [_] and [.]. *)
Definition id_char (c : ascii) : bool :=
  byte_in 48 57 c || byte_in 65 90 c || byte_in 97 122 c
  || Ascii.eqb c "-" || Ascii.eqb c "_" || Ascii.eqb c ".".

Definition simple_id (s : string) : bool :=
  negb (String.eqb s EmptyString) && forallb id_char (list_ascii_of_string s).

(** The running count of [count()]. *)
Definition tally (rows : list InfluxDBHandler.row)
  (acc : list (InfluxDBHandler.series * Z)) : list (InfluxDBHandler.series * Z) :=
  fold_left (fun acc r => InfluxDBHandler.bump (InfluxDBHandler.series_of r) acc)
    rows acc.

(** *** The processor *)

(** The documents of the registry a processor holds. *)
Definition registry (w : DataProcessor.t) : list MongoDBHandler.device :=
  match DataProcessor.mongo_handler w with
  | Some m =>
      match MongoDBHandler.db m with
      | Some d => MongoDBHandler.devices d
      | None => []
      end
  | None => []
  end.

(** The registry of the processor can be reached and holds [ds]. *)
Definition registry_up (w : DataProcessor.t)
  (ds : list MongoDBHandler.device) : Prop :=
  exists m d, DataProcessor.mongo_handler w = Some m
              /\ MongoDBHandler.client m = true
              /\ MongoDBHandler.db m = Some d
              /\ MongoDBHandler.up d = true
              /\ MongoDBHandler.devices d = ds.

(** The processor with another registry handler, or none. *)
Definition with_registry (mongo : option MongoDBHandler.t)
  (w : DataProcessor.t) : DataProcessor.t :=
  DataProcessor.mk (DataProcessor.influx_handler w) mongo
    (DataProcessor.writes w) (DataProcessor.batches w) (DataProcessor.log w).

(** A document after a message of its device. *)
Definition seen (now : Z) (x : MongoDBHandler.device) : MongoDBHandler.device :=
  MongoDBHandler.set_last_seen now (MongoDBHandler.set_status "Online" x).

(** The payload is a dictionary with a [value] that is not [None]: its
    entries. *)
Definition has_value (payload : pyval) : option dict :=
  match payload with
  | PDict d =>
      match dict_lookup "value" d with
      | Some v => if is_none v then None else Some d
      | None => None
      end
  | _ => None
  end.

(** The time of a point, read off the entries of the payload: the
    [timestamp], when it is a text that is not empty and that the parser
    accepts once its [Z] are written as offsets, and the clock otherwise. *)
Definition reading_time (fromisoformat : string -> option Z) (d : dict)
  (utcnow : Z) : Z :=
  match dict_lookup "timestamp" d with
  | Some (PStr s) =>
      if String.eqb s EmptyString then utcnow
      else match fromisoformat (replace "Z" "+00:00" s) with
           | Some t => t
           | None => utcnow
           end
  | _ => utcnow
  end.

(** The point the processor builds for a payload with the entries [d]. *)
Definition point_of (fromisoformat : string -> option Z) (dev m : string)
  (d : dict) (utcnow : Z) : DataProcessor.point :=
  DataProcessor.mk_point m [("device_id", dev)]
    (fst (DataProcessor.point_time fromisoformat
            (default PNone (dict_lookup "timestamp" d)) utcnow))
    (DataProcessor.extract_fields d).

(** The warnings of the processor: for a payload without a value, and
    for a device the registry does not hold. *)
Definition no_value (payload : pyval) : Log.record :=
  Log.mk Log.WARNING "No value in payload: {payload}" [Log.AVal payload].

Definition not_found (dev : string) : Log.record :=
  Log.mk Log.WARNING "Device {device_id} not found in database" [Log.AStr dev].

(** One turn of the loop of [extract_fields]. *)
Definition copy_field (acc : dict) (kv : string * pyval) : dict :=
  if DataProcessor.is_reserved (fst kv) then acc
  else dict_set (fst kv) (snd kv) acc.

(** *** The broker session *)

(** The brackets a payload opens. *)
Fixpoint brackets (s : string) : nat :=
  match s with
  | EmptyString => 0
  | String c r =>
      if Ascii.eqb c "[" || Ascii.eqb c "{" then S (brackets r)
      else brackets r
  end.

(** A payload within the two limits of an interpreter that [Json.loads]
    leaves out, beyond which [json.loads] raises an error that is not a
    [JSONDecodeError]: the digits of an integer, 4300, and the depth to
    which arrays and objects nest, bounded by the stack.  At most 4300
    bytes that open at most 100 brackets are inside both. *)
Definition within_limits (raw : string) : Prop :=
  String.length raw <= 4300 /\ brackets raw <= 100.

(** The entries of a command payload: none when no payload is given. *)
Definition entries (payload : pyval) : option dict :=
  match payload with
  | PNone => Some []
  | PDict d => Some d
  | _ => None
  end.

(** What a call that only logs or publishes leaves alone. *)
Definition same_session {cb : Type} (h h' : MQTTHandler.t cb) : Prop :=
  MQTTHandler.connected h' = MQTTHandler.connected h
  /\ MQTTHandler.retry_count h' = MQTTHandler.retry_count h
  /\ MQTTHandler.max_retries h' = MQTTHandler.max_retries h
  /\ MQTTHandler.retry_thread h' = MQTTHandler.retry_thread h
  /\ MQTTHandler.timers h' = MQTTHandler.timers h.

(** Every timer thread that is alive is the one the handler holds. *)
Definition timers_owned {cb : Type} (h : MQTTHandler.t cb) : Prop :=
  forall i, MQTTHandler.alive (MQTTHandler.timers h) i = true ->
            MQTTHandler.retry_thread h = Some i.

Definition session_inv {cb : Type} (h : MQTTHandler.t cb) : Prop :=
  timers_owned h
  /\ MQTTHandler.retry_count h <= MQTTHandler.max_retries h
  /\ MQTTHandler.max_retries h = 12.

(** The timers after a step: as many as before, or one more, started
    when no timer thread was alive and counted as an attempt. *)
Definition timer_step {cb : Type} (h h' : MQTTHandler.t cb) : Prop :=
  length (MQTTHandler.timers h') = length (MQTTHandler.timers h)
  \/ (length (MQTTHandler.timers h') = S (length (MQTTHandler.timers h))
      /\ MQTTHandler.retry_count h' = S (MQTTHandler.retry_count h)
      /\ forall i, MQTTHandler.alive (MQTTHandler.timers h) i = false).

(** *** The registry handler *)

(** The documents a registry handler can see. *)
Definition stored (h : MongoDBHandler.t) : list MongoDBHandler.device :=
  match MongoDBHandler.db h with
  | Some d => MongoDBHandler.devices d
  | None => []
  end.

Definition stored_projects (h : MongoDBHandler.t) : list MongoDBHandler.project :=
  match MongoDBHandler.db h with
  | Some d => MongoDBHandler.projects d
  | None => []
  end.

(** The handler is connected and its server answers. *)
Definition serving (h : MongoDBHandler.t) : Prop :=
  MongoDBHandler.client h = true
  /\ exists d, MongoDBHandler.db h = Some d /\ MongoDBHandler.up d = true.

(** The ids of a list of documents. *)
Definition ids (ds : list MongoDBHandler.device) : list string :=
  map MongoDBHandler.device_id ds.

End Statement.

(** ** Sample data, to run the code on *)
Module Sample.
Import Py.

(** A parser of dates that knows one text. *)
Definition fromisoformat (s : string) : option Z :=
  if String.eqb s "2024-05-01T12:00:00+00:00" then Some 1714564800000000%Z
  else None.

(** A serialiser that writes the keys of a dictionary only. *)
Definition json_dumps (v : pyval) : string :=
  match v with
  | PDict d => String.concat "," (dict_keys d)
  | _ => EmptyString
  end.

Definition storage_ok : DataProcessor.adapter :=
  DataProcessor.mk_adapter true (fun _ => Ok true) (fun _ => Ok true).

Definition storage_failing : DataProcessor.adapter :=
  DataProcessor.mk_adapter true (fun _ => Ok false) (fun _ => Ok false).

Definition storage_down : DataProcessor.adapter :=
  DataProcessor.mk_adapter false (fun _ => Ok true) (fun _ => Ok true).

Definition temp1 : MongoDBHandler.device :=
  MongoDBHandler.mk_device "temp-1" "Thermometer" (Some "temperature")
    (Some "Kitchen") None "2024-05-01 11:00:00" None "Offline".

Definition mongo (ds : list MongoDBHandler.device) : MongoDBHandler.t :=
  MongoDBHandler.mk true (Some (MongoDBHandler.mk_db ds [] true)) [].

(** A registry with a project and a device that belongs to it. *)
Definition home : MongoDBHandler.project :=
  MongoDBHandler.mk_project "home" "Home" None "alice" "2024-05-01 10:00:00".

Definition temp2 : MongoDBHandler.device :=
  MongoDBHandler.mk_device "temp-2" "Hygrometer" None None (Some "home")
    "2024-05-01 11:30:00" None "Offline".

Definition mongo_home : MongoDBHandler.t :=
  MongoDBHandler.mk true
    (Some (MongoDBHandler.mk_db [temp1; temp2] [home] true)) [].

Definition world (a : DataProcessor.adapter)
  (ds : list MongoDBHandler.device) : DataProcessor.t :=
  DataProcessor.mk (Some a) (Some (mongo ds)) [] [] [].

(** The payload of the end-to-end example, decoded. *)
Definition reading : pyval :=
  PDict [("value", PFloat (FDec 223 (-1)));
         ("timestamp", PStr "2024-05-01T12:00:00Z")].

(** The same as it arrives, as bytes. *)
Definition quoted (s : string) : string :=
  String Json.dquote (s +:+ String Json.dquote EmptyString).

Definition raw_reading : string :=
  "{" +:+ quoted "value" +:+ ":22.3, " +:+ quoted "timestamp" +:+ ": "
  +:+ quoted "2024-05-01T12:00:00Z" +:+ "}".

(** A payload without [value]. *)
Definition reading_no_value : pyval :=
  PDict [("temperature", PFloat (FDec 215 (-1)))].

Definition now : Z := 1714564800000000000.

(** A row written one minute before [now]. *)
Definition row1 : InfluxDBHandler.row :=
  InfluxDBHandler.mk_row (now - 60 * 1000000000) "sensors"
    [("device_id", "temp-1")] "value"
    (InfluxDBHandler.Number (PFloat (FDec 223 (-1)))).

(** A server that takes every field of every point. *)
Definition server : InfluxDBHandler.server :=
  InfluxDBHandler.mk_server [("iot", [row1])] true
    (fun _ _ _ _ => Raise ValueError)
    (fun _ _ p => InfluxDBHandler.Taken (InfluxDBHandler.p_fields p)).

Definition influx (connected : bool) : InfluxDBHandler.t :=
  InfluxDBHandler.mk connected connected "iot" [].

(** The processor as the one callback of a handler. *)
Definition invoke (c : nat) (device_id measurement : string) (payload : pyval)
  (w : DataProcessor.t) : res pyval * DataProcessor.t :=
  (Ok payload,
   snd (DataProcessor.process_mqtt_message fromisoformat device_id measurement
          payload 0 0 w)).

(** A handler whose first connection failed, and the same after a
    session is reported lost. *)
Definition failed : MQTTHandler.t nat :=
  MQTTHandler.__init__ "localhost" 1883 None None false.

Definition retrying : MQTTHandler.t nat * DataProcessor.t :=
  MQTTHandler.step invoke json_dumps (MQTTHandler.OnDisconnect 1)
    (failed, world storage_ok [temp1]).

Definition online : MQTTHandler.t nat :=
  MQTTHandler._on_connect 0
    (MQTTHandler.__init__ "localhost" 1883 None None true).

(** A handler that has used up its attempts: its first connection
    failed and eleven sessions were then reported lost. *)
Definition exhausted : MQTTHandler.t nat * DataProcessor.t :=
  MQTTHandler.run invoke json_dumps
    (repeat (MQTTHandler.OnDisconnect 1) 11)
    (failed, world storage_ok [temp1]).

(** Three bytes that are not UTF-8. *)
Definition not_utf8 : string :=
  String (ascii_of_nat 255) (String (ascii_of_nat 254) (String "a" EmptyString)).

(** A registry with a device whose id starts with [demo-], and a manager
    on it whose MQTT object records what it is sent. *)
Definition demo1 : MongoDBHandler.device :=
  MongoDBHandler.mk_device "demo-1" "Trial" None None None
    "2024-05-01 11:00:00" None "Offline".

Definition publish_message (topic : string) (message : pyval)
  (sent : list (string * pyval)) : res unit * list (string * pyval) :=
  (Ok tt, (sent ++ [(topic, message)])%list).

Definition manager : DeviceManager.t (list (string * pyval)) :=
  DeviceManager.__init__ (Some (mongo [demo1; temp1])) [] true
    "2024-05-01T12:00:00".

End Sample.

Import Statement.

(** * Properties *)

Import Py.

(** ** Strings *)

Lemma split_not_nil sep s : split sep s <> [].
Proof.
  destruct s as [|c s]; simpl; [discriminate|].
  destruct (Ascii.eqb c sep); [discriminate|].
  destruct (split sep s); discriminate.
Qed.

Lemma split_plain sep s :
  has_char sep s = false -> split sep s = [s].
Proof.
  induction s as [|c s IH]; simpl; [reflexivity|].
  intros H. apply orb_false_elim in H as [Hc Hs].
  rewrite Hc, (IH Hs). reflexivity.
Qed.

Lemma split_app_sep sep a rest :
  has_char sep a = false ->
  split sep (a +:+ String sep rest) = a :: split sep rest.
Proof.
  induction a as [|c a IH]; simpl.
  - intros _. rewrite Ascii.eqb_refl. reflexivity.
  - intros H. apply orb_false_elim in H as [Hc Ha].
    rewrite Hc, (IH Ha). reflexivity.
Qed.

Lemma append_assoc (a b c : string) : (a +:+ b) +:+ c = a +:+ (b +:+ c).
Proof.
  induction a as [|x a IH]; [reflexivity|].
  change (String x ((a +:+ b) +:+ c) = String x (a +:+ (b +:+ c))).
  now rewrite IH.
Qed.

Lemma parse_spec topic :
  MQTTHandler.parse topic =
    match split "/" topic with
    | _ :: id :: _ :: ch :: _ => Some (id, ch)
    | _ => None
    end.
Proof.
  unfold MQTTHandler.parse.
  destruct (split "/" topic) as [|p0 [|p1 [|p2 [|p3 ps]]]]; reflexivity.
Qed.

Lemma parse_four_segments topic :
  4 <= length (split "/" topic) ->
  exists id ch, split "/" topic !! 1 = Some id /\ split "/" topic !! 3 = Some ch
                /\ MQTTHandler.parse topic = Some (id, ch).
Proof.
  intros Hlen. rewrite parse_spec.
  destruct (split "/" topic) as [|p0 [|p1 [|p2 [|p3 ps]]]];
    simpl in Hlen; try lia.
  exists p1, p3. repeat split; reflexivity.
Qed.

Lemma parse_device_topic id ch :
  has_char "/" id = false ->
  has_char "/" ch = false ->
  MQTTHandler.parse ("devices/" +:+ id +:+ "/data/" +:+ ch) = Some (id, ch).
Proof.
  intros Hid Hch. rewrite parse_spec.
  change ("devices/" +:+ id +:+ "/data/" +:+ ch)
    with ("devices" +:+ String "/" (id +:+ String "/" ("data" +:+ String "/" ch))).
  rewrite (split_app_sep "/" "devices") by reflexivity.
  rewrite (split_app_sep "/" id) by exact Hid.
  rewrite (split_app_sep "/" "data") by reflexivity.
  rewrite (split_plain "/" ch) by exact Hch.
  reflexivity.
Qed.

(** C2. A topic with at least four slash-separated segments is parsed
    into its second segment, the device, and its fourth, the channel; a
    topic [devices/<id>/data/<ch>] gives [id] and [ch].  A topic with
    fewer segments has no parse, and its message is dropped: a warning is
    logged, no callback runs, and the handler is otherwise as it was. *)
Theorem topic_parse (topic : string) :
  let parts := split "/" topic in
  (4 <= length parts ->
     exists id ch, parts !! 1 = Some id /\ parts !! 3 = Some ch
                   /\ MQTTHandler.parse topic = Some (id, ch))
  /\ (length parts < 4 ->
        MQTTHandler.parse topic = None
        /\ forall (cb W : Type)
                  (invoke : cb -> string -> string -> pyval -> W -> res pyval * W)
                  raw (h : MQTTHandler.t cb) (w : W),
             MQTTHandler._on_message invoke topic raw h w =
               (MQTTHandler.emit
                  (Log.mk Log.WARNING "Invalid topic format: {msg.topic}"
                     [Log.AStr topic])
                  (MQTTHandler.emit
                     (Log.mk Log.DEBUG "Received message on topic: {msg.topic}"
                        [Log.AStr topic]) h), w))
  /\ (forall id ch,
        has_char "/" id = false ->
        has_char "/" ch = false ->
        topic = "devices/" +:+ id +:+ "/data/" +:+ ch ->
        MQTTHandler.parse topic = Some (id, ch)).
Proof.
  cbv zeta. split; [|split].
  - apply parse_four_segments.
  - intros Hlen.
    assert (Hp : MQTTHandler.parse topic = None).
    { rewrite parse_spec.
      destruct (split "/" topic) as [|p0 [|p1 [|p2 [|p3 ps]]]];
        simpl in Hlen; try reflexivity; lia. }
    split; [exact Hp|].
    intros cb W invoke raw h w. unfold MQTTHandler._on_message.
    rewrite Hp. reflexivity.
  - intros id ch Hid Hch ->. now apply parse_device_topic.
Qed.

Lemma topic_parse_witness :
  MQTTHandler.parse "devices/temp-1/data/sensors" = Some ("temp-1", "sensors")
  /\ MQTTHandler.parse "devices/temp-1" = None.
Proof.
  split.
  - apply (proj2 (proj2 (topic_parse "devices/temp-1/data/sensors")));
      reflexivity.
  - apply (proj1 (proj2 (topic_parse "devices/temp-1"))). simpl. lia.
Defined.

(** ** The ingestion pipeline *)

Lemma touch_registry_frame dev now w :
  DataProcessor.influx_handler (DataProcessor.touch_registry dev now w)
    = DataProcessor.influx_handler w
  /\ DataProcessor.writes (DataProcessor.touch_registry dev now w)
     = DataProcessor.writes w
  /\ DataProcessor.batches (DataProcessor.touch_registry dev now w)
     = DataProcessor.batches w.
Proof.
  unfold DataProcessor.touch_registry.
  destruct (DataProcessor.mongo_handler w) as [m|]; [|auto].
  destruct (MongoDBHandler.is_connected m); [|auto].
  destruct (MongoDBHandler.get_device dev m) as [[x|] m1].
  - destruct (MongoDBHandler.update_device_status dev "Online" m1) as [b2 m2].
    destruct (MongoDBHandler.update_device_last_seen dev now m2) as [b3 m3].
    auto.
  - auto.
Qed.

(** The processor reaches the write exactly for a connected handler and a
    payload with a value; what it does then. *)
Lemma store_writes fromisoformat dev m payload utcnow w a d :
  DataProcessor.influx_handler w = Some a ->
  DataProcessor.connected a = true ->
  has_value payload = Some d ->
  let p := point_of fromisoformat dev m d utcnow in
  let r := DataProcessor.store fromisoformat dev m payload utcnow w in
  fst r = DataProcessor.write_data_point a p
  /\ DataProcessor.writes (snd r)
     = (DataProcessor.writes w ++ [(p, DataProcessor.write_data_point a p)])%list
  /\ DataProcessor.mongo_handler (snd r) = DataProcessor.mongo_handler w.
Proof.
  intros Ha Hc Hv. unfold has_value in Hv.
  destruct payload as [| | | | |l|d']; try discriminate.
  destruct (dict_lookup "value" d') as [v|] eqn:Hval; [|discriminate].
  destruct (is_none v) eqn:Hn; [discriminate|].
  injection Hv as ->.
  cbv zeta. unfold DataProcessor.store, point_of. rewrite Ha, Hc. simpl.
  rewrite Hval. simpl. rewrite Hn.
  destruct (DataProcessor.point_time fromisoformat
              (default PNone (dict_lookup "timestamp" d)) utcnow) as [ts bad].
  simpl.
  destruct (DataProcessor.write_data_point a _) as [[|]|e]; simpl;
    destruct bad; simpl; auto.
Qed.

(** In every other case no write is attempted. *)
Lemma store_skips fromisoformat dev m payload utcnow w :
  (forall a d, DataProcessor.influx_handler w = Some a ->
               DataProcessor.connected a = true ->
               has_value payload = Some d -> False) ->
  let r := DataProcessor.store fromisoformat dev m payload utcnow w in
  fst r <> Ok true
  /\ DataProcessor.writes (snd r) = DataProcessor.writes w
  /\ DataProcessor.mongo_handler (snd r) = DataProcessor.mongo_handler w.
Proof.
  intros H. cbv zeta. unfold DataProcessor.store.
  destruct (DataProcessor.influx_handler w) as [a|]; [|simpl; auto].
  destruct (DataProcessor.connected a) eqn:Hc; simpl; [|auto].
  specialize (H a).
  destruct payload as [| | | | |l|d]; simpl; try (repeat split; discriminate || reflexivity).
  unfold has_value in H.
  destruct (dict_lookup "value" d) as [v|]; simpl.
  - destruct (is_none v) eqn:Hn; simpl; [auto|].
    exfalso. apply (H d); auto.
  - auto.
Qed.

Lemma app_one_neq {A} (l : list A) x : (l ++ [x])%list <> l.
Proof.
  intros H. apply (f_equal (@length A)) in H.
  rewrite length_app in H. simpl in H. lia.
Qed.

Lemma has_value_dec (w : DataProcessor.t) payload :
  (exists a d, DataProcessor.influx_handler w = Some a
               /\ DataProcessor.connected a = true
               /\ has_value payload = Some d)
  \/ (forall a d, DataProcessor.influx_handler w = Some a ->
                  DataProcessor.connected a = true ->
                  has_value payload = Some d -> False).
Proof.
  destruct (DataProcessor.influx_handler w) as [a|]; [|right; discriminate].
  destruct (DataProcessor.connected a) eqn:Hc.
  - destruct (has_value payload) as [d|].
    + left. eauto.
    + right. discriminate.
  - right. intros a' d [= <-]. congruence.
Qed.

(** The processor as one case analysis: the registry is touched; then one
    write is attempted, for a connected handler and a payload with a
    value, or none. *)
Lemma process_cases fromisoformat dev m payload now utcnow w :
  let r := DataProcessor.process_mqtt_message fromisoformat dev m payload
             now utcnow w in
  let w0 := DataProcessor.emit
              (Log.mk Log.DEBUG
                 "Processing MQTT message for device {device_id}, measurement {measurement}"
                 [Log.AStr dev; Log.AStr m]) w in
  DataProcessor.mongo_handler (snd r)
    = DataProcessor.mongo_handler (DataProcessor.touch_registry dev now w0)
  /\ ((exists a d,
         DataProcessor.influx_handler w = Some a
         /\ DataProcessor.connected a = true
         /\ has_value payload = Some d
         /\ fst r = match DataProcessor.write_data_point a
                            (point_of fromisoformat dev m d utcnow) with
                    | Ok b => b
                    | Raise _ => false
                    end
         /\ DataProcessor.writes (snd r)
            = (DataProcessor.writes w
               ++ [(point_of fromisoformat dev m d utcnow,
                    DataProcessor.write_data_point a
                      (point_of fromisoformat dev m d utcnow))])%list)
      \/ ((forall a d, DataProcessor.influx_handler w = Some a ->
                       DataProcessor.connected a = true ->
                       has_value payload = Some d -> False)
          /\ fst r = false
          /\ DataProcessor.writes (snd r) = DataProcessor.writes w)).
Proof.
  cbv zeta. unfold DataProcessor.process_mqtt_message.
  set (w0 := DataProcessor.emit _ w).
  set (w1 := DataProcessor.touch_registry dev now w0).
  destruct (touch_registry_frame dev now w0) as (Hi & Hw & _).
  fold w1 in Hi, Hw. simpl in Hi, Hw.
  destruct (has_value_dec w payload) as [(a & d & Ha & Hc & Hv)|Hno].
  - destruct (store_writes fromisoformat dev m payload utcnow w1 a d)
      as (Hr & Hws & Hm); [congruence|exact Hc|exact Hv|].
    cbv zeta in Hr, Hws, Hm.
    destruct (DataProcessor.store fromisoformat dev m payload utcnow w1)
      as [[b|e] w2]; simpl in *.
    + split; [exact Hm|]. left. exists a, d.
      rewrite Hws, Hw, <- Hr. repeat split; auto.
    + split; [exact Hm|]. left. exists a, d.
      rewrite Hws, Hw, <- Hr. repeat split; auto.
  - destruct (store_skips fromisoformat dev m payload utcnow w1)
      as (Hr & Hws & Hm).
    { intros a d Ha. apply Hno. congruence. }
    cbv zeta in Hr, Hws, Hm.
    destruct (DataProcessor.store fromisoformat dev m payload utcnow w1)
      as [[b|e] w2]; simpl in *.
    + split; [exact Hm|]. right. split; [exact Hno|].
      split; [|congruence]. destruct b; congruence.
    + split; [exact Hm|]. right. split; [exact Hno|]. split; congruence.
Qed.

Lemma reading_time_point_time fromisoformat d utcnow :
  fst (DataProcessor.point_time fromisoformat
         (default PNone (dict_lookup "timestamp" d)) utcnow)
  = reading_time fromisoformat d utcnow.
Proof.
  unfold reading_time, DataProcessor.point_time.
  destruct (dict_lookup "timestamp" d) as [v|]; simpl; [|reflexivity].
  destruct v as [|b|z|f|s|l|d']; simpl; try reflexivity.
  - destruct b; reflexivity.
  - destruct (Z.eqb z 0); reflexivity.
  - destruct f as [mz e|n|]; simpl; try reflexivity.
    destruct (reads_as_zero mz e); reflexivity.
  - destruct (String.eqb s ""); simpl; [reflexivity|].
    destruct (fromisoformat _); reflexivity.
  - destruct l; reflexivity.
  - destruct d'; reflexivity.
Qed.

(** *** The fields of a point *)

Lemma dict_set_fresh k v (acc : dict) :
  ~ In k (dict_keys acc) -> dict_set k v acc = (acc ++ [(k, v)])%list.
Proof.
  induction acc as [|[k' v'] acc IH]; simpl; [reflexivity|].
  intros H. destruct (String.eqb k' k) eqn:E.
  - apply String.eqb_eq in E. tauto.
  - rewrite IH; [reflexivity|tauto].
Qed.

Lemma dict_keys_set k v (acc : dict) k0 :
  In k0 (dict_keys (dict_set k v acc)) -> k0 = k \/ In k0 (dict_keys acc).
Proof.
  induction acc as [|[k' v'] acc IH]; simpl.
  - intros [->|[]]. now left.
  - destruct (String.eqb k' k) eqn:E; simpl.
    + intros [->|H]; auto.
    + intros [->|H]; auto. destruct (IH H); auto.
Qed.

Lemma dict_lookup_not_key k (d : dict) :
  ~ In k (dict_keys d) -> dict_lookup k d = None.
Proof.
  induction d as [|[k' v'] d IH]; simpl; [reflexivity|].
  intros H. destruct (String.eqb k' k) eqn:E.
  - apply String.eqb_eq in E. tauto.
  - apply IH. tauto.
Qed.

Lemma extract_fields_keys_gen (items acc : dict) k :
  In k (dict_keys (fold_left copy_field items acc)) ->
  In k (dict_keys acc)
  \/ (In k (dict_keys items) /\ DataProcessor.is_reserved k = false).
Proof.
  revert acc. induction items as [|[k' v'] items IH]; simpl; intros acc H.
  - now left.
  - apply IH in H as [H|[H1 H2]]; [|right; split; auto].
    unfold copy_field in H. simpl in H.
    destruct (DataProcessor.is_reserved k') eqn:E; [now left|].
    apply dict_keys_set in H as [->|H]; [|now left].
    right. split; auto.
Qed.

Lemma extract_fields_keys (items : dict) k :
  In k (dict_keys (DataProcessor.extract_fields items)) ->
  In k (dict_keys items) /\ DataProcessor.is_reserved k = false.
Proof.
  intros H. apply (extract_fields_keys_gen items [] k) in H as [[]|H].
  exact H.
Qed.

Lemma extract_fields_filter_gen (items acc : dict) :
  List.NoDup (dict_keys acc ++ dict_keys items) ->
  fold_left copy_field items acc
  = (acc ++ List.filter (fun kv => negb (DataProcessor.is_reserved (fst kv))) items)%list.
Proof.
  revert acc. induction items as [|[k v] items IH]; intros acc Hnd.
  - simpl. now rewrite app_nil_r.
  - cbn [fold_left]. unfold copy_field at 2. cbn [fst snd].
    assert (Hk : ~ In k (dict_keys acc)).
    { intros Hin. apply NoDup_remove_2 in Hnd. apply Hnd.
      apply in_or_app. now left. }
    cbn [List.filter]. cbn [fst].
    destruct (DataProcessor.is_reserved k) eqn:E; cbn [negb].
    + apply IH. simpl in Hnd. now apply NoDup_remove_1 in Hnd.
    + rewrite dict_set_fresh by exact Hk.
      rewrite IH.
      * now rewrite <- app_assoc.
      * unfold dict_keys in *. rewrite map_app. simpl.
        rewrite <- app_assoc. exact Hnd.
Qed.

Lemma extract_fields_filter (items : dict) :
  List.NoDup (dict_keys items) ->
  DataProcessor.extract_fields items
  = List.filter (fun kv => negb (DataProcessor.is_reserved (fst kv))) items.
Proof. intros H. apply (extract_fields_filter_gen items []). exact H. Qed.

(** *** The registry *)

Lemma update_one_found id f ch ds x :
  (forall y, MongoDBHandler.device_id (f y) = MongoDBHandler.device_id y) ->
  MongoDBHandler.find_one id ds = Some x ->
  MongoDBHandler.find_one id (fst (MongoDBHandler.update_one id f ch ds))
  = Some (f x).
Proof.
  intros Hf. unfold MongoDBHandler.find_one.
  induction ds as [|d ds IH]; simpl; [discriminate|].
  destruct (String.eqb (MongoDBHandler.device_id d) id) eqn:E.
  - intros [= ->]. simpl. rewrite Hf, E. reflexivity.
  - intros H. specialize (IH H).
    destruct (MongoDBHandler.update_one id f ch ds) as [r n]. simpl in *.
    rewrite E. exact IH.
Qed.

Lemma update_one_absent id f ch ds :
  MongoDBHandler.find_one id ds = None ->
  MongoDBHandler.update_one id f ch ds = (ds, 0).
Proof.
  unfold MongoDBHandler.find_one.
  induction ds as [|d ds IH]; simpl; [reflexivity|].
  destruct (String.eqb (MongoDBHandler.device_id d) id) eqn:E; [discriminate|].
  intros H. rewrite (IH H). reflexivity.
Qed.

(** What the first block of the processor leaves in a registry that can
    be reached. *)
Lemma touch_registry_up dev now w ds :
  registry_up w ds ->
  let w' := DataProcessor.touch_registry dev now w in
  match MongoDBHandler.find_one dev ds with
  | Some x =>
      MongoDBHandler.find_one dev (registry w') = Some (seen now x)
      /\ length (registry w') = length ds
  | None => registry w' = ds
  end.
Proof.
  intros (m & d & Hm & Hc & Hd & Hup & <-). cbv zeta.
  unfold DataProcessor.touch_registry. rewrite Hm.
  unfold MongoDBHandler.is_connected. rewrite Hc, Hd. simpl.
  unfold MongoDBHandler.get_device, MongoDBHandler.is_connected.
  rewrite Hc, Hd, Hup. simpl.
  destruct (MongoDBHandler.find_one dev (MongoDBHandler.devices d)) as [x|] eqn:Hx.
  - unfold MongoDBHandler.update_device_status, MongoDBHandler.is_connected.
    rewrite Hc, Hd, Hup. simpl.
    pose proof (update_one_found dev (MongoDBHandler.set_status "Online")
                  (fun x => negb (String.eqb (MongoDBHandler.status x) "Online"))
                  (MongoDBHandler.devices d) x (fun _ => eq_refl) Hx) as H1.
    destruct (MongoDBHandler.update_one dev (MongoDBHandler.set_status "Online")
                _ (MongoDBHandler.devices d)) as [ds1 n1] eqn:E1.
    simpl in H1.
    assert (Hl1 : length ds1 = length (MongoDBHandler.devices d)).
    { clear -E1. revert ds1 n1 E1.
      induction (MongoDBHandler.devices d) as [|y ys IH]; simpl; intros ds1 n1.
      - intros [= <- <-]. reflexivity.
      - destruct (String.eqb (MongoDBHandler.device_id y) dev).
        + intros [= <- <-]. reflexivity.
        + destruct (MongoDBHandler.update_one dev _ _ ys) as [r n].
          intros [= <- <-]. simpl. f_equal. eapply IH. reflexivity. }
    pose proof (update_one_found dev (MongoDBHandler.set_last_seen now)
                  (fun x => negb (MongoDBHandler.opt_Z_eqb
                                    (MongoDBHandler.last_seen x) (Some now)))
                  ds1 _ (fun _ => eq_refl) H1) as H2.
    assert (Hl2 : length (fst (MongoDBHandler.update_one dev
                                 (MongoDBHandler.set_last_seen now)
                                 (fun x => negb (MongoDBHandler.opt_Z_eqb
                                    (MongoDBHandler.last_seen x) (Some now)))
                                 ds1)) = length ds1).
    { clear. induction ds1 as [|y ys IH]; simpl; [reflexivity|].
      destruct (String.eqb (MongoDBHandler.device_id y) dev); [reflexivity|].
      destruct (MongoDBHandler.update_one dev _ _ ys) as [r n].
      simpl in *. f_equal. exact IH. }
    destruct (Nat.ltb 0 n1); simpl;
      unfold MongoDBHandler.update_device_last_seen, MongoDBHandler.is_connected;
      simpl; rewrite ?Hc, ?Hup; simpl;
      destruct (MongoDBHandler.update_one dev (MongoDBHandler.set_last_seen now)
                  _ ds1) as [ds2 n2]; simpl in *;
      destruct (Nat.ltb 0 n2); simpl; unfold registry; simpl;
      (split; [exact H2|congruence]).
  - unfold registry. simpl. rewrite Hd. reflexivity.
Qed.

Lemma process_registry fromisoformat dev m payload now utcnow w ds :
  registry_up w ds ->
  let r := DataProcessor.process_mqtt_message fromisoformat dev m payload
             now utcnow w in
  match MongoDBHandler.find_one dev ds with
  | Some x =>
      MongoDBHandler.find_one dev (registry (snd r)) = Some (seen now x)
      /\ length (registry (snd r)) = length ds
  | None => registry (snd r) = ds
  end.
Proof.
  intros Hup. cbv zeta.
  destruct (process_cases fromisoformat dev m payload now utcnow w) as [Hm _].
  cbv zeta in Hm.
  set (w0 := DataProcessor.emit _ w) in Hm.
  assert (Hup0 : registry_up w0 ds) by exact Hup.
  pose proof (touch_registry_up dev now w0 ds Hup0) as H. cbv zeta in H.
  unfold registry in *. rewrite Hm. exact H.
Qed.

(** *** What the processor logs *)

(** The storage block only adds to the log. *)
Lemma store_log fromisoformat dev m payload utcnow w :
  exists l,
    DataProcessor.log (snd (DataProcessor.store fromisoformat dev m payload
                              utcnow w))
    = (DataProcessor.log w ++ l)%list.
Proof.
  unfold DataProcessor.store.
  destruct (DataProcessor.influx_handler w) as [a|];
    [|exists [DataProcessor.unavailable]; reflexivity].
  destruct (DataProcessor.connected a); simpl;
    [|exists [DataProcessor.unavailable]; reflexivity].
  destruct payload as [| | | | | |d]; simpl;
    try (exists []; symmetry; apply app_nil_r).
  destruct (is_none _); simpl; [eexists; reflexivity|].
  destruct (DataProcessor.point_time _ _ _) as [ts bad].
  destruct (DataProcessor.write_data_point a _) as [[|]|e];
    destruct bad; simpl; rewrite <- ?app_assoc;
    try (eexists; reflexivity);
    try (exists []; symmetry; apply app_nil_r).
Qed.

(** What is in the log after the registry block is in the log at the
    end. *)
Lemma process_log_keeps fromisoformat dev m payload now utcnow w x :
  In x (DataProcessor.log
          (DataProcessor.touch_registry dev now
             (DataProcessor.emit
                (Log.mk Log.DEBUG
                   "Processing MQTT message for device {device_id}, measurement {measurement}"
                   [Log.AStr dev; Log.AStr m]) w))) ->
  In x (DataProcessor.log
          (snd (DataProcessor.process_mqtt_message fromisoformat dev m payload
                  now utcnow w))).
Proof.
  intros Hx. unfold DataProcessor.process_mqtt_message.
  set (w1 := DataProcessor.touch_registry dev now _) in *.
  destruct (store_log fromisoformat dev m payload utcnow w1) as [l Hl].
  destruct (DataProcessor.store fromisoformat dev m payload utcnow w1)
    as [[b|e] w2]; simpl in *; rewrite Hl.
  - apply in_or_app. now left.
  - apply in_or_app. left. apply in_or_app. now left.
Qed.

(** A device that the registry does not hold is reported in the log. *)
Lemma touch_registry_absent dev now w ds :
  registry_up w ds ->
  MongoDBHandler.find_one dev ds = None ->
  In (not_found dev)
     (DataProcessor.log (DataProcessor.touch_registry dev now w)).
Proof.
  intros (mh & d & Hm & Hc & Hd & Hup & <-) Hx.
  unfold DataProcessor.touch_registry. rewrite Hm.
  unfold MongoDBHandler.is_connected. rewrite Hc, Hd. simpl.
  unfold MongoDBHandler.get_device, MongoDBHandler.is_connected.
  rewrite Hc, Hd, Hup. simpl. rewrite Hx. simpl.
  apply in_or_app. right. now left.
Qed.

(** A dictionary without a value: a warning, no write. *)
Lemma process_no_value fromisoformat dev m d now utcnow w a :
  DataProcessor.influx_handler w = Some a ->
  DataProcessor.connected a = true ->
  has_value (PDict d) = None ->
  let r := DataProcessor.process_mqtt_message fromisoformat dev m (PDict d)
             now utcnow w in
  fst r = false
  /\ DataProcessor.writes (snd r) = DataProcessor.writes w
  /\ exists l, DataProcessor.log (snd r) = (l ++ [no_value (PDict d)])%list.
Proof.
  intros Ha Hc Hv. cbv zeta. unfold DataProcessor.process_mqtt_message.
  set (w0 := DataProcessor.emit _ w).
  destruct (touch_registry_frame dev now w0) as (Hi & Hw & _).
  set (w1 := DataProcessor.touch_registry dev now w0) in *.
  simpl in Hi, Hw.
  unfold DataProcessor.store. rewrite Hi, Ha, Hc. simpl.
  unfold has_value in Hv.
  destruct (dict_lookup "value" d) as [v|]; simpl.
  - destruct (is_none v); [|discriminate]. simpl.
    split; [reflexivity|]. split; [exact Hw|]. eexists. reflexivity.
  - split; [reflexivity|]. split; [exact Hw|]. eexists. reflexivity.
Qed.

(** C4. The processor returns [False], without a write, when the storage
    handler is absent or reports disconnected.  With a handler that
    reports connected and a reading with a value it makes one write, of
    the point built from the reading, and returns [True] exactly when the
    handler reports that write done; for a reading without a value it
    makes no write and returns [False].  So it returns [True] exactly
    when it has made a write that succeeded; it makes at most one write,
    a failed one is not tried again; and what it returns is the same
    whatever the registry is. *)
Theorem ingest_result fromisoformat dev m payload now utcnow w :
  let r := DataProcessor.process_mqtt_message fromisoformat dev m payload
             now utcnow w in
  ((forall a, DataProcessor.influx_handler w = Some a ->
              DataProcessor.connected a = false) ->
   fst r = false /\ DataProcessor.writes (snd r) = DataProcessor.writes w)
  /\ (forall a d,
        DataProcessor.influx_handler w = Some a ->
        DataProcessor.connected a = true ->
        has_value payload = Some d ->
        let p := DataProcessor.mk_point m [("device_id", dev)]
                   (reading_time fromisoformat d utcnow)
                   (DataProcessor.extract_fields d) in
        DataProcessor.writes (snd r)
        = (DataProcessor.writes w
           ++ [(p, DataProcessor.write_data_point a p)])%list
        /\ (fst r = true <-> DataProcessor.write_data_point a p = Ok true))
  /\ (has_value payload = None ->
      fst r = false /\ DataProcessor.writes (snd r) = DataProcessor.writes w)
  /\ (fst r = true <->
      exists p, DataProcessor.writes (snd r)
                = (DataProcessor.writes w ++ [(p, Ok true)])%list)
  /\ length (DataProcessor.writes (snd r)) <= S (length (DataProcessor.writes w))
  /\ (forall mongo,
        fst (DataProcessor.process_mqtt_message fromisoformat dev m payload
               now utcnow (with_registry mongo w)) = fst r).
Proof.
  cbv zeta.
  destruct (process_cases fromisoformat dev m payload now utcnow w)
    as [_ [(a & d & Ha & Hc & Hv & Hr & Hw)|(Hno & Hr & Hw)]].
  - unfold point_of in Hr, Hw. rewrite reading_time_point_time in Hr, Hw.
    split; [|split; [|split; [|split; [|split]]]].
    + intros Hdis. rewrite (Hdis a Ha) in Hc. discriminate.
    + intros a' d' Ha' _ Hv'.
      rewrite Ha in Ha'. injection Ha' as <-.
      rewrite Hv in Hv'. injection Hv' as <-.
      split; [exact Hw|]. rewrite Hr.
      destruct (DataProcessor.write_data_point a _) as [[|]|e];
        split; congruence.
    + intros Hnone. congruence.
    + split.
      * intros Ht. rewrite Hr in Ht. rewrite Hw.
        destruct (DataProcessor.write_data_point a _) as [[|]|e];
          try discriminate. eauto.
      * intros [p Hp]. rewrite Hw in Hp. apply app_inv_head in Hp.
        injection Hp as _ Hp. rewrite Hr, Hp. reflexivity.
    + rewrite Hw, length_app. simpl. lia.
    + intros mongo.
      destruct (process_cases fromisoformat dev m payload now utcnow
                  (with_registry mongo w))
        as [_ [(a' & d' & Ha' & Hc' & Hv' & Hr' & _)|(Hno' & _)]].
      * simpl in Ha'. rewrite Ha in Ha'. injection Ha' as <-.
        rewrite Hv in Hv'. injection Hv' as <-.
        unfold point_of in Hr'. rewrite reading_time_point_time in Hr'.
        now rewrite Hr, Hr'.
      * exfalso. apply (Hno' a d); auto.
  - split; [|split; [|split; [|split; [|split]]]].
    + intros _. split; [exact Hr|exact Hw].
    + intros a d Ha Hc Hv. exfalso. apply (Hno a d); auto.
    + intros _. split; [exact Hr|exact Hw].
    + split.
      * intros Ht. congruence.
      * intros [p Hp]. rewrite Hw in Hp. symmetry in Hp.
        now apply app_one_neq in Hp.
    + rewrite Hw. lia.
    + intros mongo.
      destruct (process_cases fromisoformat dev m payload now utcnow
                  (with_registry mongo w))
        as [_ [(a' & d' & Ha' & Hc' & Hv' & _)|(_ & Hr' & _)]].
      * exfalso. apply (Hno a' d'); auto.
      * now rewrite Hr, Hr'.
Qed.

(** C5, as the code has it.  For a payload that is a dictionary with a
    [value] that is not [None], and a storage handler that reports
    connected, the processor hands the handler exactly one point: the
    channel as measurement, the device as the tag [device_id], as time
    the payload's [timestamp] when it is a text the parser accepts and
    the clock otherwise, and as fields the payload's entries but the
    reserved keys [device_id] and [timestamp].  The processor returns
    [True] exactly when the handler reports the write done.  A
    dictionary without a [value] is turned down with a warning: nothing
    is written and the processor returns [False]. *)
Theorem ingest_point fromisoformat dev m payload now utcnow w a :
  DataProcessor.influx_handler w = Some a ->
  DataProcessor.connected a = true ->
  let r := DataProcessor.process_mqtt_message fromisoformat dev m payload
             now utcnow w in
  (forall d,
     has_value payload = Some d ->
     let p := DataProcessor.mk_point m [("device_id", dev)]
                (reading_time fromisoformat d utcnow)
                (DataProcessor.extract_fields d) in
     DataProcessor.writes (snd r)
     = (DataProcessor.writes w ++ [(p, DataProcessor.write_data_point a p)])%list
     /\ (fst r = true <-> DataProcessor.write_data_point a p = Ok true)
     /\ (forall k, In k (dict_keys (DataProcessor.fields p)) ->
                   In k (dict_keys d) /\ k <> "device_id" /\ k <> "timestamp")
     /\ (List.NoDup (dict_keys d) ->
         DataProcessor.fields p
         = List.filter (fun kv => negb (DataProcessor.is_reserved (fst kv))) d))
  /\ (forall d,
        payload = PDict d ->
        has_value payload = None ->
        fst r = false
        /\ DataProcessor.writes (snd r) = DataProcessor.writes w
        /\ exists l, DataProcessor.log (snd r) = (l ++ [no_value payload])%list).
Proof.
  intros Ha Hc. cbv zeta. split.
  - intros d Hv.
    destruct (process_cases fromisoformat dev m payload now utcnow w)
      as [_ [(a' & d' & Ha' & Hc' & Hv' & Hr & Hw)|(Hno & _)]].
    2: { exfalso. apply (Hno a d); auto. }
    rewrite Ha in Ha'. injection Ha' as <-.
    rewrite Hv in Hv'. injection Hv' as <-.
    unfold point_of in Hr, Hw. rewrite reading_time_point_time in Hr, Hw.
    split; [exact Hw|]. split; [|split].
    + rewrite Hr.
      destruct (DataProcessor.write_data_point a _) as [[|]|e];
        split; congruence.
    + simpl. intros k Hk. apply extract_fields_keys in Hk as [Hin Hres].
      split; [exact Hin|].
      unfold DataProcessor.is_reserved in Hres. simpl in Hres.
      split; intros ->; simpl in Hres; discriminate.
    + simpl. apply extract_fields_filter.
  - intros d -> Hv.
    exact (process_no_value fromisoformat dev m d now utcnow w a Ha Hc Hv).
Qed.

(** C6, as the code has it.  For a registry that can be reached, the
    processor sets [last_seen] of the device's document to the clock, on
    every message, when the device is registered; when it is not, no
    document is created and the registry stays as it was: the processor
    logs a warning and goes on to store the reading as for any device. *)
Theorem ingest_last_seen fromisoformat dev m payload now utcnow w ds :
  registry_up w ds ->
  let r := DataProcessor.process_mqtt_message fromisoformat dev m payload
             now utcnow w in
  match MongoDBHandler.find_one dev ds with
  | Some x =>
      exists x', MongoDBHandler.find_one dev (registry (snd r)) = Some x'
                 /\ MongoDBHandler.last_seen x' = Some now
                 /\ length (registry (snd r)) = length ds
  | None =>
      registry (snd r) = ds
      /\ In (not_found dev) (DataProcessor.log (snd r))
      /\ forall a d,
           DataProcessor.influx_handler w = Some a ->
           DataProcessor.connected a = true ->
           has_value payload = Some d ->
           let p := DataProcessor.mk_point m [("device_id", dev)]
                      (reading_time fromisoformat d utcnow)
                      (DataProcessor.extract_fields d) in
           DataProcessor.writes (snd r)
           = (DataProcessor.writes w
              ++ [(p, DataProcessor.write_data_point a p)])%list
           /\ (fst r = true <-> DataProcessor.write_data_point a p = Ok true)
  end.
Proof.
  intros Hup. cbv zeta.
  pose proof (process_registry fromisoformat dev m payload now utcnow w ds Hup)
    as H. cbv zeta in H.
  destruct (MongoDBHandler.find_one dev ds) as [x|] eqn:Hx.
  - destruct H as [H Hl]. exists (seen now x). auto.
  - split; [exact H|]. split.
    + apply process_log_keeps.
      apply (touch_registry_absent dev now _ ds); [exact Hup|exact Hx].
    + intros a d Ha Hc Hv.
      destruct (process_cases fromisoformat dev m payload now utcnow w)
        as [_ [(a' & d' & Ha' & Hc' & Hv' & Hr & Hw)|(Hno & _)]].
      2: { exfalso. apply (Hno a d); auto. }
      rewrite Ha in Ha'. injection Ha' as <-.
      rewrite Hv in Hv'. injection Hv' as <-.
      unfold point_of in Hr, Hw. rewrite reading_time_point_time in Hr, Hw.
      split; [exact Hw|]. rewrite Hr.
      destruct (DataProcessor.write_data_point a _) as [[|]|e];
        split; congruence.
Qed.

(** C10. For a registered device and a registry that can be reached, the
    processor stores the status [Online] and the new [last_seen] in the
    device's document before it turns to the storage handler, whatever
    comes of the write: when the write of the reading's point fails, the
    processor returns [False] and the document has been changed all the
    same. *)
Theorem ingest_not_atomic fromisoformat dev m payload now utcnow w ds x :
  registry_up w ds ->
  MongoDBHandler.find_one dev ds = Some x ->
  let r := DataProcessor.process_mqtt_message fromisoformat dev m payload
             now utcnow w in
  (exists x', MongoDBHandler.find_one dev (registry (snd r)) = Some x'
              /\ MongoDBHandler.status x' = "Online"
              /\ MongoDBHandler.last_seen x' = Some now)
  /\ ((forall a d,
         DataProcessor.influx_handler w = Some a ->
         DataProcessor.connected a = true ->
         has_value payload = Some d ->
         DataProcessor.write_data_point a
           (DataProcessor.mk_point m [("device_id", dev)]
              (reading_time fromisoformat d utcnow)
              (DataProcessor.extract_fields d)) <> Ok true) ->
      fst r = false).
Proof.
  intros Hup Hx. cbv zeta. split.
  - pose proof (process_registry fromisoformat dev m payload now utcnow w ds Hup)
      as H. cbv zeta in H. rewrite Hx in H. destruct H as [H _].
    exists (seen now x). auto.
  - intros Hfail.
    destruct (process_cases fromisoformat dev m payload now utcnow w)
      as [_ [(a & d & Ha & Hc & Hv & Hr & Hw)|(_ & Hr & _)]]; [|exact Hr].
    rewrite Hr. specialize (Hfail a d Ha Hc Hv).
    unfold point_of. rewrite reading_time_point_time.
    destruct (DataProcessor.write_data_point a _) as [[|]|e];
      congruence.
Qed.

(** C3, where the code departs from it.  The payload [42] is a JSON
    document: the handler passes the integer on, not a dictionary with
    the text under [value], and the processor, which asks a dictionary
    for its [value], fails on it and stores nothing. *)
Theorem decode_scalar_document :
  MQTTHandler.decode "42" = Ok (PInt 42)
  /\ MQTTHandler.decode "42" <> Ok (PDict [("value", PStr "42")])
  /\ forall fromisoformat dev m now utcnow w,
       let r := DataProcessor.process_mqtt_message fromisoformat dev m
                  (PInt 42) now utcnow w in
       fst r = false /\ DataProcessor.writes (snd r) = DataProcessor.writes w.
Proof.
  split; [reflexivity|]. split; [discriminate|].
  intros fromisoformat dev m now utcnow w. cbv zeta.
  destruct (process_cases fromisoformat dev m (PInt 42) now utcnow w)
    as [_ [(a & d & _ & _ & Hv & _)|(_ & Hr & Hw)]]; [discriminate|auto].
Qed.

(** ** The broker session *)
Section Session.

Context {cb : Type} `{EqDecision cb} {W : Type}.
Variable invoke : cb -> string -> string -> pyval -> W -> res pyval * W.
Variable json_dumps : pyval -> string.

Abbreviation handler := (MQTTHandler.t cb).
Abbreviation step := (MQTTHandler.step invoke json_dumps).
Abbreviation run := (MQTTHandler.run invoke json_dumps).
Abbreviation reachable := (MQTTHandler.reachable invoke json_dumps).

Lemma same_session_refl (h : handler) : same_session h h.
Proof. repeat split. Qed.

Lemma on_message_same topic raw h w :
  same_session h (fst (MQTTHandler._on_message invoke topic raw h w))
  /\ MQTTHandler.client (fst (MQTTHandler._on_message invoke topic raw h w))
     = MQTTHandler.client h.
Proof.
  unfold MQTTHandler._on_message.
  destruct (MQTTHandler.parse topic) as [[d m]|]; [|repeat split].
  destruct (MQTTHandler.decode raw) as [p|e]; [|repeat split].
  destruct (MQTTHandler.dispatch invoke _ d m p w) as [[u|e] w'];
    repeat split.
Qed.

Lemma publish_same topic payload qos retain answer (h : handler) :
  same_session h
    (snd (MQTTHandler.publish json_dumps topic payload qos retain answer h)).
Proof.
  unfold MQTTHandler.publish.
  destruct (MQTTHandler.connected h); simpl; [|repeat split].
  destruct answer as [rc|e]; [|repeat split].
  destruct (Z.eqb rc 0); repeat split.
Qed.

Lemma send_command_same d c payload now answer (h : handler) :
  same_session h
    (snd (MQTTHandler.send_command json_dumps d c payload now answer h)).
Proof.
  unfold MQTTHandler.send_command.
  destruct (MQTTHandler.stamped payload now) as [p|e]; [|apply same_session_refl].
  pose proof (publish_same (MQTTHandler.command_topic d c) p 0 false answer h)
    as Hp.
  destruct (MQTTHandler.publish json_dumps _ p 0 false answer h). exact Hp.
Qed.

Lemma register_callback_same c (h : handler) :
  same_session h (MQTTHandler.register_callback c h).
Proof.
  unfold MQTTHandler.register_callback.
  destruct (bool_decide _); repeat split.
Qed.

Lemma schedule_connected (h : handler) :
  MQTTHandler.connected (MQTTHandler._schedule_reconnect h)
  = MQTTHandler.connected h
  /\ MQTTHandler.client (MQTTHandler._schedule_reconnect h)
     = MQTTHandler.client h.
Proof.
  unfold MQTTHandler._schedule_reconnect.
  destruct (Nat.ltb _ _); [|split; reflexivity].
  destruct (MQTTHandler.retry_alive _); split; reflexivity.
Qed.

Lemma connect_connected ok (h : handler) :
  MQTTHandler.connected (MQTTHandler._connect ok h) = MQTTHandler.connected h.
Proof.
  unfold MQTTHandler._connect. destruct ok; [reflexivity|].
  rewrite (proj1 (schedule_connected _)). reflexivity.
Qed.

(** C7. A handler becomes connected only by the acknowledgement of a
    connection, and every such acknowledgement, the first as well as one
    that follows a lost session, sends the subscription to the device
    data topics again, without a call from outside. *)
Theorem resubscribe_on_connect (e : MQTTHandler.event cb) (h : handler) (w : W) :
  let h' := fst (step e (h, w)) in
  (MQTTHandler.connected h = false -> MQTTHandler.connected h' = true ->
     e = MQTTHandler.OnConnect 0
     /\ MQTTHandler.client h'
        = (MQTTHandler.client h ++ [MQTTHandler.Subscribe "devices/+/data/#"])%list)
  /\ (e = MQTTHandler.OnConnect 0 ->
        MQTTHandler.connected h' = true
        /\ MQTTHandler.client h'
           = (MQTTHandler.client h ++ [MQTTHandler.Subscribe "devices/+/data/#"])%list).
Proof.
  cbv zeta. split.
  - intros Hoff Hon. destruct e as [rc|rc|topic raw|i ok|i|c|tp pl q r a|d c pl n a|];
      simpl in Hon |- *.
    + unfold MQTTHandler._on_connect in *.
      destruct (Z.eqb rc 0) eqn:E.
      * apply Z.eqb_eq in E as ->. split; reflexivity.
      * rewrite (proj1 (schedule_connected _)) in Hon. discriminate.
    + unfold MQTTHandler._on_disconnect in Hon.
      destruct (negb (Z.eqb rc 0));
        [rewrite (proj1 (schedule_connected _)) in Hon|]; discriminate.
    + destruct (on_message_same topic raw h w) as [(Hc & _) _]. congruence.
    + unfold MQTTHandler.timer_fires in Hon.
      destruct (MQTTHandler.timers h !! i) as [[| | |]|]; try congruence.
      simpl in Hon. rewrite connect_connected in Hon. simpl in Hon. congruence.
    + unfold MQTTHandler.thread_exits in Hon.
      destruct (MQTTHandler.timers h !! i) as [[| | |]|]; simpl in Hon; congruence.
    + destruct (register_callback_same c h) as (Hc & _). congruence.
    + destruct (publish_same tp pl q r a h) as (Hc & _). congruence.
    + destruct (send_command_same d c pl n a h) as (Hc & _). congruence.
    + unfold MQTTHandler.close in Hon.
      destruct (MQTTHandler.retry_thread h) as [i|]; simpl in Hon; [|congruence].
      destruct (MQTTHandler.alive _ i); simpl in Hon; congruence.
  - intros ->. simpl. split; reflexivity.
Qed.


(** *** The retry timer *)

Lemma alive_lt (ts : list MQTTHandler.timer) i :
  MQTTHandler.alive ts i = true -> i < length ts.
Proof.
  unfold MQTTHandler.alive. intros Ha.
  destruct (ts !! i) eqn:E; [|discriminate].
  apply lookup_lt_Some in E. exact E.
Qed.

Lemma alive_insert (ts : list MQTTHandler.timer) i j x :
  MQTTHandler.alive (<[i := x]> ts) j = true ->
  MQTTHandler.alive ts j = true \/ (j = i /\ x <> MQTTHandler.Dead).
Proof.
  unfold MQTTHandler.alive. destruct (decide (i = j)) as [->|Hne].
  - destruct (decide (j < length ts)) as [Hlt|Hge].
    + rewrite list_lookup_insert_eq by exact Hlt.
      intros Hx. right. split; [reflexivity|]. now destruct x.
    + rewrite list_insert_ge by lia. now left.
  - rewrite list_lookup_insert_ne by exact Hne. now left.
Qed.

Lemma alive_app_waiting (ts : list MQTTHandler.timer) j :
  MQTTHandler.alive (ts ++ [MQTTHandler.Waiting]) j = true ->
  MQTTHandler.alive ts j = true \/ j = length ts.
Proof.
  unfold MQTTHandler.alive. destruct (decide (j < length ts)) as [Hlt|Hge].
  - rewrite lookup_app_l by exact Hlt. now left.
  - destruct (decide (j = length ts)) as [->|Hne]; [now right|].
    rewrite lookup_ge_None_2; [discriminate|].
    rewrite length_app. simpl. lia.
Qed.

Lemma schedule_inv (h : handler) :
  session_inv h -> session_inv (MQTTHandler._schedule_reconnect h).
Proof.
  intros (Hown & Hcnt & Hmax). unfold MQTTHandler._schedule_reconnect.
  destruct (Nat.ltb _ _) eqn:Hlt; [|repeat split; assumption].
  apply Nat.ltb_lt in Hlt.
  destruct (MQTTHandler.retry_alive _) eqn:Hal.
  - repeat split; simpl; [exact Hown|lia|exact Hmax].
  - repeat split; simpl; [|lia|exact Hmax].
    intros i Hi. simpl in Hi.
    apply alive_app_waiting in Hi as [Hi| ->]; [|reflexivity].
    exfalso. pose proof (Hown i Hi) as Hr.
    unfold MQTTHandler.retry_alive in Hal. simpl in Hal.
    rewrite Hr, Hi in Hal. discriminate.
Qed.

Lemma connect_inv ok (h : handler) :
  session_inv h -> session_inv (MQTTHandler._connect ok h).
Proof.
  intros Hinv. unfold MQTTHandler._connect. destruct ok.
  - exact Hinv.
  - apply schedule_inv. exact Hinv.
Qed.

Lemma set_timer_inv (h : handler) i x :
  session_inv h ->
  MQTTHandler.alive (MQTTHandler.timers h) i = true ->
  session_inv (MQTTHandler.set_timers (<[i := x]> (MQTTHandler.timers h)) h).
Proof.
  intros (Hown & Hcnt & Hmax) Hi. repeat split; simpl; [|exact Hcnt|exact Hmax].
  intros j Hj. simpl in Hj. apply alive_insert in Hj as [Hj|[-> _]]; auto.
Qed.

Lemma lookup_alive (ts : list MQTTHandler.timer) i x :
  ts !! i = Some x -> x <> MQTTHandler.Dead -> MQTTHandler.alive ts i = true.
Proof. unfold MQTTHandler.alive. intros ->. now destruct x. Qed.

Lemma step_inv e (h : handler) (w : W) :
  session_inv h -> session_inv (fst (step e (h, w))).
Proof.
  intros Hinv.
  destruct e as [rc|rc|topic raw|i ok|i|c|tp pl q r a|d c pl n a|]; simpl.
  - unfold MQTTHandler._on_connect. destruct (Z.eqb rc 0).
    + destruct Hinv as (Hown & Hcnt & Hmax).
      repeat split; simpl; [exact Hown|lia|exact Hmax].
    + apply schedule_inv. exact Hinv.
  - unfold MQTTHandler._on_disconnect.
    destruct (negb (Z.eqb rc 0)); [apply schedule_inv|]; exact Hinv.
  - destruct (on_message_same topic raw h w) as [(_ & Hc & Hm & Hr & Ht) _].
    destruct Hinv as (Hown & Hcnt & Hmax).
    unfold session_inv, timers_owned. rewrite Hc, Hm, Hr, Ht. auto.
  - unfold MQTTHandler.timer_fires.
    destruct (MQTTHandler.timers h !! i) as [[| | |]|] eqn:E; try exact Hinv.
    assert (Ha : MQTTHandler.alive (MQTTHandler.timers h) i = true)
      by (eapply lookup_alive; [exact E|discriminate]).
    pose proof (connect_inv ok _ (set_timer_inv h i MQTTHandler.Running Hinv Ha))
      as (Hown & Hcnt & Hmax).
    repeat split; simpl; [|exact Hcnt|exact Hmax].
    intros j Hj. simpl in Hj.
    apply alive_insert in Hj as [Hj|[_ Hd]]; [auto|congruence].
  - unfold MQTTHandler.thread_exits.
    destruct (MQTTHandler.timers h !! i) as [[| | |]|] eqn:E; try exact Hinv.
    apply set_timer_inv; [exact Hinv|].
    eapply lookup_alive; [exact E|discriminate].
  - destruct (register_callback_same c h) as (_ & Hc & Hm & Hr & Ht).
    destruct Hinv as (Hown & Hcnt & Hmax).
    unfold session_inv, timers_owned. rewrite Hc, Hm, Hr, Ht. auto.
  - destruct (publish_same tp pl q r a h) as (_ & Hc & Hm & Hr & Ht).
    destruct Hinv as (Hown & Hcnt & Hmax).
    unfold session_inv, timers_owned. rewrite Hc, Hm, Hr, Ht. auto.
  - destruct (send_command_same d c pl n a h) as (_ & Hc & Hm & Hr & Ht).
    destruct Hinv as (Hown & Hcnt & Hmax).
    unfold session_inv, timers_owned. rewrite Hc, Hm, Hr, Ht. auto.
  - unfold MQTTHandler.close.
    destruct (MQTTHandler.retry_thread h) as [i|] eqn:Er; [|exact Hinv].
    destruct (MQTTHandler.alive _ i) eqn:Ha; [|exact Hinv].
    unfold MQTTHandler.cancel.
    destruct (MQTTHandler.timers h !! i) as [[| | |]|] eqn:E; try exact Hinv.
    destruct Hinv as (Hown & Hcnt & Hmax).
    repeat split; simpl; [|exact Hcnt|exact Hmax].
    intros j Hj. simpl in Hj. apply alive_insert in Hj as [Hj|[-> _]]; auto.
Qed.

Lemma init_inv broker port username password ok :
  session_inv (MQTTHandler.__init__ (cb := cb) broker port username password ok).
Proof.
  unfold MQTTHandler.__init__. apply connect_inv.
  assert (Hbase : forall cs, session_inv
            (MQTTHandler.mk (cb := cb) broker port false [] 5 12 0 None [] cs [])).
  { intros cs. repeat split; simpl; [|lia].
    intros i Hi. apply alive_lt in Hi. simpl in Hi. lia. }
  destruct username as [u|]; [|apply Hbase].
  destruct password as [p|]; [|apply Hbase].
  destruct (_ && _); apply Hbase.
Qed.

Lemma reachable_inv s : reachable s -> session_inv (fst s).
Proof.
  induction 1 as [broker port username password ok w|e [h w] Hr IH].
  - apply init_inv.
  - apply step_inv. exact IH.
Qed.


Lemma schedule_cases (h : handler) :
  let h' := MQTTHandler._schedule_reconnect h in
  MQTTHandler.retry_count h <= MQTTHandler.retry_count h'
  /\ (MQTTHandler.timers h' = MQTTHandler.timers h
      \/ (MQTTHandler.retry_alive h = false
          /\ MQTTHandler.timers h' = (MQTTHandler.timers h ++ [MQTTHandler.Waiting])%list
          /\ MQTTHandler.retry_count h' = S (MQTTHandler.retry_count h))).
Proof.
  cbv zeta. unfold MQTTHandler._schedule_reconnect.
  destruct (Nat.ltb _ _); [|simpl; auto].
  destruct (MQTTHandler.retry_alive _) eqn:Hal; simpl.
  - split; [lia|now left].
  - split; [lia|]. right. split; [reflexivity|]. split; [reflexivity|lia].
Qed.

Lemma owned_none_alive (h : handler) :
  timers_owned h -> MQTTHandler.retry_alive h = false ->
  forall i, MQTTHandler.alive (MQTTHandler.timers h) i = false.
Proof.
  intros Hown Hal i. destruct (MQTTHandler.alive _ i) eqn:Hi; [|reflexivity].
  unfold MQTTHandler.retry_alive in Hal. rewrite (Hown i Hi), Hi in Hal.
  discriminate.
Qed.

Lemma schedule_timer_step (h : handler) :
  timers_owned h -> timer_step h (MQTTHandler._schedule_reconnect h).
Proof.
  intros Hown. destruct (schedule_cases h) as [_ [Ht|(Hal & Ht & Hc)]].
  - left. now rewrite Ht.
  - right. rewrite Ht, length_app. simpl. repeat split; [lia|exact Hc|].
    now apply owned_none_alive.
Qed.

Lemma step_timers e (h : handler) (w : W) :
  session_inv h ->
  let h' := fst (step e (h, w)) in
  timer_step h h'
  /\ (MQTTHandler.is_connack e = false ->
      MQTTHandler.retry_count h <= MQTTHandler.retry_count h').
Proof.
  intros (Hown & Hcnt & Hmax). cbv zeta.
  destruct e as [rc|rc|topic raw|i ok|i|c|tp pl q r a|d c pl n a|]; simpl.
  - unfold MQTTHandler._on_connect. destruct (Z.eqb rc 0).
    + split; [now left|discriminate].
    + split; [|intros _].
      * apply (schedule_timer_step (MQTTHandler.set_connected false
                 (MQTTHandler.emit _ h))). exact Hown.
      * apply (schedule_cases (MQTTHandler.set_connected false
                 (MQTTHandler.emit _ h))).
  - unfold MQTTHandler._on_disconnect. destruct (negb (Z.eqb rc 0)).
    + split; [|intros _].
      * apply (schedule_timer_step (MQTTHandler.set_connected false
                 (MQTTHandler.emit _ h))). exact Hown.
      * apply (schedule_cases (MQTTHandler.set_connected false
                 (MQTTHandler.emit _ h))).
    + split; [now left|reflexivity].
  - destruct (on_message_same topic raw h w) as [(_ & Hc & _ & _ & Ht) _].
    split; [left; now rewrite Ht|intros _; now rewrite Hc].
  - unfold MQTTHandler.timer_fires.
    destruct (MQTTHandler.timers h !! i) as [[| | |]|] eqn:E;
      try (split; [now left|reflexivity]).
    set (h1 := MQTTHandler.set_timers _ h).
    assert (Hal : MQTTHandler.retry_alive h1 = true).
    { unfold MQTTHandler.retry_alive, h1. simpl.
      rewrite (Hown i (lookup_alive _ i _ E ltac:(discriminate))).
      unfold MQTTHandler.alive.
      rewrite list_lookup_insert_eq by (eapply lookup_lt_Some; exact E).
      reflexivity. }
    assert (Hl1 : length (MQTTHandler.timers h1) = length (MQTTHandler.timers h))
      by (unfold h1; simpl; apply length_insert).
    unfold MQTTHandler._connect. destruct ok; simpl.
    + split; [left; simpl; rewrite length_insert; exact Hl1|reflexivity].
    + set (h2 := MQTTHandler.emit _ (MQTTHandler.call _ (MQTTHandler.emit _ h1))).
      destruct (schedule_cases h2) as [Hc [Ht|(Hal2 & _)]].
      * split; [left; simpl; rewrite length_insert, Ht; exact Hl1
               |intros _; exact Hc].
      * unfold h2 in Hal2. unfold MQTTHandler.retry_alive in Hal, Hal2.
        simpl in Hal, Hal2. congruence.
  - unfold MQTTHandler.thread_exits.
    destruct (MQTTHandler.timers h !! i) as [[| | |]|] eqn:E;
      try (split; [now left|reflexivity]).
    split; [left; simpl; apply length_insert|reflexivity].
  - destruct (register_callback_same c h) as (_ & Hc & _ & _ & Ht).
    split; [left; now rewrite Ht|intros _; now rewrite Hc].
  - destruct (publish_same tp pl q r a h) as (_ & Hc & _ & _ & Ht).
    split; [left; now rewrite Ht|intros _; now rewrite Hc].
  - destruct (send_command_same d c pl n a h) as (_ & Hc & _ & _ & Ht).
    split; [left; now rewrite Ht|intros _; now rewrite Hc].
  - unfold MQTTHandler.close.
    destruct (MQTTHandler.retry_thread h) as [i|] eqn:Er;
      [|split; [now left|reflexivity]].
    destruct (MQTTHandler.alive _ i) eqn:Ha; [|split; [now left|reflexivity]].
    unfold MQTTHandler.cancel.
    destruct (MQTTHandler.timers h !! i) as [[| | |]|] eqn:E;
      try (split; [now left|reflexivity]).
    split; [left; simpl; apply length_insert|reflexivity].
Qed.

Lemma run_cons e es (s : handler * W) : run (e :: es) s = run es (step e s).
Proof. reflexivity. Qed.

(** Between two acknowledged connections, the timers started are paid
    for by the attempt counter. *)
Lemma run_budget es : forall (s : handler * W),
  session_inv (fst s) ->
  forallb (fun e => negb (MQTTHandler.is_connack e)) es = true ->
  session_inv (fst (run es s))
  /\ length (MQTTHandler.timers (fst (run es s))) + MQTTHandler.retry_count (fst s)
     <= length (MQTTHandler.timers (fst s))
        + MQTTHandler.retry_count (fst (run es s)).
Proof.
  induction es as [|e es IH]; intros [h w] Hinv Hes.
  - simpl. split; [exact Hinv|lia].
  - simpl in Hes. apply andb_prop in Hes as [He Hes].
    apply negb_true_iff in He. rewrite run_cons.
    pose proof (step_inv e h w Hinv) as Hinv'.
    destruct (step_timers e h w Hinv) as [Hts Hc]. cbv zeta in Hts, Hc.
    specialize (Hc He).
    destruct (step e (h, w)) as [h' w'] eqn:Es. simpl in *.
    destruct (IH (h', w') Hinv' Hes) as [Hi Hb]. simpl in Hb.
    split; [exact Hi|].
    destruct Hts as [Hl|(Hl & Hc' & _)]; lia.
Qed.

(** C8. In every state the handler can reach, at most one retry timer is
    pending; an event starts a timer only when none is pending, so a
    further failure while one is pending starts none; the attempt counter
    never passes the maximum of twelve, and between two acknowledged
    connections at most twelve timers are started. *)
Theorem single_retry_timer (s : handler * W) :
  reachable s ->
  let h := fst s in
  (forall i j, MQTTHandler.pending h i -> MQTTHandler.pending h j -> i = j)
  /\ (forall e,
        let h' := fst (step e s) in
        length (MQTTHandler.timers h') = length (MQTTHandler.timers h)
        \/ (length (MQTTHandler.timers h') = S (length (MQTTHandler.timers h))
            /\ forall i, ~ MQTTHandler.pending h i))
  /\ ((exists i, MQTTHandler.pending h i) ->
      MQTTHandler.timers (MQTTHandler._schedule_reconnect h)
      = MQTTHandler.timers h)
  /\ MQTTHandler.retry_count h <= MQTTHandler.max_retries h
  /\ MQTTHandler.max_retries h = 12
  /\ (forall es,
        forallb (fun e => negb (MQTTHandler.is_connack e)) es = true ->
        length (MQTTHandler.timers (fst (run es s)))
        <= length (MQTTHandler.timers h) + 12).
Proof.
  intros Hr. apply reachable_inv in Hr. destruct s as [h w]. simpl in Hr.
  cbv zeta. simpl fst. pose proof Hr as (Hown & Hcnt & Hmax).
  assert (Hpa : forall i, MQTTHandler.pending h i ->
                          MQTTHandler.alive (MQTTHandler.timers h) i = true).
  { intros i Hi. eapply lookup_alive; [exact Hi|discriminate]. }
  split; [|split; [|split; [|split; [|split]]]].
  - intros i j Hi Hj. pose proof (Hown i (Hpa i Hi)) as H1.
    pose proof (Hown j (Hpa j Hj)) as H2. congruence.
  - intros e. destruct (step_timers e h w Hr) as [[Hl|(Hl & _ & Hno)] _].
    + now left.
    + right. split; [exact Hl|]. intros i Hi. apply Hpa in Hi.
      rewrite Hno in Hi. discriminate.
  - intros [i Hi]. destruct (schedule_cases h) as [_ [Ht|(Hal & _)]]; [exact Ht|].
    pose proof (owned_none_alive h Hown Hal i) as Hd.
    rewrite (Hpa i Hi) in Hd. discriminate.
  - exact Hcnt.
  - exact Hmax.
  - intros es Hes. destruct (run_budget es (h, w) Hr Hes) as [(_ & Hc' & Hm') Hb].
    simpl in Hb. lia.
Qed.

End Session.

Lemma dict_lookup_set_eq k v (d : dict) :
  dict_lookup k (dict_set k v d) = Some v.
Proof.
  induction d as [|[k' v'] d IH]; simpl.
  - now rewrite String.eqb_refl.
  - destruct (String.eqb k' k) eqn:E; simpl; rewrite E; auto.
Qed.

Lemma dict_lookup_set_ne k k0 v (d : dict) :
  k0 <> k -> dict_lookup k0 (dict_set k v d) = dict_lookup k0 d.
Proof.
  intros Hne. induction d as [|[k' v'] d IH]; simpl.
  - destruct (String.eqb k k0) eqn:E; [|reflexivity].
    apply String.eqb_eq in E. congruence.
  - destruct (String.eqb k' k) eqn:E; simpl.
    + apply String.eqb_eq in E. subst k'.
      destruct (String.eqb k k0) eqn:E0; [|reflexivity].
      apply String.eqb_eq in E0. congruence.
    + destruct (String.eqb k' k0); auto.
Qed.

(** C9. A command with a dictionary as payload, or none.  When the
    handler is not connected the call returns [False] at once: nothing is
    handed to the client and nothing is kept for later, the handler only
    logs a warning.  When it is connected, the client is handed one
    message, on the topic [devices/<device_id>/commands/<command>], whose
    payload is the serialised dictionary with the time of dispatch under
    [timestamp] and its other entries as given; the call returns whether
    the client reports success. *)
Theorem command_dispatch {cb : Type} (json_dumps : pyval -> string)
  dev cmd payload now answer (h : MQTTHandler.t cb) d :
  entries payload = Some d ->
  let r := MQTTHandler.send_command json_dumps dev cmd payload now answer h in
  let p := dict_set "timestamp" (PStr now) d in
  (MQTTHandler.connected h = false ->
     r = (Ok false,
          MQTTHandler.emit
            (Log.mk Log.WARNING "Not connected to MQTT broker" []) h))
  /\ (MQTTHandler.connected h = true ->
        MQTTHandler.client (snd r)
        = (MQTTHandler.client h
           ++ [MQTTHandler.Publish
                 ("devices/" +:+ dev +:+ "/commands/" +:+ cmd)
                 (PStr (json_dumps (PDict p))) 0 false])%list
        /\ fst r = Ok (match answer with
                       | Ok rc => Z.eqb rc 0
                       | Raise _ => false
                       end))
  /\ dict_lookup "timestamp" p = Some (PStr now)
  /\ (forall k, k <> "timestamp" -> dict_lookup k p = dict_lookup k d).
Proof.
  intros Hd. cbv zeta.
  assert (Hs : MQTTHandler.stamped payload now
               = Ok (PDict (dict_set "timestamp" (PStr now) d))).
  { destruct payload; try discriminate; injection Hd as <-; reflexivity. }
  unfold MQTTHandler.send_command. rewrite Hs.
  unfold MQTTHandler.publish, MQTTHandler.command_topic.
  split; [|split; [|split]].
  - intros ->. reflexivity.
  - intros ->. simpl. destruct answer as [rc|e]; simpl.
    + destruct (Z.eqb rc 0); split; reflexivity.
    + split; reflexivity.
  - apply dict_lookup_set_eq.
  - intros k Hk. now apply dict_lookup_set_ne.
Qed.

(** ** Device status *)

Lemma bump_positive k acc :
  Forall (fun kn => (0 < snd kn)%Z) acc ->
  Forall (fun kn : InfluxDBHandler.series * Z => (0 < snd kn)%Z)
    (InfluxDBHandler.bump k acc)
  /\ InfluxDBHandler.bump k acc <> [].
Proof.
  induction acc as [|[k' n] acc IH]; simpl; intros Hall.
  - split; [|discriminate]. constructor; [simpl; lia|constructor].
  - apply Forall_cons_1 in Hall as [Hn Hall]. simpl in Hn.
    destruct (bool_decide (k' = k)).
    + split; [|discriminate]. constructor; [simpl; lia|exact Hall].
    + split; [|discriminate]. constructor; [exact Hn|]. now apply IH.
Qed.

Lemma tally_positive rows acc :
  Forall (fun kn => (0 < snd kn)%Z) acc ->
  Forall (fun kn : InfluxDBHandler.series * Z => (0 < snd kn)%Z) (tally rows acc)
  /\ (rows <> [] \/ acc <> [] -> tally rows acc <> []).
Proof.
  revert acc. induction rows as [|r rows IH]; simpl; intros acc Hall.
  - split; [exact Hall|]. intros [H|H]; [congruence|exact H].
  - destruct (bump_positive (InfluxDBHandler.series_of r) acc Hall) as [Hb Hne].
    destruct (IH _ Hb) as [H1 H2]. split; [exact H1|].
    intros _. apply H2. now right.
Qed.

Lemma count_any_positive rows :
  InfluxDBHandler.any_positive (InfluxDBHandler.count rows) = true
  <-> rows <> [].
Proof.
  unfold InfluxDBHandler.count. fold (tally rows []).
  destruct (tally_positive rows [] ltac:(constructor)) as [Hpos Hne].
  split.
  - intros H ->. discriminate.
  - intros Hr. specialize (Hne (or_introl Hr)).
    destruct (tally rows []) as [|[k n] l]; [congruence|].
    apply Forall_cons_1 in Hpos as [Hn _]. simpl in Hn.
    simpl. apply Z.ltb_lt in Hn. rewrite Hn. reflexivity.
Qed.

Lemma fresh_reading_filter srv bucket dev now :
  fresh_reading srv bucket dev now
  <-> List.filter (fun r => InfluxDBHandler.in_range now r
                          && InfluxDBHandler.of_device dev r)
        (rows_in srv bucket) <> [].
Proof.
  unfold fresh_reading. split.
  - intros (r & Hin & Htag & Ht) Hnil.
    assert (Hf : In r (List.filter (fun r => InfluxDBHandler.in_range now r
                          && InfluxDBHandler.of_device dev r) (rows_in srv bucket))).
    { apply filter_In. split; [exact Hin|].
      unfold InfluxDBHandler.in_range, InfluxDBHandler.of_device,
        InfluxDBHandler.five_minutes.
      rewrite Htag, String.eqb_refl.
      apply andb_true_intro. split; [|reflexivity].
      apply andb_true_intro. split; [apply Z.leb_le|apply Z.ltb_lt]; lia. }
    rewrite Hnil in Hf. exact Hf.
  - intros Hne.
    destruct (List.filter _ (rows_in srv bucket)) as [|r l] eqn:E; [congruence|].
    assert (Hf : In r (List.filter (fun r => InfluxDBHandler.in_range now r
                          && InfluxDBHandler.of_device dev r) (rows_in srv bucket)))
      by (rewrite E; now left).
    apply filter_In in Hf as [Hin Hp].
    apply andb_prop in Hp as [Hr Hd].
    unfold InfluxDBHandler.in_range, InfluxDBHandler.five_minutes in Hr.
    apply andb_prop in Hr as [H1 H2].
    apply Z.leb_le in H1. apply Z.ltb_lt in H2.
    unfold InfluxDBHandler.of_device in Hd.
    destruct (InfluxDBHandler.tag _ _) as [v|] eqn:Et; [|discriminate].
    apply String.eqb_eq in Hd. subst v.
    exists r. split; [exact Hin|]. split; [exact Et|lia].
Qed.

(** The status when the query is answered. *)
Lemma status_answered dev srv now h :
  InfluxDBHandler.is_connected h = true ->
  InfluxDBHandler.reachable srv = true ->
  InfluxDBHandler.plain (InfluxDBHandler.bucket h) = true ->
  InfluxDBHandler.plain dev = true ->
  let r := InfluxDBHandler._get_device_status dev srv now h in
  (fst r = "Online" <-> fresh_reading srv (InfluxDBHandler.bucket h) dev now)
  /\ (fst r = "Offline"
      <-> ~ fresh_reading srv (InfluxDBHandler.bucket h) dev now)
  /\ (fst r = "Online" -> snd r = h).
Proof.
  intros Hc Hr Hb Hd. cbv zeta. unfold InfluxDBHandler._get_device_status.
  rewrite Hc. simpl.
  unfold InfluxDBHandler.query_status. rewrite Hr, Hb, Hd. simpl.
  rewrite fresh_reading_filter. unfold rows_in.
  destruct (InfluxDBHandler.get_bucket _ _) as [rows|]; simpl.
  - pose proof (count_any_positive
                  (List.filter (fun r => InfluxDBHandler.in_range now r
                                  && InfluxDBHandler.of_device dev r) rows)) as Hcnt.
    destruct (InfluxDBHandler.any_positive _); simpl.
    + assert (Hne : List.filter (fun r => InfluxDBHandler.in_range now r
                                  && InfluxDBHandler.of_device dev r) rows <> [])
        by (apply Hcnt; reflexivity).
      split; [split; auto|]. split; [|reflexivity].
      split; [discriminate|]. intros Hn. now exfalso.
    + assert (Hn : ~ List.filter (fun r => InfluxDBHandler.in_range now r
                                  && InfluxDBHandler.of_device dev r) rows <> [])
        by (intros X; apply Hcnt in X; discriminate).
      split; [split; [discriminate|intros X; now exfalso]|].
      split; [split; auto|discriminate].
  - split; [split; [discriminate|congruence]|].
    split; [split; [intros _ X; congruence|reflexivity]|discriminate].
Qed.

(** C1, as the code has it.  When the handler is connected, the server
    answers, and neither the bucket name nor the device id breaks the
    text of the query, the status is [Online] exactly when a row of the
    device lies in the five minutes before the clock of the call; it is
    worked out from the rows at each call and nothing of it is kept in
    the handler.  When the handler is not connected or the server does
    not answer, the status is [Offline] whatever the rows. *)
Theorem device_status dev srv now h :
  let r := InfluxDBHandler._get_device_status dev srv now h in
  (InfluxDBHandler.is_connected h = true ->
   InfluxDBHandler.reachable srv = true ->
   InfluxDBHandler.plain (InfluxDBHandler.bucket h) = true ->
   InfluxDBHandler.plain dev = true ->
   (fst r = "Online" <-> fresh_reading srv (InfluxDBHandler.bucket h) dev now)
   /\ (fst r = "Offline"
       <-> ~ fresh_reading srv (InfluxDBHandler.bucket h) dev now)
   /\ (fst r = "Online" -> snd r = h))
  /\ (InfluxDBHandler.is_connected h = false
      \/ InfluxDBHandler.reachable srv = false -> fst r = "Offline").
Proof.
  cbv zeta. split.
  - apply status_answered.
  - unfold InfluxDBHandler._get_device_status. intros [Hc|Hr].
    + rewrite Hc. reflexivity.
    + destruct (InfluxDBHandler.is_connected h); [|reflexivity]. simpl.
      unfold InfluxDBHandler.query_status. rewrite Hr. reflexivity.
Qed.

(** ** The statements on sample data *)

Lemma sample_fresh :
  fresh_reading Sample.server "iot" "temp-1" Sample.now.
Proof.
  exists Sample.row1. split; [now left|]. split; [reflexivity|].
  unfold Sample.row1, Sample.now. simpl. lia.
Defined.

(** C1 as the specification words it fails for a handler that is not
    connected: the device has a row one minute old and is reported
    offline. *)
Lemma device_status_counterexample :
  ~ (fst (InfluxDBHandler._get_device_status "temp-1" Sample.server
            Sample.now (Sample.influx false)) = "Online"
     <-> fresh_reading Sample.server "iot" "temp-1" Sample.now).
Proof.
  intros [_ H]. specialize (H sample_fresh). discriminate H.
Qed.

Lemma device_status_witness :
  fst (InfluxDBHandler._get_device_status "temp-1" Sample.server
         Sample.now (Sample.influx true)) = "Online".
Proof.
  destruct (proj1 (device_status "temp-1" Sample.server Sample.now
                     (Sample.influx true))
              eq_refl eq_refl eq_refl eq_refl) as [[_ H] _].
  apply H. exact sample_fresh.
Defined.

Lemma ingest_result_witness :
  fst (DataProcessor.process_mqtt_message Sample.fromisoformat "temp-1"
         "sensors" Sample.reading 7 9
         (Sample.world Sample.storage_ok [Sample.temp1])) = true
  /\ fst (DataProcessor.process_mqtt_message Sample.fromisoformat "temp-1"
            "sensors" Sample.reading 7 9
            (Sample.world Sample.storage_down [Sample.temp1])) = false.
Proof.
  split.
  - apply (proj2 (proj1 (proj2 (ingest_result Sample.fromisoformat "temp-1"
                                  "sensors" Sample.reading 7 9
                                  (Sample.world Sample.storage_ok [Sample.temp1])))
                    Sample.storage_ok
                    [("value", PFloat (FDec 223 (-1)));
                     ("timestamp", PStr "2024-05-01T12:00:00Z")]
                    eq_refl eq_refl eq_refl)).
    reflexivity.
  - apply (proj1 (ingest_result Sample.fromisoformat "temp-1" "sensors"
                    Sample.reading 7 9
                    (Sample.world Sample.storage_down [Sample.temp1]))).
    intros a Ha. injection Ha as <-. reflexivity.
Defined.

(** C5 as the specification words it fails for a payload without
    [value]: the storage is connected and would take the point, and no
    point is handed to it. *)
Lemma ingest_point_counterexample :
  let r := DataProcessor.process_mqtt_message Sample.fromisoformat "temp-1"
             "sensors" Sample.reading_no_value 7 9
             (Sample.world Sample.storage_ok [Sample.temp1]) in
  fst r = false /\ DataProcessor.writes (snd r) = [].
Proof. split; reflexivity. Qed.

Lemma ingest_point_witness :
  DataProcessor.writes
    (snd (DataProcessor.process_mqtt_message Sample.fromisoformat "temp-1"
            "sensors" Sample.reading 7 9
            (Sample.world Sample.storage_ok [Sample.temp1])))
  = [(DataProcessor.mk_point "sensors" [("device_id", "temp-1")]
        1714564800000000 [("value", PFloat (FDec 223 (-1)))], Ok true)].
Proof.
  apply (proj1 (proj1 (ingest_point Sample.fromisoformat "temp-1" "sensors"
                         Sample.reading 7 9
                         (Sample.world Sample.storage_ok [Sample.temp1])
                         Sample.storage_ok eq_refl eq_refl)
                  [("value", PFloat (FDec 223 (-1)));
                   ("timestamp", PStr "2024-05-01T12:00:00Z")]
                  eq_refl)).
Defined.

(** C6 as the specification words it fails for a device that is not
    registered: its reading is stored, and the registry holds no document
    for it afterwards. *)
Lemma ingest_last_seen_counterexample :
  let r := DataProcessor.process_mqtt_message Sample.fromisoformat "temp-9"
             "sensors" Sample.reading 7 9
             (Sample.world Sample.storage_ok [Sample.temp1]) in
  fst r = true
  /\ MongoDBHandler.find_one "temp-9" (registry (snd r)) = None
  /\ registry (snd r) = [Sample.temp1].
Proof. repeat split; reflexivity. Qed.

Lemma sample_registry_up a ds : registry_up (Sample.world a ds) ds.
Proof.
  exists (Sample.mongo ds), (MongoDBHandler.mk_db ds [] true).
  repeat split; reflexivity.
Defined.

Lemma ingest_last_seen_witness :
  exists x',
    MongoDBHandler.find_one "temp-1"
      (registry (snd (DataProcessor.process_mqtt_message Sample.fromisoformat
                        "temp-1" "sensors" Sample.reading 7 9
                        (Sample.world Sample.storage_ok [Sample.temp1]))))
    = Some x'
    /\ MongoDBHandler.last_seen x' = Some 7%Z
    /\ length (registry (snd (DataProcessor.process_mqtt_message
                                Sample.fromisoformat "temp-1" "sensors"
                                Sample.reading 7 9
                                (Sample.world Sample.storage_ok [Sample.temp1]))))
       = 1.
Proof.
  exact (ingest_last_seen Sample.fromisoformat "temp-1" "sensors"
           Sample.reading 7 9 (Sample.world Sample.storage_ok [Sample.temp1])
           [Sample.temp1] (sample_registry_up _ _)).
Defined.

Lemma ingest_not_atomic_witness :
  let r := DataProcessor.process_mqtt_message Sample.fromisoformat "temp-1"
             "sensors" Sample.reading 7 9
             (Sample.world Sample.storage_failing [Sample.temp1]) in
  fst r = false
  /\ exists x', MongoDBHandler.find_one "temp-1" (registry (snd r)) = Some x'
                /\ MongoDBHandler.status x' = "Online"
                /\ MongoDBHandler.last_seen x' = Some 7%Z.
Proof.
  destruct (ingest_not_atomic Sample.fromisoformat "temp-1" "sensors"
              Sample.reading 7 9
              (Sample.world Sample.storage_failing [Sample.temp1])
              [Sample.temp1] Sample.temp1 (sample_registry_up _ _) eq_refl)
    as [Hdoc Hres].
  split; [|exact Hdoc].
  apply Hres. intros a d Ha _ _. injection Ha as <-. discriminate.
Defined.

Lemma resubscribe_on_connect_witness :
  let h' := fst (MQTTHandler.step Sample.invoke Sample.json_dumps
                   (MQTTHandler.OnConnect 0)
                   (Sample.failed, Sample.world Sample.storage_ok [Sample.temp1])) in
  MQTTHandler.connected h' = true
  /\ MQTTHandler.client h'
     = (MQTTHandler.client Sample.failed
        ++ [MQTTHandler.Subscribe "devices/+/data/#"])%list.
Proof.
  exact (proj2 (resubscribe_on_connect Sample.invoke Sample.json_dumps
                  (MQTTHandler.OnConnect 0) Sample.failed
                  (Sample.world Sample.storage_ok [Sample.temp1])) eq_refl).
Defined.

Lemma sample_reachable :
  MQTTHandler.reachable Sample.invoke Sample.json_dumps Sample.retrying.
Proof. apply MQTTHandler.reachable_step, MQTTHandler.reachable_init. Defined.

Lemma single_retry_timer_witness :
  (forall i j, MQTTHandler.pending (fst Sample.retrying) i ->
               MQTTHandler.pending (fst Sample.retrying) j -> i = j)
  /\ MQTTHandler.timers (fst Sample.retrying) = [MQTTHandler.Waiting]
  /\ MQTTHandler.retry_count (fst Sample.retrying) = 2.
Proof.
  split; [|split; reflexivity].
  exact (proj1 (single_retry_timer Sample.invoke Sample.json_dumps
                  Sample.retrying sample_reachable)).
Defined.

Lemma command_dispatch_witness :
  MQTTHandler.send_command Sample.json_dumps "temp-1" "restart" PNone
    "2024-05-01T12:00:00" (Ok 0%Z) Sample.online
  = (Ok true,
     MQTTHandler.emit
       (Log.mk Log.DEBUG "Published message to {topic}"
          [Log.AStr "devices/temp-1/commands/restart"])
       (MQTTHandler.call
          (MQTTHandler.Publish "devices/temp-1/commands/restart"
             (PStr "timestamp") 0 false) Sample.online))
  /\ MQTTHandler.client
       (snd (MQTTHandler.send_command Sample.json_dumps "temp-1" "restart"
               PNone "2024-05-01T12:00:00" (Ok 0%Z) Sample.online))
     = (MQTTHandler.client Sample.online
        ++ [MQTTHandler.Publish "devices/temp-1/commands/restart"
              (PStr "timestamp") 0 false])%list.
Proof.
  split; [reflexivity|].
  apply (proj1 (proj2 (command_dispatch Sample.json_dumps "temp-1" "restart"
                         PNone "2024-05-01T12:00:00" (Ok 0%Z) Sample.online []
                         eq_refl)) eq_refl).
Defined.

(** * Further properties *)

(** ** More on the broker session *)
Section SessionMore.

Context {cb : Type} `{EqDecision cb} {W : Type}.
Variable invoke : cb -> string -> string -> pyval -> W -> res pyval * W.
Variable json_dumps : pyval -> string.

Abbreviation handler := (MQTTHandler.t cb).
Abbreviation step := (MQTTHandler.step invoke json_dumps).
Abbreviation reachable := (MQTTHandler.reachable invoke json_dumps).

Lemma schedule_callbacks (h : handler) :
  MQTTHandler.callbacks (MQTTHandler._schedule_reconnect h)
  = MQTTHandler.callbacks h.
Proof.
  unfold MQTTHandler._schedule_reconnect.
  destruct (Nat.ltb _ _); [|reflexivity].
  destruct (MQTTHandler.retry_alive _); reflexivity.
Qed.

Lemma connect_callbacks ok (h : handler) :
  MQTTHandler.callbacks (MQTTHandler._connect ok h) = MQTTHandler.callbacks h.
Proof.
  unfold MQTTHandler._connect. destruct ok; [reflexivity|].
  now rewrite schedule_callbacks.
Qed.

(** Only a registration changes the callbacks. *)
Lemma step_callbacks e (h : handler) (w : W) :
  MQTTHandler.callbacks (fst (step e (h, w)))
  = match e with
    | MQTTHandler.RegisterCallback c =>
        MQTTHandler.callbacks (MQTTHandler.register_callback c h)
    | _ => MQTTHandler.callbacks h
    end.
Proof.
  destruct e as [rc|rc|topic raw|i ok|i|c|tp pl q r a|d c pl n a|]; simpl.
  - unfold MQTTHandler._on_connect. destruct (Z.eqb rc 0); [reflexivity|].
    now rewrite schedule_callbacks.
  - unfold MQTTHandler._on_disconnect. destruct (negb _); [|reflexivity].
    now rewrite schedule_callbacks.
  - unfold MQTTHandler._on_message.
    destruct (MQTTHandler.parse topic) as [[d m]|]; [|reflexivity].
    destruct (MQTTHandler.decode raw) as [p|e]; [|reflexivity].
    destruct (MQTTHandler.dispatch invoke _ d m p w) as [[u|e] w'];
      reflexivity.
  - unfold MQTTHandler.timer_fires.
    destruct (MQTTHandler.timers h !! i) as [[| | |]|]; try reflexivity.
    simpl. now rewrite connect_callbacks.
  - unfold MQTTHandler.thread_exits.
    destruct (MQTTHandler.timers h !! i) as [[| | |]|]; reflexivity.
  - reflexivity.
  - unfold MQTTHandler.publish.
    destruct (MQTTHandler.connected h); simpl; [|reflexivity].
    destruct a as [rc|e]; [|reflexivity]. destruct (Z.eqb rc 0); reflexivity.
  - unfold MQTTHandler.send_command.
    destruct (MQTTHandler.stamped pl n) as [p|e]; [|reflexivity].
    unfold MQTTHandler.publish.
    destruct (MQTTHandler.connected h); simpl; [|reflexivity].
    destruct a as [rc|e]; [|reflexivity]. destruct (Z.eqb rc 0); reflexivity.
  - unfold MQTTHandler.close.
    destruct (MQTTHandler.retry_thread h) as [i|]; [|reflexivity].
    destruct (MQTTHandler.alive _ i); reflexivity.
Qed.

Lemma register_callback_nodup c (h : handler) :
  List.NoDup (MQTTHandler.callbacks h) ->
  List.NoDup (MQTTHandler.callbacks (MQTTHandler.register_callback c h)).
Proof.
  intros Hnd. unfold MQTTHandler.register_callback.
  destruct (bool_decide (c ∈ MQTTHandler.callbacks h)) eqn:E; [exact Hnd|].
  apply bool_decide_eq_false in E. simpl.
  apply List.NoDup_app.
  - exact Hnd.
  - constructor; [intros []|constructor].
  - intros x Hx [<-|[]]. apply E. now apply list_elem_of_In.
Qed.

(** X1. A callback is registered at most once: in every state the
    handler can reach its callbacks are pairwise distinct, a registered
    callback is in the list, and registering it again changes nothing. *)
Theorem callbacks_registered_once (s : handler * W) (c : cb) :
  reachable s ->
  let h := fst s in
  List.NoDup (MQTTHandler.callbacks h)
  /\ In c (MQTTHandler.callbacks (MQTTHandler.register_callback c h))
  /\ List.NoDup (MQTTHandler.callbacks (MQTTHandler.register_callback c h))
  /\ MQTTHandler.register_callback c (MQTTHandler.register_callback c h)
     = MQTTHandler.register_callback c h.
Proof.
  intros Hr. cbv zeta.
  assert (Hnd : List.NoDup (MQTTHandler.callbacks (fst s))).
  { induction Hr as [broker port username password ok w|e [h w] Hr IH].
    - simpl. unfold MQTTHandler.__init__. rewrite connect_callbacks.
      destruct username as [u|]; [|constructor].
      destruct password as [p|]; [|constructor].
      destruct (_ && _); constructor.
    - rewrite step_callbacks. simpl in IH.
      destruct e; try exact IH. now apply register_callback_nodup. }
  assert (Hin : In c (MQTTHandler.callbacks
                        (MQTTHandler.register_callback c (fst s)))).
  { unfold MQTTHandler.register_callback.
    destruct (bool_decide (c ∈ MQTTHandler.callbacks (fst s))) eqn:E.
    - apply bool_decide_eq_true in E. now apply list_elem_of_In.
    - simpl. apply in_or_app. right. now left. }
  split; [exact Hnd|]. split; [exact Hin|].
  split; [now apply register_callback_nodup|].
  unfold MQTTHandler.register_callback at 1.
  rewrite bool_decide_eq_true_2; [reflexivity|]. now apply list_elem_of_In.
Qed.

Lemma alive_insert_ne (ts : list MQTTHandler.timer) i j x :
  j <> i -> MQTTHandler.alive (<[i := x]> ts) j = MQTTHandler.alive ts j.
Proof.
  intros Hne. unfold MQTTHandler.alive.
  rewrite list_lookup_insert_ne by congruence. reflexivity.
Qed.

Lemma alive_insert_dead (ts : list MQTTHandler.timer) i :
  MQTTHandler.alive (<[i := MQTTHandler.Dead]> ts) i = false.
Proof.
  unfold MQTTHandler.alive. destruct (decide (i < length ts)) as [Hlt|Hge].
  - now rewrite list_lookup_insert_eq.
  - rewrite lookup_ge_None_2; [reflexivity|]. rewrite length_insert. lia.
Qed.

(** X2. A retry that fails ends the retries: when the pending timer
    fires and the connection fails again, the attempt is counted but no
    new timer is started, because the thread that runs the attempt is the
    retry thread and is still alive; afterwards no timer thread is left. *)
Theorem failed_retry_starts_no_timer (s : handler * W) (i : nat) :
  reachable s ->
  MQTTHandler.pending (fst s) i ->
  let h := fst s in
  let h' := fst (step (MQTTHandler.TimerFires i false) s) in
  (forall j, MQTTHandler.alive (MQTTHandler.timers h') j = false)
  /\ length (MQTTHandler.timers h') = length (MQTTHandler.timers h)
  /\ MQTTHandler.connected h' = MQTTHandler.connected h
  /\ MQTTHandler.retry_count h'
     = (if Nat.ltb (MQTTHandler.retry_count h) (MQTTHandler.max_retries h)
        then S (MQTTHandler.retry_count h) else MQTTHandler.retry_count h).
Proof.
  intros Hr Hp. apply reachable_inv in Hr. destruct s as [h w].
  simpl in Hr, Hp. cbv zeta. simpl fst.
  destruct Hr as (Hown & Hcnt & Hmax). unfold MQTTHandler.pending in Hp.
  assert (Hlt : i < length (MQTTHandler.timers h))
    by (eapply lookup_lt_Some; exact Hp).
  assert (Hri : MQTTHandler.retry_thread h = Some i)
    by (apply Hown; eapply lookup_alive; [exact Hp|discriminate]).
  assert (Hdead : forall j,
            MQTTHandler.alive
              (<[i:=MQTTHandler.Dead]>
                 (<[i:=MQTTHandler.Running]> (MQTTHandler.timers h))) j = false).
  { intros j. destruct (decide (j = i)) as [->|Hne].
    - apply alive_insert_dead.
    - rewrite !alive_insert_ne by exact Hne.
      destruct (MQTTHandler.alive _ j) eqn:Hj; [|reflexivity].
      pose proof (Hown j Hj) as Hrj. congruence. }
  simpl. unfold MQTTHandler.timer_fires. rewrite Hp.
  unfold MQTTHandler._connect, MQTTHandler._schedule_reconnect. simpl.
  assert (Hal : MQTTHandler.alive (<[i:=MQTTHandler.Running]> (MQTTHandler.timers h)) i
                = true).
  { unfold MQTTHandler.alive. now rewrite list_lookup_insert_eq. }
  destruct (Nat.ltb (MQTTHandler.retry_count h) (MQTTHandler.max_retries h));
    unfold MQTTHandler.retry_alive; simpl; rewrite ?Hri, ?Hal; simpl;
    (split; [exact Hdead|]); (split; [now rewrite !length_insert|]);
    (split; [reflexivity|lia]).
Qed.

Lemma session_inv_pending_alive (h : handler) i :
  MQTTHandler.pending h i -> MQTTHandler.alive (MQTTHandler.timers h) i = true.
Proof. intros Hp. eapply lookup_alive; [exact Hp|discriminate]. Qed.

(** X3. Closing the handler cancels the retry: afterwards no timer is
    pending, a timer that would fire does nothing, and the client has
    been told to stop its loop and to disconnect. *)
Theorem close_cancels_retry (s : handler * W) :
  reachable s ->
  let h := fst s in
  (forall i, ~ MQTTHandler.pending (MQTTHandler.close h) i)
  /\ (forall i ok, MQTTHandler.timer_fires i ok (MQTTHandler.close h)
                   = MQTTHandler.close h)
  /\ MQTTHandler.client (MQTTHandler.close h)
     = (MQTTHandler.client h ++ [MQTTHandler.LoopStop; MQTTHandler.Disconnect])%list
  /\ length (MQTTHandler.timers (MQTTHandler.close h))
     = length (MQTTHandler.timers h).
Proof.
  intros Hr. apply reachable_inv in Hr. destruct s as [h w]. simpl in Hr.
  cbv zeta. simpl fst. destruct Hr as (Hown & _).
  assert (Hnp : forall i, ~ MQTTHandler.pending (MQTTHandler.close h) i).
  { intros j. unfold MQTTHandler.pending, MQTTHandler.close.
    destruct (MQTTHandler.retry_thread h) as [i|] eqn:Er.
    - destruct (MQTTHandler.alive (MQTTHandler.timers h) i) eqn:Ha; simpl.
      + unfold MQTTHandler.cancel.
        destruct (decide (j = i)) as [->|Hne].
        * destruct (MQTTHandler.timers h !! i) as [[| | |]|] eqn:E;
            try (rewrite E; discriminate).
          rewrite list_lookup_insert_eq by (eapply lookup_lt_Some; exact E).
          discriminate.
        * intros Hj.
          assert (Hj' : MQTTHandler.timers h !! j = Some MQTTHandler.Waiting).
          { destruct (MQTTHandler.timers h !! i) as [[| | |]|]; try exact Hj.
            now rewrite list_lookup_insert_ne in Hj by congruence. }
          pose proof (Hown j (session_inv_pending_alive h j Hj')). congruence.
      + intros Hj. pose proof (session_inv_pending_alive h j Hj) as Haj.
        pose proof (Hown j Haj) as Hrj.
        assert (j = i) as -> by congruence. congruence.
    - simpl. intros Hj.
      pose proof (Hown j (session_inv_pending_alive h j Hj)). congruence. }
  split; [exact Hnp|]. split; [|split].
  - intros i ok. unfold MQTTHandler.timer_fires.
    destruct (MQTTHandler.timers (MQTTHandler.close h) !! i) as [[| | |]|] eqn:E;
      try reflexivity.
    exfalso. exact (Hnp i E).
  - unfold MQTTHandler.close.
    destruct (MQTTHandler.retry_thread h) as [i|]; simpl.
    + destruct (MQTTHandler.alive _ i); simpl; now rewrite <- app_assoc.
    + now rewrite <- app_assoc.
  - unfold MQTTHandler.close.
    destruct (MQTTHandler.retry_thread h) as [i|]; simpl; [|reflexivity].
    destruct (MQTTHandler.alive _ i); simpl; [|reflexivity].
    unfold MQTTHandler.cancel.
    destruct (MQTTHandler.timers h !! i) as [[| | |]|]; try reflexivity.
    apply length_insert.
Qed.

(** X4. Once the attempts are used up the handler has given up: until a
    connection is acknowledged, no event starts a timer or counts a
    further attempt. *)
Theorem retries_exhausted (s : handler * W) (e : MQTTHandler.event cb) :
  reachable s ->
  MQTTHandler.retry_count (fst s) = MQTTHandler.max_retries (fst s) ->
  MQTTHandler.is_connack e = false ->
  let h' := fst (step e s) in
  length (MQTTHandler.timers h') = length (MQTTHandler.timers (fst s))
  /\ MQTTHandler.retry_count h' = MQTTHandler.retry_count (fst s)
  /\ MQTTHandler.retry_count h' = 12.
Proof.
  intros Hr Hfull He. apply reachable_inv in Hr. destruct s as [h w].
  cbv zeta. change (fst (h, w)) with h in *.
  pose proof (step_inv invoke json_dumps e h w Hr) as (_ & Hcnt' & Hmax').
  destruct (step_timers invoke json_dumps e h w Hr) as [Hts Hc].
  cbv zeta in Hts, Hc. specialize (Hc He).
  destruct Hr as (_ & Hcnt & Hmax).
  destruct Hts as [Hl|(Hl & Hc1 & _)]; [|lia].
  split; [exact Hl|]. split; lia.
Qed.

End SessionMore.

(** ** More on incoming messages *)

(** X5. A payload that is not UTF-8 is dropped: the decoding error is not
    the one the fallback catches, so no callback runs and the handler
    only logs the error. *)
Theorem undecodable_payload_dropped {cb W : Type}
  (invoke : cb -> string -> string -> pyval -> W -> res pyval * W)
  topic raw (h : MQTTHandler.t cb) (w : W) :
  4 <= length (split "/" topic) ->
  utf8_valid raw = false ->
  MQTTHandler._on_message invoke topic raw h w
  = (MQTTHandler.emit
       (Log.mk Log.ERROR "Error processing message: {e}"
          [Log.AExn UnicodeDecodeError])
       (MQTTHandler.emit
          (Log.mk Log.DEBUG "Received message on topic: {msg.topic}"
             [Log.AStr topic]) h), w).
Proof.
  intros Hlen Hraw.
  destruct (parse_four_segments topic Hlen) as (id & ch & _ & _ & Hp).
  unfold MQTTHandler._on_message, MQTTHandler.decode, bytes_decode.
  rewrite Hp, Hraw. reflexivity.
Qed.

Lemma dispatch_all_return {cb W : Type}
  (invoke : cb -> string -> string -> pyval -> W -> res pyval * W)
  d m p (cs : list cb) : forall w,
  (forall c w0, In c cs -> fst (invoke c d m p w0) = Ok p) ->
  MQTTHandler.dispatch invoke cs d m p w
  = (Ok tt, fold_left (fun w0 c => snd (invoke c d m p w0)) cs w).
Proof.
  induction cs as [|c cs IH]; intros w Hall; [reflexivity|].
  simpl. pose proof (Hall c w (or_introl eq_refl)) as Hc.
  destruct (invoke c d m p w) as [r w']. simpl in Hc. subst r.
  apply IH. intros c' w0 Hin. apply Hall. now right.
Qed.

(** X6. A message with a topic of four segments and a payload that
    decodes, of a size and a nesting within the limits of the
    interpreter, is handed to every registered callback once, in the
    order of registration, each with the device, the measurement and the
    decoded payload, as long as the callbacks return and leave the
    payload as it is; the handler itself only logs the reception. *)
Theorem message_reaches_every_callback {cb W : Type}
  (invoke : cb -> string -> string -> pyval -> W -> res pyval * W)
  topic raw (h : MQTTHandler.t cb) (w : W) d m p :
  MQTTHandler.parse topic = Some (d, m) ->
  within_limits raw ->
  MQTTHandler.decode raw = Ok p ->
  (forall c w0, In c (MQTTHandler.callbacks h) ->
                fst (invoke c d m p w0) = Ok p) ->
  MQTTHandler._on_message invoke topic raw h w
  = (MQTTHandler.emit
       (Log.mk Log.DEBUG "Received message on topic: {msg.topic}"
          [Log.AStr topic]) h,
     fold_left (fun w0 c => snd (invoke c d m p w0))
       (MQTTHandler.callbacks h) w).
Proof.
  intros Hp _ Hd Hall. unfold MQTTHandler._on_message. rewrite Hp, Hd.
  simpl. rewrite (dispatch_all_return invoke d m p) by exact Hall.
  reflexivity.
Qed.

(** *** Payloads that are numbers *)

Lemma byte_in_neq lo hi c x :
  byte_in lo hi c = true -> byte_in lo hi x = false -> Ascii.eqb c x = false.
Proof.
  intros Hc Hx. destruct (Ascii.eqb c x) eqn:E; [|reflexivity].
  apply Ascii.eqb_eq in E. subst. congruence.
Qed.

Lemma byte_in_weaken lo hi lo' hi' c :
  (lo' <= lo)%N -> (hi <= hi')%N ->
  byte_in lo hi c = true -> byte_in lo' hi' c = true.
Proof.
  unfold byte_in. intros Hlo Hhi H. apply andb_prop in H as [H1 H2].
  apply N.leb_le in H1, H2.
  apply andb_true_intro. split; apply N.leb_le; lia.
Qed.

Lemma digits_utf8 s : forallb Json.is_digit (list_ascii_of_string s) = true ->
  utf8_valid s = true.
Proof.
  induction s as [|c s IH]; [reflexivity|]. simpl.
  intros H. apply andb_prop in H as [Hc Hs].
  rewrite (byte_in_weaken 48 57 0 127 c) by (try lia; exact Hc).
  now apply IH.
Qed.

Lemma take_digits_all s :
  forallb Json.is_digit (list_ascii_of_string s) = true ->
  Json.take_digits s = (s, EmptyString).
Proof.
  induction s as [|c s IH]; [reflexivity|]. simpl.
  intros H. apply andb_prop in H as [Hc Hs].
  rewrite Hc, (IH Hs). reflexivity.
Qed.

Lemma digit_not_literal c r :
  Json.is_digit c = true ->
  Json.match_literal Json.literals (String c r) = None.
Proof.
  intros Hc. unfold Json.literals, Json.match_literal, Json.strip_prefix.
  rewrite !(Ascii.eqb_sym _ c).
  rewrite (byte_in_neq 48 57 c "n"), (byte_in_neq 48 57 c "t"),
    (byte_in_neq 48 57 c "f"), (byte_in_neq 48 57 c "N"),
    (byte_in_neq 48 57 c "I"), (byte_in_neq 48 57 c "-");
    try reflexivity; exact Hc.
Qed.

(** X7. A payload that is a decimal number, digits with no leading zero
    (and no more of them than an interpreter converts, 4300), is a JSON
    document: it is handed to the callbacks as that number and not as a
    dictionary with the text under [value], and the processor then stores
    nothing for it. *)
Theorem numeric_payload_is_number c r :
  byte_in 49 57 c = true ->
  forallb Json.is_digit (list_ascii_of_string r) = true ->
  String.length (String c r) <= 4300 ->
  MQTTHandler.decode (String c r) = Ok (PInt (Json.digits_val 0 (String c r)))
  /\ (0 < Json.digits_val 0 (String c r))%Z
  /\ forall fromisoformat dev m now utcnow w,
       let res := DataProcessor.process_mqtt_message fromisoformat dev m
                    (PInt (Json.digits_val 0 (String c r))) now utcnow w in
       fst res = false
       /\ DataProcessor.writes (snd res) = DataProcessor.writes w.
Proof.
  intros Hc Hr _.
  assert (Hd : Json.is_digit c = true)
    by (apply (byte_in_weaken 49 57 48 57 c); try lia; exact Hc).
  split; [|split].
  - unfold MQTTHandler.decode, bytes_decode.
    rewrite (digits_utf8 (String c r)) by (simpl; now rewrite Hd, Hr).
    unfold Json.loads.
    assert (Hws : Json.skip_ws (String c r) = String c r).
    { simpl. unfold Json.is_ws.
      rewrite (byte_in_neq 48 57 c " "), (byte_in_neq 48 57 c (ascii_of_nat 9)),
        (byte_in_neq 48 57 c (ascii_of_nat 10)),
        (byte_in_neq 48 57 c (ascii_of_nat 13)); try reflexivity; exact Hd. }
    rewrite Hws.
    cbn [Json.scan_once].
    rewrite (byte_in_neq 48 57 c Json.dquote), (byte_in_neq 48 57 c "{"),
      (byte_in_neq 48 57 c "["); try reflexivity; try exact Hd.
    rewrite (digit_not_literal c r Hd).
    unfold Json.match_number.
    rewrite (byte_in_neq 48 57 c "-") by (reflexivity || exact Hd).
    rewrite Hc, (take_digits_all r Hr). reflexivity.
  - assert (Hpos : forall s acc, (0 < acc)%Z ->
              forallb Json.is_digit (list_ascii_of_string s) = true ->
              (0 < Json.digits_val acc s)%Z).
    { induction s as [|x s IH]; simpl; intros acc Hacc Hs; [exact Hacc|].
      apply andb_prop in Hs as [Hx Hs]. apply IH; [|exact Hs].
      unfold Json.digit_val, Json.is_digit, byte_in in *.
      apply andb_prop in Hx as [H1 H2]. apply N.leb_le in H1, H2. lia. }
    simpl. apply Hpos; [|exact Hr].
    unfold Json.digit_val, byte_in in *.
    apply andb_prop in Hc as [H1 H2]. apply N.leb_le in H1, H2. lia.
  - intros fromisoformat dev m now utcnow w. cbv zeta.
    destruct (process_cases fromisoformat dev m
                (PInt (Json.digits_val 0 (String c r))) now utcnow w)
      as [_ [(a & d & _ & _ & Hv & _)|(_ & Hres & Hw)]]; [discriminate|auto].
Qed.

(** ** The registry handler *)

Lemma find_one_In id ds x :
  MongoDBHandler.find_one id ds = Some x ->
  In x ds /\ MongoDBHandler.device_id x = id.
Proof.
  unfold MongoDBHandler.find_one. intros H. apply find_some in H as [Hin He].
  apply String.eqb_eq in He. auto.
Qed.

Lemma find_one_None id ds :
  MongoDBHandler.find_one id ds = None <-> ~ In id (ids ds).
Proof.
  unfold MongoDBHandler.find_one, ids. induction ds as [|d ds IH]; simpl.
  - tauto.
  - destruct (String.eqb (MongoDBHandler.device_id d) id) eqn:E.
    + apply String.eqb_eq in E. split; [discriminate|tauto].
    + apply String.eqb_neq in E. tauto.
Qed.

Lemma find_one_app id ds x :
  MongoDBHandler.find_one id (ds ++ [x])
  = match MongoDBHandler.find_one id ds with
    | Some y => Some y
    | None => if String.eqb (MongoDBHandler.device_id x) id then Some x else None
    end.
Proof.
  unfold MongoDBHandler.find_one. induction ds as [|d ds IH]; simpl.
  - reflexivity.
  - destruct (String.eqb (MongoDBHandler.device_id d) id); [reflexivity|exact IH].
Qed.

Lemma delete_one_absent id ds :
  MongoDBHandler.find_one id ds = None ->
  MongoDBHandler.delete_one id ds = (ds, 0).
Proof.
  unfold MongoDBHandler.find_one. induction ds as [|d ds IH]; simpl; [reflexivity|].
  destruct (String.eqb (MongoDBHandler.device_id d) id); [discriminate|].
  intros H. now rewrite (IH H).
Qed.

Lemma delete_one_found id ds x :
  MongoDBHandler.find_one id ds = Some x ->
  snd (MongoDBHandler.delete_one id ds) = 1
  /\ S (length (fst (MongoDBHandler.delete_one id ds))) = length ds
  /\ (forall y, In y (fst (MongoDBHandler.delete_one id ds)) -> In y ds)
  /\ (List.NoDup (ids ds) ->
      MongoDBHandler.find_one id (fst (MongoDBHandler.delete_one id ds)) = None).
Proof.
  unfold MongoDBHandler.find_one. induction ds as [|d ds IH]; simpl; [discriminate|].
  destruct (String.eqb (MongoDBHandler.device_id d) id) eqn:E.
  - intros _. simpl. repeat split; auto.
    intros Hnd. apply NoDup_cons_iff in Hnd as [Hn _].
    apply String.eqb_eq in E. rewrite E in Hn. now apply find_one_None.
  - intros H. destruct (IH H) as (H1 & H2 & H3 & H4).
    destruct (MongoDBHandler.delete_one id ds) as [r n]. simpl in *.
    repeat split; auto.
    + intros y [->|Hy]; auto.
    + intros Hnd. apply NoDup_cons_iff in Hnd as [_ Hnd]. rewrite E. auto.
Qed.

Lemma delete_one_app_fresh id ds x :
  MongoDBHandler.find_one id ds = None ->
  MongoDBHandler.device_id x = id ->
  MongoDBHandler.delete_one id (ds ++ [x]) = (ds, 1).
Proof.
  unfold MongoDBHandler.find_one. intros H Hx.
  induction ds as [|d ds IH]; simpl in *.
  - rewrite Hx, String.eqb_refl. reflexivity.
  - destruct (String.eqb (MongoDBHandler.device_id d) id); [discriminate|].
    now rewrite (IH H).
Qed.

Ltac serving_in H h :=
  let Hc := fresh "Hc" in
  let d := fresh "d" in
  let Hd := fresh "Hd" in
  let Hup := fresh "Hup" in
  destruct H as (Hc & d & Hd & Hup);
  unfold MongoDBHandler.is_connected; rewrite ?Hc, ?Hd; simpl;
  rewrite ?Hup; simpl.

(** What a successful [add_device] has done. *)
Lemma add_device_done id name ty loc proj now h :
  serving h ->
  let r := MongoDBHandler.add_device id name ty loc proj now h in
  fst r = true ->
  MongoDBHandler.find_one id (stored h) = None
  /\ stored (snd r)
     = (stored h ++ [MongoDBHandler.mk_device id name ty loc proj now None
                       "Offline"])%list
  /\ serving (snd r).
Proof.
  intros Hs. cbv zeta. unfold MongoDBHandler.add_device, stored, serving.
  serving_in Hs h.
  destruct (MongoDBHandler.find_one id (MongoDBHandler.devices d)) as [x|];
    [discriminate|].
  destruct (MongoDBHandler.opt_truthy proj
            && match MongoDBHandler.find_project _ _ with
               | Some _ => false
               | None => true
               end); [discriminate|].
  intros _. simpl. split; [reflexivity|]. split; [reflexivity|].
  split; [exact Hc|]. eexists. split; reflexivity.
Qed.

(** X8. Adding a device.  It succeeds exactly when no document has the
    id and the project, when one is named, exists; then one document is
    appended, offline and never seen.  When it fails the documents stay
    as they were.  Ids that were distinct stay distinct. *)
Theorem add_device_registers id name ty loc proj now h :
  serving h ->
  let r := MongoDBHandler.add_device id name ty loc proj now h in
  (fst r = true <->
   MongoDBHandler.find_one id (stored h) = None
   /\ (MongoDBHandler.opt_truthy proj = true ->
       MongoDBHandler.find_project (default EmptyString proj)
         (stored_projects h) <> None))
  /\ (fst r = true ->
      stored (snd r)
      = (stored h ++ [MongoDBHandler.mk_device id name ty loc proj now None
                        "Offline"])%list)
  /\ (fst r = false -> stored (snd r) = stored h)
  /\ (List.NoDup (ids (stored h)) -> List.NoDup (ids (stored (snd r))))
  /\ serving (snd r).
Proof.
  intros Hs. cbv zeta. unfold MongoDBHandler.add_device, stored, stored_projects.
  pose proof Hs as Hs'. serving_in Hs h.
  assert (Hfresh : MongoDBHandler.find_one id (MongoDBHandler.devices d) = None ->
            List.NoDup (ids (MongoDBHandler.devices d)) ->
            List.NoDup (ids (MongoDBHandler.devices d
                             ++ [MongoDBHandler.mk_device id name ty loc proj
                                   now None "Offline"]))).
  { intros Hx Hnd. unfold ids in *. rewrite map_app. simpl.
    apply List.NoDup_app; [exact Hnd|constructor; [intros []|constructor]|].
    intros a Ha [<-|[]]. apply find_one_None in Hx. now apply Hx. }
  destruct (MongoDBHandler.find_one id (MongoDBHandler.devices d)) as [x|] eqn:Hx.
  - simpl. rewrite Hd.
    split; [split; [discriminate|intros [? _]; discriminate]|].
    split; [discriminate|]. split; [reflexivity|]. split; [auto|].
    split; [exact Hc|]. exists d. auto.
  - destruct (MongoDBHandler.opt_truthy proj) eqn:Hp; simpl.
    + destruct (MongoDBHandler.find_project _ _) as [pr|] eqn:Hpr; simpl.
      * split; [split; [intros _; split; [reflexivity|discriminate]|reflexivity]|].
        split; [reflexivity|]. split; [discriminate|]. split; [auto|].
        split; [exact Hc|]. eexists. split; reflexivity.
      * rewrite Hd.
        split; [split; [discriminate|intros [_ H]; now specialize (H eq_refl)]|].
        split; [discriminate|]. split; [reflexivity|]. split; [auto|].
        split; [exact Hc|]. exists d. auto.
    + split; [split; [intros _; split; [reflexivity|discriminate]|reflexivity]|].
      split; [reflexivity|]. split; [discriminate|]. split; [auto|].
      split; [exact Hc|]. eexists. split; reflexivity.
Qed.

(** X9. What was added can be read back and removed again: after a
    successful [add_device], [get_device] returns the new document, and
    [remove_device] succeeds and leaves the documents as they were before
    the device was added. *)
Theorem add_get_remove id name ty loc proj now h :
  serving h ->
  let r := MongoDBHandler.add_device id name ty loc proj now h in
  fst r = true ->
  fst (MongoDBHandler.get_device id (snd r))
  = Some (MongoDBHandler.mk_device id name ty loc proj now None "Offline")
  /\ fst (MongoDBHandler.remove_device id (snd r)) = true
  /\ stored (snd (MongoDBHandler.remove_device id (snd r))) = stored h.
Proof.
  intros Hs. cbv zeta. intros Hr.
  destruct (add_device_done id name ty loc proj now h Hs Hr)
    as (Hx & Hadd & Hs').
  set (h' := snd (MongoDBHandler.add_device id name ty loc proj now h)) in *.
  unfold stored at 1 in Hadd.
  destruct Hs' as (Hc' & d' & Hd' & Hup'). rewrite Hd' in Hadd.
  unfold MongoDBHandler.get_device, MongoDBHandler.remove_device,
    MongoDBHandler.is_connected.
  rewrite Hc', Hd'. simpl. rewrite Hup'. simpl. rewrite Hadd.
  split.
  - rewrite find_one_app, Hx. simpl. now rewrite String.eqb_refl.
  - rewrite (delete_one_app_fresh id (stored h)) by (exact Hx || reflexivity).
    simpl. split; reflexivity.
Qed.

(** X10. Removing a device succeeds exactly when a document has the id;
    then one document, the first with the id, is gone and the others are
    kept, and with distinct ids the device can no longer be found.  When
    no document has the id nothing changes. *)
Theorem remove_device_removes id h :
  serving h ->
  let r := MongoDBHandler.remove_device id h in
  (fst r = true <-> MongoDBHandler.find_one id (stored h) <> None)
  /\ (fst r = true ->
      S (length (stored (snd r))) = length (stored h)
      /\ (forall y, In y (stored (snd r)) -> In y (stored h))
      /\ (List.NoDup (ids (stored h)) ->
          MongoDBHandler.find_one id (stored (snd r)) = None))
  /\ (fst r = false -> stored (snd r) = stored h).
Proof.
  intros Hs. cbv zeta. unfold MongoDBHandler.remove_device, stored.
  serving_in Hs h.
  destruct (MongoDBHandler.find_one id (MongoDBHandler.devices d)) as [x|] eqn:Hx.
  - destruct (delete_one_found id _ x Hx) as (Hn & Hl & Hin & Hnd).
    destruct (MongoDBHandler.delete_one id (MongoDBHandler.devices d)) as [ds n].
    simpl in *. subst n. simpl.
    split; [split; [discriminate|reflexivity]|].
    split; [auto|discriminate].
  - rewrite (delete_one_absent id _ Hx). simpl.
    split; [split; [discriminate|congruence]|].
    split; [discriminate|reflexivity].
Qed.

Lemma delete_one_project_spec id ps :
  snd (MongoDBHandler.delete_one_project id ps)
  = match MongoDBHandler.find_project id ps with Some _ => 1 | None => 0 end
  /\ (MongoDBHandler.find_project id ps = None ->
      fst (MongoDBHandler.delete_one_project id ps) = ps).
Proof.
  unfold MongoDBHandler.find_project. induction ps as [|p ps IH]; simpl; [auto|].
  destruct (String.eqb (MongoDBHandler.p_project_id p) id); simpl; [split; [reflexivity|discriminate]|].
  destruct IH as [H1 H2].
  destruct (MongoDBHandler.delete_one_project id ps) as [r n]. simpl in *.
  split; [exact H1|]. intros H. now rewrite (H2 H).
Qed.

(** X11. Removing a project succeeds exactly when the project exists;
    then no device refers to it any more: the devices that did are kept,
    with no project, and every other device is as it was.  When the
    project does not exist the devices are as they were. *)
Theorem remove_project_detaches id h :
  serving h ->
  let r := MongoDBHandler.remove_project id h in
  (fst r = true <-> MongoDBHandler.find_project id (stored_projects h) <> None)
  /\ (fst r = true ->
      stored (snd r)
      = map (fun x => if MongoDBHandler.opt_string_eqb
                           (MongoDBHandler.project_id x) (Some id)
                      then MongoDBHandler.set_project_id None x else x)
          (stored h)
      /\ ids (stored (snd r)) = ids (stored h)
      /\ forall x, In x (stored (snd r)) ->
                   MongoDBHandler.project_id x <> Some id)
  /\ (fst r = false -> stored (snd r) = stored h).
Proof.
  intros Hs. cbv zeta.
  unfold MongoDBHandler.remove_project, stored, stored_projects.
  serving_in Hs h.
  destruct (delete_one_project_spec id (MongoDBHandler.projects d)) as [Hn Hsame].
  destruct (MongoDBHandler.delete_one_project id (MongoDBHandler.projects d))
    as [ps n]. simpl in Hn, Hsame. subst n.
  destruct (MongoDBHandler.find_project id (MongoDBHandler.projects d)) as [p|];
    simpl.
  - split; [split; [discriminate|reflexivity]|]. split; [|discriminate].
    intros _. split; [reflexivity|]. split.
    + unfold ids, MongoDBHandler.detach_devices. rewrite map_map.
      apply map_ext. intros x. now destruct (MongoDBHandler.opt_string_eqb _ _).
    + intros x Hin. unfold MongoDBHandler.detach_devices in Hin.
      apply in_map_iff in Hin as (y & <- & _).
      destruct (MongoDBHandler.opt_string_eqb (MongoDBHandler.project_id y)
                  (Some id)) eqn:E; simpl; [discriminate|].
      intros Heq. rewrite Heq in E. simpl in E.
      now rewrite String.eqb_refl in E.
  - split; [split; [discriminate|congruence]|].
    split; [discriminate|reflexivity].
Qed.

(** X12. Setting the status of a device.  The call reports success only
    when it changed a document: for a device that already has the
    status it returns [False], as it does for a device that does not
    exist.  In both cases with a document, the first document with the id
    has the status afterwards. *)
Theorem update_device_status_reports_change id st h :
  serving h ->
  let r := MongoDBHandler.update_device_status id st h in
  (fst r = true <->
   exists x, MongoDBHandler.find_one id (stored h) = Some x
             /\ MongoDBHandler.status x <> st)
  /\ (forall x, MongoDBHandler.find_one id (stored h) = Some x ->
                MongoDBHandler.find_one id (stored (snd r))
                = Some (MongoDBHandler.set_status st x))
  /\ (MongoDBHandler.find_one id (stored h) = None ->
      stored (snd r) = stored h).
Proof.
  intros Hs. cbv zeta. unfold MongoDBHandler.update_device_status, stored.
  serving_in Hs h.
  assert (Hcount : snd (MongoDBHandler.update_one id (MongoDBHandler.set_status st)
                          (fun x => negb (String.eqb (MongoDBHandler.status x) st))
                          (MongoDBHandler.devices d))
                   = match MongoDBHandler.find_one id (MongoDBHandler.devices d) with
                     | Some x => if String.eqb (MongoDBHandler.status x) st
                                 then 0 else 1
                     | None => 0
                     end).
  { unfold MongoDBHandler.find_one.
    induction (MongoDBHandler.devices d) as [|y ys IH]; simpl; [reflexivity|].
    destruct (String.eqb (MongoDBHandler.device_id y) id); simpl.
    - now destruct (String.eqb (MongoDBHandler.status y) st).
    - destruct (MongoDBHandler.update_one id _ _ ys) as [r n]. exact IH. }
  pose proof (update_one_found id (MongoDBHandler.set_status st)
                (fun x => negb (String.eqb (MongoDBHandler.status x) st))
                (MongoDBHandler.devices d)) as Hfound.
  pose proof (update_one_absent id (MongoDBHandler.set_status st)
                (fun x => negb (String.eqb (MongoDBHandler.status x) st))
                (MongoDBHandler.devices d)) as Habsent.
  destruct (MongoDBHandler.update_one id _ _ (MongoDBHandler.devices d))
    as [ds n]. simpl in Hcount, Hfound. subst n.
  destruct (MongoDBHandler.find_one id (MongoDBHandler.devices d)) as [x|] eqn:Hx.
  - destruct (String.eqb (MongoDBHandler.status x) st) eqn:Est; simpl.
    + apply String.eqb_eq in Est.
      split; [split; [discriminate|intros (y & [= <-] & Hne); congruence]|].
      split; [|discriminate]. intros y [= <-]. now apply Hfound.
    + apply String.eqb_neq in Est.
      split; [split; [intros _; eauto|reflexivity]|].
      split; [|discriminate]. intros y [= <-]. now apply Hfound.
  - specialize (Habsent eq_refl). injection Habsent as ->. simpl.
    split; [split; [discriminate|intros (y & Hy & _); discriminate]|].
    split; [discriminate|reflexivity].
Qed.

(** X13. A handler that is not connected refuses every operation on
    devices and projects: the result is [False], [None] or the empty
    list, and the handler is as it was but for one more line of log. *)
Theorem registry_disconnected h id name ty loc proj now st t owner descr :
  MongoDBHandler.is_connected h = false ->
  let gone := MongoDBHandler.emit MongoDBHandler.not_connected h in
  MongoDBHandler.add_device id name ty loc proj now h = (false, gone)
  /\ MongoDBHandler.get_devices h = ([], gone)
  /\ MongoDBHandler.get_device id h = (None, gone)
  /\ MongoDBHandler.update_device_last_seen id t h = (false, gone)
  /\ MongoDBHandler.update_device_status id st h = (false, gone)
  /\ MongoDBHandler.remove_device id h = (false, gone)
  /\ MongoDBHandler.create_project id name owner descr now h = (false, gone)
  /\ MongoDBHandler.get_project id h = (None, gone)
  /\ MongoDBHandler.remove_project id h = (false, gone)
  /\ MongoDBHandler.db gone = MongoDBHandler.db h.
Proof.
  intros Hc. cbv zeta.
  unfold MongoDBHandler.add_device, MongoDBHandler.get_devices,
    MongoDBHandler.get_device, MongoDBHandler.update_device_last_seen,
    MongoDBHandler.update_device_status, MongoDBHandler.remove_device,
    MongoDBHandler.create_project, MongoDBHandler.get_project,
    MongoDBHandler.remove_project.
  rewrite Hc. simpl. repeat split.
Qed.

(** ** More on the processor *)

Lemma update_one_frame id f ch ds :
  (forall y, MongoDBHandler.device_id (f y) = MongoDBHandler.device_id y) ->
  ids (fst (MongoDBHandler.update_one id f ch ds)) = ids ds
  /\ forall id', id' <> id ->
       MongoDBHandler.find_one id' (fst (MongoDBHandler.update_one id f ch ds))
       = MongoDBHandler.find_one id' ds.
Proof.
  intros Hf. unfold ids, MongoDBHandler.find_one.
  induction ds as [|d ds [IH1 IH2]]; simpl; [auto|].
  destruct (String.eqb (MongoDBHandler.device_id d) id) eqn:E; simpl.
  - split; [now rewrite Hf|]. intros id' Hne. simpl. rewrite Hf.
    apply String.eqb_eq in E.
    destruct (String.eqb (MongoDBHandler.device_id d) id') eqn:E';
      [|reflexivity].
    apply String.eqb_eq in E'. congruence.
  - destruct (MongoDBHandler.update_one id f ch ds) as [r n]. simpl in *.
    split; [now rewrite IH1|]. intros id' Hne.
    destruct (String.eqb (MongoDBHandler.device_id d) id'); auto.
Qed.

(** The documents after the first block of the processor. *)
Lemma touch_registry_devices dev now w ds :
  registry_up w ds ->
  registry (DataProcessor.touch_registry dev now w)
  = match MongoDBHandler.find_one dev ds with
    | Some _ =>
        fst (MongoDBHandler.update_one dev (MongoDBHandler.set_last_seen now)
               (fun x => negb (MongoDBHandler.opt_Z_eqb
                                 (MongoDBHandler.last_seen x) (Some now)))
               (fst (MongoDBHandler.update_one dev
                       (MongoDBHandler.set_status "Online")
                       (fun x => negb (String.eqb (MongoDBHandler.status x)
                                         "Online")) ds)))
    | None => ds
    end.
Proof.
  intros (m & d & Hm & Hc & Hd & Hup & <-).
  unfold DataProcessor.touch_registry. rewrite Hm.
  unfold MongoDBHandler.is_connected. rewrite Hc, Hd. simpl.
  unfold MongoDBHandler.get_device, MongoDBHandler.is_connected.
  rewrite Hc, Hd, Hup. simpl.
  destruct (MongoDBHandler.find_one dev (MongoDBHandler.devices d)) as [x|] eqn:Hx.
  - unfold MongoDBHandler.update_device_status, MongoDBHandler.is_connected.
    rewrite Hc, Hd, Hup. simpl.
    destruct (MongoDBHandler.update_one dev (MongoDBHandler.set_status "Online")
                _ (MongoDBHandler.devices d)) as [ds1 n1].
    destruct (Nat.ltb 0 n1); simpl;
      unfold MongoDBHandler.update_device_last_seen, MongoDBHandler.is_connected;
      simpl; rewrite ?Hc, ?Hup; simpl;
      destruct (MongoDBHandler.update_one dev (MongoDBHandler.set_last_seen now)
                  _ ds1) as [ds2 n2]; simpl;
      destruct (Nat.ltb 0 n2); reflexivity.
  - unfold registry. simpl. now rewrite Hd.
Qed.

(** X14. The processor only touches the documents of the device that
    sent the message: no document is added or removed, and the documents
    of every other device are found as they were. *)
Theorem ingest_frame fromisoformat dev m payload now utcnow w ds :
  registry_up w ds ->
  let r := DataProcessor.process_mqtt_message fromisoformat dev m payload
             now utcnow w in
  ids (registry (snd r)) = ids ds
  /\ forall id', id' <> dev ->
       MongoDBHandler.find_one id' (registry (snd r))
       = MongoDBHandler.find_one id' ds.
Proof.
  intros Hup. cbv zeta.
  destruct (process_cases fromisoformat dev m payload now utcnow w) as [Hm _].
  cbv zeta in Hm. set (w0 := DataProcessor.emit _ w) in Hm.
  assert (Hup0 : registry_up w0 ds) by exact Hup.
  pose proof (touch_registry_devices dev now w0 ds Hup0) as H.
  unfold registry in *. rewrite Hm, H.
  destruct (MongoDBHandler.find_one dev ds); [|auto].
  set (c1 := fun x => negb (String.eqb (MongoDBHandler.status x) "Online")).
  set (c2 := fun x => negb (MongoDBHandler.opt_Z_eqb (MongoDBHandler.last_seen x)
                              (Some now))).
  destruct (update_one_frame dev (MongoDBHandler.set_status "Online") c1 ds
              (fun _ => eq_refl)) as [H1 H2].
  destruct (update_one_frame dev (MongoDBHandler.set_last_seen now) c2
              (fst (MongoDBHandler.update_one dev
                      (MongoDBHandler.set_status "Online") c1 ds))
              (fun _ => eq_refl)) as [H3 H4].
  split; [congruence|]. intros id' Hne. rewrite H4, H2; auto.
Qed.

(** X15. A batch is handed to the storage handler in one call, when the
    handler reports connected, and the result is the handler's; when it
    is absent or not connected no call is made.  The registry and the
    single writes are not touched. *)
Theorem batch_in_one_call batch w :
  let r := DataProcessor.process_data_batch batch w in
  (fst r = true <->
   exists a, DataProcessor.influx_handler w = Some a
             /\ DataProcessor.connected a = true
             /\ DataProcessor.write_data_points a batch = Ok true)
  /\ (forall a, DataProcessor.influx_handler w = Some a ->
                DataProcessor.connected a = true ->
                DataProcessor.batches (snd r)
                = (DataProcessor.batches w
                   ++ [(batch, DataProcessor.write_data_points a batch)])%list)
  /\ ((forall a, DataProcessor.influx_handler w = Some a ->
                 DataProcessor.connected a = false) ->
      fst r = false /\ DataProcessor.batches (snd r) = DataProcessor.batches w)
  /\ DataProcessor.mongo_handler (snd r) = DataProcessor.mongo_handler w
  /\ DataProcessor.writes (snd r) = DataProcessor.writes w.
Proof.
  cbv zeta. unfold DataProcessor.process_data_batch.
  destruct (DataProcessor.influx_handler w) as [a|]; simpl.
  - destruct (DataProcessor.connected a) eqn:Hc; simpl.
    + destruct (DataProcessor.write_data_points a batch) as [[|]|e] eqn:Hw;
        simpl.
      * split; [split; [eauto|reflexivity]|].
        split; [intros a' [= <-] _; now rewrite Hw|].
        split; [intros Hd; specialize (Hd a eq_refl); congruence|auto].
      * split; [split; [discriminate|intros (a' & [= <-] & _ & H); congruence]|].
        split; [intros a' [= <-] _; now rewrite Hw|].
        split; [intros Hd; specialize (Hd a eq_refl); congruence|auto].
      * split; [split; [discriminate|intros (a' & [= <-] & _ & H); congruence]|].
        split; [intros a' [= <-] _; now rewrite Hw|].
        split; [intros Hd; specialize (Hd a eq_refl); congruence|auto].
    + split; [split; [discriminate|intros (a' & [= <-] & H & _); congruence]|].
      split; [intros a' [= <-] H; congruence|auto].
  - split; [split; [discriminate|intros (a' & H & _); discriminate]|].
    split; [intros a' H; discriminate|auto].
Qed.

(** X16. With the handler of [influx_handler.py] as its storage handler
    the processor stores nothing: the handler has no [write_data_point]
    and no [write_data_points], the call fails and the processor returns
    [False], for single messages and for batches. *)
Theorem repository_handler_stores_nothing fromisoformat dev m payload now
  utcnow batch w h :
  DataProcessor.influx_handler w = Some (DataProcessor.of_influx h) ->
  fst (DataProcessor.process_mqtt_message fromisoformat dev m payload now
         utcnow w) = false
  /\ fst (DataProcessor.process_data_batch batch w) = false
  /\ forall p o,
       In (p, o) (DataProcessor.writes
                    (snd (DataProcessor.process_mqtt_message fromisoformat dev
                            m payload now utcnow w))) ->
       In (p, o) (DataProcessor.writes w) \/ o = Raise AttributeError.
Proof.
  intros Ha. split; [|split].
  - destruct (process_cases fromisoformat dev m payload now utcnow w)
      as [_ [(a & d & Ha' & _ & _ & Hr & _)|(_ & Hr & _)]]; [|exact Hr].
    rewrite Ha in Ha'. injection Ha' as <-. exact Hr.
  - unfold DataProcessor.process_data_batch. rewrite Ha. simpl.
    destruct (InfluxDBHandler.is_connected h); reflexivity.
  - intros p o Hin.
    destruct (process_cases fromisoformat dev m payload now utcnow w)
      as [_ [(a & d & Ha' & _ & _ & _ & Hw)|(_ & _ & Hw)]].
    + rewrite Ha in Ha'. injection Ha' as <-. rewrite Hw in Hin.
      apply in_app_or in Hin as [Hin|[[= <- <-]|[]]]; auto.
    + rewrite Hw in Hin. now left.
Qed.

(** ** More on the time-series store *)

Lemma get_set_bucket b rows bs :
  InfluxDBHandler.get_bucket b bs <> None ->
  InfluxDBHandler.get_bucket b (InfluxDBHandler.set_bucket b rows bs) = Some rows.
Proof.
  induction bs as [|[b' rows'] bs IH]; simpl; [congruence|].
  destruct (String.eqb b' b) eqn:E; simpl; rewrite E; auto.
Qed.

Lemma get_set_bucket_other b b' rows bs :
  b' <> b ->
  InfluxDBHandler.get_bucket b' (InfluxDBHandler.set_bucket b rows bs)
  = InfluxDBHandler.get_bucket b' bs.
Proof.
  intros Hne. induction bs as [|[b0 rows0] bs IH]; simpl; [reflexivity|].
  destruct (String.eqb b0 b) eqn:E; simpl.
  - apply String.eqb_eq in E. subst b0.
    destruct (String.eqb b b') eqn:E'; [|reflexivity].
    apply String.eqb_eq in E'. congruence.
  - destruct (String.eqb b0 b'); auto.
Qed.

Lemma id_char_plain c :
  id_char c = true -> InfluxDBHandler.plain_char c = true.
Proof.
  destruct c as [[] [] [] [] [] [] [] []]; intros H;
    solve [reflexivity | discriminate H].
Qed.

Lemma simple_id_plain s : simple_id s = true -> InfluxDBHandler.plain s = true.
Proof.
  unfold simple_id. intros H. apply andb_prop in H as [_ H].
  induction s as [|c s IH]; [reflexivity|].
  simpl in H. apply andb_prop in H as [Hc Hs].
  simpl. rewrite (id_char_plain c Hc). simpl. now apply IH.
Qed.

(** What [write_data] has done when it returns [True]: the handler is
    connected, the data are a dictionary, the server has taken fields of
    the point and holds a row for each. *)
Lemma write_data_true dev meas data srv t h :
  let r := InfluxDBHandler.write_data dev meas data srv t h in
  fst (fst r) = true ->
  exists items rows taken,
    data = PDict items
    /\ InfluxDBHandler.is_connected h = true
    /\ InfluxDBHandler.reachable srv = true
    /\ InfluxDBHandler.get_bucket (InfluxDBHandler.bucket h)
         (InfluxDBHandler.buckets srv) = Some rows
    /\ InfluxDBHandler.ingest srv (InfluxDBHandler.buckets srv)
         (InfluxDBHandler.bucket h)
         (InfluxDBHandler.mk_point meas [("device_id", dev)]
            (InfluxDBHandler.fields_of items))
       = InfluxDBHandler.Taken taken
    /\ rows_in (snd (fst r)) (InfluxDBHandler.bucket h)
       = (rows ++ InfluxDBHandler.rows_of t
                    (InfluxDBHandler.mk_point meas [("device_id", dev)]
                       (InfluxDBHandler.fields_of items)) taken)%list
    /\ InfluxDBHandler.reachable (snd (fst r)) = true
    /\ InfluxDBHandler.is_connected (snd r) = true
    /\ InfluxDBHandler.bucket (snd r) = InfluxDBHandler.bucket h.
Proof.
  cbv zeta. unfold InfluxDBHandler.write_data.
  destruct (InfluxDBHandler.is_connected h) eqn:Hc; simpl; [|discriminate].
  destruct data as [| | | | | |items]; simpl; try discriminate.
  destruct (InfluxDBHandler.reachable srv) eqn:Hr; simpl; [|discriminate].
  destruct (InfluxDBHandler.get_bucket _ _) as [rows|] eqn:Hrows; simpl;
    [|discriminate].
  destruct (InfluxDBHandler.ingest srv _ _ _) as [e|taken] eqn:Hin; simpl;
    [discriminate|].
  intros _. exists items, rows, taken. unfold rows_in. simpl.
  rewrite get_set_bucket by congruence. simpl.
  repeat split; auto.
Qed.

(** X17. A device that has just reported is online.  [write_data] on a
    connected handler, for a dictionary of data, hands the client one
    point: the measurement, the device as tag [device_id], and a field
    for each entry.  When the server takes at least one field of it, at
    its time [t], [write_data] returns [True] and the status of the
    device is [Online] at every time of the five minutes that follow;
    when the point is refused, [write_data] returns [False] and the
    server is as it was.  The bucket name does not break the text of the
    query and the device id is one that is written and read as it is. *)
Theorem written_device_is_online dev meas items srv t now h :
  InfluxDBHandler.is_connected h = true ->
  InfluxDBHandler.reachable srv = true ->
  InfluxDBHandler.get_bucket (InfluxDBHandler.bucket h)
    (InfluxDBHandler.buckets srv) <> None ->
  InfluxDBHandler.plain (InfluxDBHandler.bucket h) = true ->
  simple_id dev = true ->
  (t < now <= t + 300 * 1000000000)%Z ->
  let p := InfluxDBHandler.mk_point meas [("device_id", dev)]
             (InfluxDBHandler.fields_of items) in
  let r := InfluxDBHandler.write_data dev meas (PDict items) srv t h in
  (forall f taken,
     InfluxDBHandler.ingest srv (InfluxDBHandler.buckets srv)
         (InfluxDBHandler.bucket h) p
     = InfluxDBHandler.Taken (f :: taken) ->
     fst (fst r) = true
     /\ fst (InfluxDBHandler._get_device_status dev (snd (fst r)) now (snd r))
        = "Online")
  /\ (forall e,
        InfluxDBHandler.ingest srv (InfluxDBHandler.buckets srv)
         (InfluxDBHandler.bucket h) p
        = InfluxDBHandler.Refused e ->
        fst (fst r) = false /\ snd (fst r) = srv).
Proof.
  intros Hc Hr Hb Hpb Hid Ht. cbv zeta. split.
  - intros f taken Hin.
    assert (Hok : fst (fst (InfluxDBHandler.write_data dev meas (PDict items)
                              srv t h)) = true).
    { unfold InfluxDBHandler.write_data. rewrite Hc, Hr. simpl.
      destruct (InfluxDBHandler.get_bucket _ _); [|congruence].
      now rewrite Hin. }
    split; [exact Hok|].
    destruct (write_data_true dev meas (PDict items) srv t h Hok)
      as (items' & rows & taken' & Hitems & _ & _ & Hrows & Hin' & Hrows'
          & Hr' & Hc' & Hb').
    injection Hitems as <-. rewrite Hin in Hin'. injection Hin' as <-.
    cbv zeta in Hrows', Hr', Hc', Hb'.
    set (r := InfluxDBHandler.write_data dev meas (PDict items) srv t h) in *.
    destruct (status_answered dev (snd (fst r)) now (snd r))
      as [[_ Hon] _]; try assumption; try congruence.
    { now apply simple_id_plain. }
    apply Hon. rewrite Hb'.
    exists (InfluxDBHandler.mk_row t meas [("device_id", dev)] (fst f) (snd f)).
    split; [|split; [reflexivity|simpl; lia]].
    rewrite Hrows'. apply in_or_app. right. now left.
  - intros e Hin. unfold InfluxDBHandler.write_data. rewrite Hc, Hr. simpl.
    destruct (InfluxDBHandler.get_bucket _ _); [|congruence].
    rewrite Hin. auto.
Qed.

Lemma filter_rows_of_other now t dev dev2 meas fields taken :
  dev <> dev2 ->
  List.filter (fun r => InfluxDBHandler.in_range now r
                        && InfluxDBHandler.of_device dev2 r)
    (InfluxDBHandler.rows_of t
       (InfluxDBHandler.mk_point meas [("device_id", dev)] fields) taken) = [].
Proof.
  intros Hne. unfold InfluxDBHandler.rows_of.
  induction taken as [|kv taken IH]; simpl; [reflexivity|].
  unfold InfluxDBHandler.of_device at 1. simpl.
  destruct (String.eqb dev dev2) eqn:E.
  - apply String.eqb_eq in E. congruence.
  - rewrite andb_false_r. exact IH.
Qed.

(** X18. Writing for one device does not change the status of another:
    whatever [write_data] does for [dev], and whatever the server makes
    of the point, the status of a different device, asked at the same
    time, is what it was.  The bucket name does not break the text of
    the query and the device ids are ones that are written and read as
    they are. *)
Theorem write_keeps_other_status dev dev2 meas data srv t now h :
  InfluxDBHandler.plain (InfluxDBHandler.bucket h) = true ->
  simple_id dev = true ->
  simple_id dev2 = true ->
  dev <> dev2 ->
  let r := InfluxDBHandler.write_data dev meas data srv t h in
  fst (InfluxDBHandler._get_device_status dev2 (snd (fst r)) now (snd r))
  = fst (InfluxDBHandler._get_device_status dev2 srv now h).
Proof.
  intros Hpb _ Hid2 Hne. cbv zeta.
  pose proof (simple_id_plain dev2 Hid2) as Hp2.
  unfold InfluxDBHandler.write_data.
  destruct (InfluxDBHandler.is_connected h) eqn:Hc; simpl.
  2: { unfold InfluxDBHandler._get_device_status, InfluxDBHandler.is_connected in *.
       simpl. now rewrite Hc. }
  assert (Hlog : forall srv' l,
            fst (InfluxDBHandler._get_device_status dev2 srv' now
                   (InfluxDBHandler.emit l h))
            = fst (InfluxDBHandler._get_device_status dev2 srv' now h)).
  { intros srv' l.
    unfold InfluxDBHandler._get_device_status, InfluxDBHandler.is_connected in *.
    simpl. rewrite Hc. simpl.
    destruct (InfluxDBHandler.query_status srv' now _ dev2) as [res|e];
      [|reflexivity].
    now destruct (InfluxDBHandler.any_positive res). }
  destruct (py_items data) as [items|e]; simpl; [|apply Hlog].
  destruct (InfluxDBHandler.reachable srv) eqn:Hr; simpl; [|apply Hlog].
  destruct (InfluxDBHandler.get_bucket _ _) as [rows|] eqn:Hrows; simpl;
    [|apply Hlog].
  destruct (InfluxDBHandler.ingest srv _ _ _) as [e|taken]; simpl; [apply Hlog|].
  rewrite Hlog.
  unfold InfluxDBHandler._get_device_status. rewrite Hc. simpl.
  unfold InfluxDBHandler.query_status. simpl. rewrite Hr, Hpb, Hp2. simpl.
  rewrite get_set_bucket by congruence. rewrite Hrows.
  rewrite List.filter_app, (filter_rows_of_other now t dev dev2) by exact Hne.
  now rewrite app_nil_r.
Qed.

(** ** Topics *)

(** X19. The two readers of topics.  For a topic
    [devices/<id>/data/<ch>] the handler takes the device from the second
    segment and the measurement from the fourth, while [parse_mqtt_topic]
    reports the same device, four levels, and as channel the third
    segment, [data]. *)
Theorem topic_readers_agree_on_device id ch :
  has_char "/" id = false ->
  has_char "/" ch = false ->
  let topic := "devices/" +:+ id +:+ "/data/" +:+ ch in
  MQTTHandler.parse topic = Some (id, ch)
  /\ Utils.parse_mqtt_topic topic
     = [("full_topic", PStr topic); ("levels", PInt 4);
        ("type", PStr "device"); ("device_id", PStr id);
        ("channel", PStr "data")].
Proof.
  intros Hid Hch. cbv zeta. split.
  - now apply parse_device_topic.
  - unfold Utils.parse_mqtt_topic.
    change ("devices/" +:+ id +:+ "/data/" +:+ ch)
      with ("devices" +:+ String "/" (id +:+ String "/" ("data" +:+ String "/" ch))).
    rewrite (split_app_sep "/" "devices") by reflexivity.
    rewrite (split_app_sep "/" id) by exact Hid.
    rewrite (split_app_sep "/" "data") by reflexivity.
    rewrite (split_plain "/" ch) by exact Hch.
    reflexivity.
Qed.

(** ** The further properties on sample data *)

Lemma reachable_run {cb : Type} `{EqDecision cb} {W : Type}
  (invoke : cb -> string -> string -> pyval -> W -> res pyval * W)
  (json_dumps : pyval -> string) es : forall s,
  MQTTHandler.reachable invoke json_dumps s ->
  MQTTHandler.reachable invoke json_dumps (MQTTHandler.run invoke json_dumps es s).
Proof.
  induction es as [|e es IH]; intros s Hs; [exact Hs|].
  apply (IH (MQTTHandler.step invoke json_dumps e s)).
  now apply MQTTHandler.reachable_step.
Defined.

Lemma sample_exhausted_reachable :
  MQTTHandler.reachable Sample.invoke Sample.json_dumps Sample.exhausted.
Proof. apply reachable_run, MQTTHandler.reachable_init. Defined.

Lemma sample_serving ds : serving (Sample.mongo ds).
Proof.
  split; [reflexivity|].
  exists (MongoDBHandler.mk_db ds [] true). split; reflexivity.
Defined.

Lemma callbacks_registered_once_witness :
  let h := fst Sample.retrying in
  List.NoDup (MQTTHandler.callbacks h)
  /\ In 7 (MQTTHandler.callbacks (MQTTHandler.register_callback 7 h))
  /\ List.NoDup (MQTTHandler.callbacks (MQTTHandler.register_callback 7 h))
  /\ MQTTHandler.register_callback 7 (MQTTHandler.register_callback 7 h)
     = MQTTHandler.register_callback 7 h.
Proof.
  exact (callbacks_registered_once Sample.invoke Sample.json_dumps
           Sample.retrying 7 sample_reachable).
Defined.

Lemma failed_retry_starts_no_timer_witness :
  let h := fst Sample.retrying in
  let h' := fst (MQTTHandler.step Sample.invoke Sample.json_dumps
                   (MQTTHandler.TimerFires 0 false) Sample.retrying) in
  (forall j, MQTTHandler.alive (MQTTHandler.timers h') j = false)
  /\ length (MQTTHandler.timers h') = length (MQTTHandler.timers h)
  /\ MQTTHandler.connected h' = MQTTHandler.connected h
  /\ MQTTHandler.retry_count h'
     = (if Nat.ltb (MQTTHandler.retry_count h) (MQTTHandler.max_retries h)
        then S (MQTTHandler.retry_count h) else MQTTHandler.retry_count h).
Proof.
  exact (failed_retry_starts_no_timer Sample.invoke Sample.json_dumps
           Sample.retrying 0 sample_reachable eq_refl).
Defined.

Lemma close_cancels_retry_witness :
  let h := fst Sample.retrying in
  (forall i, ~ MQTTHandler.pending (MQTTHandler.close h) i)
  /\ (forall i ok, MQTTHandler.timer_fires i ok (MQTTHandler.close h)
                   = MQTTHandler.close h)
  /\ MQTTHandler.client (MQTTHandler.close h)
     = (MQTTHandler.client h ++ [MQTTHandler.LoopStop; MQTTHandler.Disconnect])%list
  /\ length (MQTTHandler.timers (MQTTHandler.close h))
     = length (MQTTHandler.timers h).
Proof.
  exact (close_cancels_retry Sample.invoke Sample.json_dumps Sample.retrying
           sample_reachable).
Defined.

Lemma retries_exhausted_witness :
  let h' := fst (MQTTHandler.step Sample.invoke Sample.json_dumps
                   (MQTTHandler.OnDisconnect 1) Sample.exhausted) in
  length (MQTTHandler.timers h') = length (MQTTHandler.timers (fst Sample.exhausted))
  /\ MQTTHandler.retry_count h' = MQTTHandler.retry_count (fst Sample.exhausted)
  /\ MQTTHandler.retry_count h' = 12.
Proof.
  exact (retries_exhausted Sample.invoke Sample.json_dumps Sample.exhausted
           (MQTTHandler.OnDisconnect 1) sample_exhausted_reachable
           eq_refl eq_refl).
Defined.

Lemma undecodable_payload_dropped_witness :
  snd (MQTTHandler._on_message Sample.invoke "devices/temp-1/data/sensors"
         Sample.not_utf8 (MQTTHandler.register_callback 0 Sample.online)
         (Sample.world Sample.storage_ok [Sample.temp1]))
  = Sample.world Sample.storage_ok [Sample.temp1].
Proof.
  rewrite (undecodable_payload_dropped Sample.invoke
             "devices/temp-1/data/sensors" Sample.not_utf8
             (MQTTHandler.register_callback 0 Sample.online)
             (Sample.world Sample.storage_ok [Sample.temp1])).
  - reflexivity.
  - simpl. lia.
  - reflexivity.
Defined.

Lemma message_reaches_every_callback_witness :
  DataProcessor.writes
    (snd (MQTTHandler._on_message Sample.invoke "devices/temp-1/data/sensors"
            Sample.raw_reading (MQTTHandler.register_callback 0 Sample.online)
            (Sample.world Sample.storage_ok [Sample.temp1])))
  = [(DataProcessor.mk_point "sensors" [("device_id", "temp-1")]
        1714564800000000 [("value", PFloat (FDec 223 (-1)))], Ok true)].
Proof.
  rewrite (message_reaches_every_callback Sample.invoke
             "devices/temp-1/data/sensors" Sample.raw_reading
             (MQTTHandler.register_callback 0 Sample.online)
             (Sample.world Sample.storage_ok [Sample.temp1])
             "temp-1" "sensors" Sample.reading).
  - reflexivity.
  - reflexivity.
  - split; simpl; lia.
  - reflexivity.
  - intros c w0 _. reflexivity.
Defined.

Lemma numeric_payload_is_number_witness :
  MQTTHandler.decode "42" = Ok (PInt (Json.digits_val 0 "42")).
Proof.
  apply (numeric_payload_is_number "4" "2" eq_refl eq_refl). simpl. lia.
Defined.

Lemma add_device_registers_witness :
  let r := MongoDBHandler.add_device "temp-2" "Hygrometer" None None None
             "2024-05-01 12:00:00" (Sample.mongo [Sample.temp1]) in
  fst r = true
  /\ stored (snd r)
     = [Sample.temp1;
        MongoDBHandler.mk_device "temp-2" "Hygrometer" None None None
          "2024-05-01 12:00:00" None "Offline"].
Proof.
  split; [reflexivity|].
  apply (proj1 (proj2 (add_device_registers "temp-2" "Hygrometer" None None
                         None "2024-05-01 12:00:00"
                         (Sample.mongo [Sample.temp1]) (sample_serving _)))).
  reflexivity.
Defined.

Lemma add_get_remove_witness :
  let r := MongoDBHandler.add_device "temp-2" "Hygrometer" None None None
             "2024-05-01 12:00:00" (Sample.mongo [Sample.temp1]) in
  fst (MongoDBHandler.get_device "temp-2" (snd r))
  = Some (MongoDBHandler.mk_device "temp-2" "Hygrometer" None None None
            "2024-05-01 12:00:00" None "Offline")
  /\ fst (MongoDBHandler.remove_device "temp-2" (snd r)) = true
  /\ stored (snd (MongoDBHandler.remove_device "temp-2" (snd r)))
     = stored (Sample.mongo [Sample.temp1]).
Proof.
  exact (add_get_remove "temp-2" "Hygrometer" None None None
           "2024-05-01 12:00:00" (Sample.mongo [Sample.temp1])
           (sample_serving _) eq_refl).
Defined.

Lemma remove_device_removes_witness :
  let r := MongoDBHandler.remove_device "temp-2" Sample.mongo_home in
  fst r = true
  /\ S (length (stored (snd r))) = 2
  /\ stored (snd (MongoDBHandler.remove_device "temp-9" Sample.mongo_home))
     = stored Sample.mongo_home.
Proof.
  assert (Hs : serving Sample.mongo_home).
  { split; [reflexivity|]. eexists. split; reflexivity. }
  destruct (remove_device_removes "temp-2" Sample.mongo_home Hs)
    as (Hiff & Hok & _).
  assert (Ht : fst (MongoDBHandler.remove_device "temp-2" Sample.mongo_home)
               = true) by (apply Hiff; discriminate).
  split; [exact Ht|]. split; [exact (proj1 (Hok Ht))|].
  apply (proj2 (proj2 (remove_device_removes "temp-9" Sample.mongo_home Hs))).
  reflexivity.
Defined.

Lemma remove_project_detaches_witness :
  let r := MongoDBHandler.remove_project "home" Sample.mongo_home in
  fst r = true
  /\ stored (snd r)
     = [Sample.temp1; MongoDBHandler.set_project_id None Sample.temp2].
Proof.
  assert (Hs : serving Sample.mongo_home).
  { split; [reflexivity|]. eexists. split; reflexivity. }
  destruct (remove_project_detaches "home" Sample.mongo_home Hs)
    as (Hiff & Hok & _).
  assert (Ht : fst (MongoDBHandler.remove_project "home" Sample.mongo_home)
               = true) by (apply Hiff; discriminate).
  split; [exact Ht|]. exact (proj1 (Hok Ht)).
Defined.

Lemma update_device_status_reports_change_witness :
  fst (MongoDBHandler.update_device_status "temp-1" "Offline"
         (Sample.mongo [Sample.temp1])) <> true.
Proof.
  intros H.
  apply (proj1 (proj1 (update_device_status_reports_change "temp-1" "Offline"
                         (Sample.mongo [Sample.temp1]) (sample_serving _))))
    in H.
  destruct H as (x & Hx & Hne). injection Hx as <-. now apply Hne.
Defined.

Lemma registry_disconnected_witness :
  MongoDBHandler.get_device "temp-1" (MongoDBHandler.mk false None [])
  = (None, MongoDBHandler.emit MongoDBHandler.not_connected
             (MongoDBHandler.mk false None [])).
Proof.
  exact (proj1 (proj2 (proj2
           (registry_disconnected (MongoDBHandler.mk false None []) "temp-1"
              "n" None None None "now" "Online" 0%Z "owner" None eq_refl)))).
Defined.

Lemma ingest_frame_witness :
  let r := DataProcessor.process_mqtt_message Sample.fromisoformat "temp-1"
             "sensors" Sample.reading 7 9
             (Sample.world Sample.storage_ok [Sample.temp1; Sample.temp2]) in
  ids (registry (snd r)) = ["temp-1"; "temp-2"]
  /\ MongoDBHandler.find_one "temp-2" (registry (snd r)) = Some Sample.temp2.
Proof.
  destruct (ingest_frame Sample.fromisoformat "temp-1" "sensors" Sample.reading
              7 9 (Sample.world Sample.storage_ok [Sample.temp1; Sample.temp2])
              [Sample.temp1; Sample.temp2] (sample_registry_up _ _))
    as [Hids Hother].
  split; [exact Hids|]. apply Hother. discriminate.
Defined.

Lemma batch_in_one_call_witness :
  fst (DataProcessor.process_data_batch [Sample.reading]
         (Sample.world Sample.storage_ok [])) = true
  /\ fst (DataProcessor.process_data_batch [Sample.reading]
            (Sample.world Sample.storage_down [])) = false.
Proof.
  split.
  - apply (proj1 (batch_in_one_call [Sample.reading]
                    (Sample.world Sample.storage_ok []))).
    exists Sample.storage_ok. repeat split; reflexivity.
  - apply (proj1 (proj2 (proj2 (batch_in_one_call [Sample.reading]
                                  (Sample.world Sample.storage_down []))))).
    intros a Ha. injection Ha as <-. reflexivity.
Defined.

Lemma repository_handler_stores_nothing_witness :
  fst (DataProcessor.process_mqtt_message Sample.fromisoformat "temp-1"
         "sensors" Sample.reading 7 9
         (DataProcessor.mk
            (Some (DataProcessor.of_influx (Sample.influx true)))
            None [] [] [])) = false.
Proof.
  exact (proj1 (repository_handler_stores_nothing Sample.fromisoformat
                  "temp-1" "sensors" Sample.reading 7 9 []
                  (DataProcessor.mk
                     (Some (DataProcessor.of_influx (Sample.influx true)))
                     None [] [] [])
                  (Sample.influx true) eq_refl)).
Defined.

Lemma written_device_is_online_witness :
  let r := InfluxDBHandler.write_data "temp-2" "sensors"
             (PDict [("value", PInt 3)]) Sample.server Sample.now
             (Sample.influx true) in
  fst (fst r) = true
  /\ fst (InfluxDBHandler._get_device_status "temp-2" (snd (fst r))
            (Sample.now + 1) (snd r)) = "Online".
Proof.
  apply (proj1 (written_device_is_online "temp-2" "sensors"
                  [("value", PInt 3)]
                  Sample.server Sample.now (Sample.now + 1) (Sample.influx true)
                  eq_refl eq_refl ltac:(discriminate) eq_refl eq_refl
                  ltac:(unfold Sample.now; lia))
           ("value", InfluxDBHandler.Number (PInt 3)) []).
  reflexivity.
Defined.

Lemma write_keeps_other_status_witness :
  let r := InfluxDBHandler.write_data "temp-2" "sensors"
             (PDict [("value", PInt 3)]) Sample.server Sample.now
             (Sample.influx true) in
  fst (InfluxDBHandler._get_device_status "temp-1" (snd (fst r)) Sample.now
         (snd r))
  = fst (InfluxDBHandler._get_device_status "temp-1" Sample.server Sample.now
           (Sample.influx true)).
Proof.
  apply (write_keeps_other_status "temp-2" "temp-1" "sensors"
           (PDict [("value", PInt 3)]) Sample.server Sample.now Sample.now
           (Sample.influx true)); try reflexivity.
  discriminate.
Defined.

Lemma topic_readers_agree_on_device_witness :
  dict_lookup "channel" (Utils.parse_mqtt_topic "devices/temp-1/data/sensors")
  = Some (PStr "data")
  /\ MQTTHandler.parse "devices/temp-1/data/sensors" = Some ("temp-1", "sensors").
Proof.
  destruct (topic_readers_agree_on_device "temp-1" "sensors" eq_refl eq_refl)
    as [Hp Hu].
  split; [|exact Hp]. cbv zeta in Hu.
  change ("devices/" +:+ "temp-1" +:+ "/data/" +:+ "sensors")
    with "devices/temp-1/data/sensors" in Hu.
  rewrite Hu. reflexivity.
Defined.

(** ** The JSON scanner never runs out of fuel *)

Lemma skip_ws_le s : String.length (Json.skip_ws s) <= String.length s.
Proof.
  induction s as [|c s IH]; simpl; [lia|].
  destruct (Json.is_ws c); simpl; lia.
Qed.

Lemma scanstring_lt_bounded n : forall s t rest,
  String.length s <= n ->
  Json.scanstring s = Some (t, rest) -> String.length rest < String.length s.
Proof.
  induction n as [|n IH]; intros s t rest Hn.
  - destruct s; [discriminate|simpl in Hn; lia].
  - destruct s as [|c r]; simpl; [discriminate|]. simpl in Hn.
    assert (Hrec : forall s' t' rest',
              String.length s' <= String.length r ->
              Json.scanstring s' = Some (t', rest') ->
              String.length rest' < S (String.length r)).
    { intros s' t' rest' Hle Hs'. apply IH in Hs'; lia. }
    destruct (Ascii.eqb c Json.dquote); [intros [= <- <-]; lia|].
    destruct (byte_in 0 31 c); [discriminate|].
    destruct (Ascii.eqb c Json.backslash).
    + destruct r as [|e r1]; [discriminate|].
      destruct (Ascii.eqb e "u").
      * destruct r1 as [|h1 [|h2 [|h3 [|h4 r2]]]]; try discriminate.
        destruct (Json.hex4 h1 h2 h3 h4) as [hi|]; [|discriminate].
        destruct (if Json.is_high_surrogate hi then Json.low_surrogate_escape r2
                  else None) as [lo|].
        -- destruct r2 as [|a1 [|a2 [|a3 [|a4 [|a5 [|a6 r3]]]]]].
           all: destruct (Json.scanstring _) as [[t' rest']|] eqn:E;
             [|discriminate]; intros [= <- <-];
             eapply Nat.lt_le_trans;
             [eapply (Hrec _ t' rest'); [|exact E]; simpl; lia|simpl; lia].
        -- destruct (Json.scanstring r2) as [[t' rest']|] eqn:E; [|discriminate].
           intros [= <- <-].
           eapply Nat.lt_le_trans;
             [eapply (Hrec _ t' rest'); [|exact E]; simpl; lia|simpl; lia].
      * destruct (Json.simple_escape e); [|discriminate].
        destruct (Json.scanstring r1) as [[t' rest']|] eqn:E; [|discriminate].
        intros [= <- <-].
        eapply Nat.lt_le_trans;
          [eapply (Hrec _ t' rest'); [|exact E]; simpl; lia|simpl; lia].
    + destruct (Json.scanstring r) as [[t' rest']|] eqn:E; [|discriminate].
      intros [= <- <-].
      eapply Nat.lt_le_trans; [eapply (Hrec _ t' rest'); [|exact E]; lia|lia].
Qed.

Lemma scanstring_lt s t rest :
  Json.scanstring s = Some (t, rest) -> String.length rest < String.length s.
Proof. apply (scanstring_lt_bounded (String.length s)). lia. Qed.

Lemma strip_prefix_le p : forall s rest,
  Json.strip_prefix p s = Some rest -> String.length rest <= String.length s.
Proof.
  induction p as [|a p IH]; intros s rest; simpl.
  - intros [= <-]. lia.
  - destruct s as [|b s]; [discriminate|].
    destruct (Ascii.eqb a b); [|discriminate].
    intros H. apply IH in H. simpl. lia.
Qed.

Lemma match_literal_le ls : forall s v rest,
  Json.match_literal ls s = Some (v, rest) ->
  String.length rest <= String.length s.
Proof.
  induction ls as [|[name v0] ls IH]; intros s v rest; simpl; [discriminate|].
  destruct (Json.strip_prefix name s) as [r|] eqn:E.
  - intros [= <- <-]. now apply strip_prefix_le in E.
  - apply IH.
Qed.

Lemma take_digits_le s :
  String.length (snd (Json.take_digits s)) <= String.length s.
Proof.
  induction s as [|c s IH]; simpl; [lia|].
  destruct (Json.is_digit c); [|simpl; lia].
  destruct (Json.take_digits s) as [ds rest]. simpl in *. lia.
Qed.

Lemma take_frac_le s :
  String.length (snd (Json.take_frac s)) <= String.length s.
Proof.
  unfold Json.take_frac. destruct s as [|dot [|d r]]; simpl; try lia.
  destruct (_ && _); [|simpl; lia].
  pose proof (take_digits_le r) as H.
  destruct (Json.take_digits r) as [fs rest]. simpl in *. lia.
Qed.

Lemma take_exp_le s :
  String.length (snd (Json.take_exp s)) <= String.length s.
Proof.
  unfold Json.take_exp. destruct s as [|e r]; simpl; [lia|].
  destruct (_ || _); [|simpl; lia].
  destruct r as [|sg r']; simpl.
  - lia.
  - destruct (Ascii.eqb sg "-").
    + pose proof (take_digits_le r') as H'.
      destruct (Json.take_digits r') as [[|x es] rest]; simpl in *; lia.
    + destruct (Ascii.eqb sg "+").
      * pose proof (take_digits_le r') as H'.
        destruct (Json.take_digits r') as [[|x es] rest]; simpl in *; lia.
      * pose proof (take_digits_le (String sg r')) as H'.
        destruct (Json.take_digits (String sg r')) as [[|x es] rest];
          simpl in *; lia.
Qed.

Lemma match_number_le s v rest :
  Json.match_number s = Some (v, rest) ->
  String.length rest <= String.length s.
Proof.
  unfold Json.match_number.
  set (ns := match s with
             | String c r => if Ascii.eqb c "-" then (true, r) else (false, s)
             | EmptyString => (false, s)
             end).
  assert (Hns : String.length (snd ns) <= String.length s).
  { unfold ns. destruct s as [|c r]; simpl; [lia|].
    destruct (Ascii.eqb c "-"); simpl; lia. }
  destruct ns as [neg s1]. simpl in Hns.
  set (ip := match s1 with
             | String c r =>
                 if byte_in 49 57 c then
                   let (ds, rest) := Json.take_digits r in Some (String c ds, rest)
                 else if Ascii.eqb c "0" then Some (String c EmptyString, r)
                 else None
             | EmptyString => None
             end).
  assert (Hip : forall ds r1, ip = Some (ds, r1) ->
                              String.length r1 <= String.length s1).
  { unfold ip. intros ds r1. destruct s1 as [|c r]; [discriminate|].
    destruct (byte_in 49 57 c).
    - pose proof (take_digits_le r) as H.
      destruct (Json.take_digits r) as [ds' rest']. intros [= <- <-].
      simpl in *. lia.
    - destruct (Ascii.eqb c "0"); [|discriminate]. intros [= <- <-]. simpl. lia. }
  destruct ip as [[ds r1]|]; [|discriminate].
  specialize (Hip ds r1 eq_refl).
  pose proof (take_frac_le r1) as Hf.
  destruct (Json.take_frac r1) as [fs r2]. simpl in Hf.
  pose proof (take_exp_le r2) as He.
  destruct (Json.take_exp r2) as [[has_exp ex] r3]. simpl in He.
  destruct fs; destruct has_exp; intros [= <- <-]; lia.
Qed.

Lemma scan_le fuel :
  (forall s v rest, Json.scan_once fuel s = Some (v, rest) ->
                    String.length rest <= String.length s)
  /\ (forall s acc v rest, Json.parse_members fuel s acc = Some (v, rest) ->
                           String.length rest <= String.length s)
  /\ (forall s acc v rest, Json.parse_elements fuel s acc = Some (v, rest) ->
                           String.length rest <= String.length s).
Proof.
  induction fuel as [|f (IHs & IHm & IHe)].
  - repeat split; intros; discriminate.
  - split; [|split].
    + intros s v rest. cbn -[Json.match_literal Json.match_number Json.scanstring Json.skip_ws]. destruct s as [|c r]; [discriminate|].
      destruct (Ascii.eqb c Json.dquote).
      { destruct (Json.scanstring r) as [[t r1]|] eqn:E; [|discriminate].
        intros [= <- <-]. apply scanstring_lt in E. simpl. lia. }
      destruct (Ascii.eqb c "{").
      { pose proof (skip_ws_le r) as Hw.
        destruct (Json.skip_ws r) as [|c' r']; [discriminate|]. simpl in Hw.
        destruct (Ascii.eqb c' "}").
        - intros [= <- <-]. simpl. lia.
        - intros H. apply IHm in H. simpl in *. lia. }
      destruct (Ascii.eqb c "[").
      { pose proof (skip_ws_le r) as Hw.
        destruct (Json.skip_ws r) as [|c' r']; [discriminate|]. simpl in Hw.
        destruct (Ascii.eqb c' "]").
        - intros [= <- <-]. simpl. lia.
        - intros H. apply IHe in H. simpl in *. lia. }
      destruct (Json.match_literal Json.literals (String c r)) as [[v' r']|] eqn:E.
      { intros [= <- <-]. now apply match_literal_le in E. }
      apply match_number_le.
    + intros s acc v rest. cbn -[Json.match_literal Json.match_number Json.scanstring Json.skip_ws]. destruct s as [|q r]; [discriminate|].
      destruct (Ascii.eqb q Json.dquote); [|discriminate].
      destruct (Json.scanstring r) as [[key r1]|] eqn:E; [|discriminate].
      apply scanstring_lt in E. pose proof (skip_ws_le r1) as Hw1.
      destruct (Json.skip_ws r1) as [|colon r2]; [discriminate|]. simpl in Hw1.
      destruct (Ascii.eqb colon ":"); [|discriminate].
      pose proof (skip_ws_le r2) as Hw2.
      destruct (Json.scan_once f (Json.skip_ws r2)) as [[v' r3]|] eqn:Es;
        [|discriminate].
      apply IHs in Es. pose proof (skip_ws_le r3) as Hw3.
      destruct (Json.skip_ws r3) as [|d r4]; [discriminate|]. simpl in Hw3.
      destruct (Ascii.eqb d "}").
      { intros [= <- <-]. simpl. lia. }
      destruct (Ascii.eqb d ","); [|discriminate].
      intros H. apply IHm in H. pose proof (skip_ws_le r4). simpl. lia.
    + intros s acc v rest.
      cbn -[Json.match_literal Json.match_number Json.scanstring Json.skip_ws].
      destruct (Json.scan_once f s) as [[v' r1]|] eqn:Es; [|discriminate].
      apply IHs in Es. pose proof (skip_ws_le r1) as Hw1.
      destruct (Json.skip_ws r1) as [|d r2]; [discriminate|]. simpl in Hw1.
      destruct (Ascii.eqb d "]").
      { intros [= <- <-]. lia. }
      destruct (Ascii.eqb d ","); [|discriminate].
      intros H. apply IHe in H. pose proof (skip_ws_le r2). lia.
Qed.

(** Fuel beyond two units per character, and one more, changes
    nothing. *)
Lemma scan_fuel f1 :
  (forall f2 s, 2 * String.length s + 1 <= f1 ->
                2 * String.length s + 1 <= f2 ->
                Json.scan_once f1 s = Json.scan_once f2 s)
  /\ (forall f2 s acc, 2 * String.length s <= f1 ->
                       2 * String.length s <= f2 ->
                       Json.parse_members f1 s acc = Json.parse_members f2 s acc)
  /\ (forall f2 s acc, 2 * String.length s + 2 <= f1 ->
                       2 * String.length s + 2 <= f2 ->
                       Json.parse_elements f1 s acc
                       = Json.parse_elements f2 s acc).
Proof.
  induction f1 as [|f1 (IHs & IHm & IHe)].
  - split; [|split].
    + intros f2 s H. lia.
    + intros f2 s acc H _. destruct s; [|simpl in H; lia].
      destruct f2; reflexivity.
    + intros f2 s acc H. lia.
  - split; [|split].
    + intros [|f2] s H1 H2; [lia|].
      cbn -[Json.match_literal Json.match_number Json.scanstring Json.skip_ws].
      destruct s as [|c r]; [reflexivity|]. simpl in H1, H2.
      destruct (Ascii.eqb c Json.dquote); [reflexivity|].
      pose proof (skip_ws_le r) as Hw.
      destruct (Ascii.eqb c "{").
      { destruct (Json.skip_ws r) as [|c' r']; [reflexivity|]. simpl in Hw.
        destruct (Ascii.eqb c' "}"); [reflexivity|].
        apply IHm; simpl; lia. }
      destruct (Ascii.eqb c "[").
      { destruct (Json.skip_ws r) as [|c' r']; [reflexivity|]. simpl in Hw.
        destruct (Ascii.eqb c' "]"); [reflexivity|].
        apply IHe; simpl; lia. }
      reflexivity.
    + intros [|f2] s acc H1 H2.
      { destruct s; [reflexivity|simpl in H2; lia]. }
      cbn -[Json.match_literal Json.match_number Json.scanstring Json.skip_ws].
      destruct s as [|q r]; [reflexivity|]. simpl in H1, H2.
      destruct (Ascii.eqb q Json.dquote); [|reflexivity].
      destruct (Json.scanstring r) as [[key r1]|] eqn:E; [|reflexivity].
      apply scanstring_lt in E. pose proof (skip_ws_le r1) as Hw1.
      destruct (Json.skip_ws r1) as [|colon r2]; [reflexivity|]. simpl in Hw1.
      destruct (Ascii.eqb colon ":"); [|reflexivity].
      pose proof (skip_ws_le r2) as Hw2.
      rewrite (IHs f2 (Json.skip_ws r2)) by lia.
      destruct (Json.scan_once f2 (Json.skip_ws r2)) as [[v' r3]|] eqn:Es;
        [|reflexivity].
      apply (proj1 (scan_le f2)) in Es. pose proof (skip_ws_le r3) as Hw3.
      destruct (Json.skip_ws r3) as [|d r4]; [reflexivity|]. simpl in Hw3.
      destruct (Ascii.eqb d "}"); [reflexivity|].
      destruct (Ascii.eqb d ","); [|reflexivity].
      pose proof (skip_ws_le r4). apply IHm; lia.
    + intros [|f2] s acc H1 H2; [lia|].
      cbn -[Json.match_literal Json.match_number Json.scanstring Json.skip_ws].
      rewrite (IHs f2 s) by lia.
      destruct (Json.scan_once f2 s) as [[v' r1]|] eqn:Es; [|reflexivity].
      apply (proj1 (scan_le f2)) in Es. pose proof (skip_ws_le r1) as Hw1.
      destruct (Json.skip_ws r1) as [|d r2]; [reflexivity|]. simpl in Hw1.
      destruct (Ascii.eqb d "]"); [reflexivity|].
      destruct (Ascii.eqb d ","); [|reflexivity].
      pose proof (skip_ws_le r2). apply IHe; lia.
Qed.

(** The document read by [loads] is the one the scanner reads with any
    larger amount of fuel: the bound in [loads] is never what makes a
    text fail. *)
Lemma scan_once_fuel s fuel :
  S (2 * String.length s) <= fuel ->
  Json.scan_once fuel (Json.skip_ws s)
  = Json.scan_once (S (2 * String.length s)) (Json.skip_ws s).
Proof.
  intros H. pose proof (skip_ws_le s). apply (proj1 (scan_fuel fuel)); lia.
Qed.

(** ** The device manager *)
Section ManagerFacts.

Context {M : Type}.
Variable subscribe_to_topic : option (string -> M -> res unit * M).
Variable unsubscribe_from_topic : option (string -> M -> res unit * M).
Variable publish_message : string -> pyval -> M -> res unit * M.

Lemma notify_registry optional dev topic message failure
  (dm : DeviceManager.t M) :
  DeviceManager.mongo_handler
    (DeviceManager.notify publish_message optional dev topic message failure dm)
  = DeviceManager.mongo_handler dm
  /\ DeviceManager.demo_devices
       (DeviceManager.notify publish_message optional dev topic message failure dm)
     = DeviceManager.demo_devices dm.
Proof.
  unfold DeviceManager.notify.
  destruct optional as [f|].
  - destruct (f _ (DeviceManager.mqtt_handler dm)) as [[u|e] q]; [|auto].
    destruct (publish_message topic message q) as [[u'|e] q']; auto.
  - destruct (publish_message topic message _) as [[u'|e] q']; auto.
Qed.

(** X20. A device whose id starts with [demo-] cannot be removed through
    the manager: the call reports success, and the registry, where the
    device may well be registered, and the MQTT object are left as they
    were. *)
Theorem demo_device_is_not_removed dev now (dm : DeviceManager.t M) m :
  DeviceManager.mongo_handler dm = Some m ->
  startswith "demo-" dev = true ->
  let r := DeviceManager.remove_device unsubscribe_from_topic publish_message
             dev now dm in
  fst r = true
  /\ DeviceManager.mongo_handler (snd r) = Some m
  /\ DeviceManager.mqtt_handler (snd r) = DeviceManager.mqtt_handler dm
  /\ (forall x, MongoDBHandler.find_one dev (stored m) = Some x ->
                exists m', DeviceManager.mongo_handler (snd r) = Some m'
                           /\ MongoDBHandler.find_one dev (stored m') = Some x).
Proof.
  intros Hm Hd. cbv zeta. unfold DeviceManager.remove_device.
  rewrite Hm, Hd. simpl. repeat split; auto.
  intros x Hx. exists m. auto.
Qed.

(** X21. Adding a device through the manager succeeds exactly when the
    registry handler adds it, and leaves the registry as the handler's
    own [add_device] does: a failure of the MQTT object while the device
    is welcomed changes neither. *)
Theorem manager_add_is_registry_add dev name ty loc proj now_text now
  (dm : DeviceManager.t M) m :
  DeviceManager.mongo_handler dm = Some m ->
  let r := DeviceManager.add_device subscribe_to_topic publish_message dev name
             ty loc proj now_text now dm in
  let r0 := MongoDBHandler.add_device dev name ty loc proj now_text m in
  fst r = fst r0
  /\ DeviceManager.mongo_handler (snd r) = Some (snd r0)
  /\ (fst r0 && DeviceManager.has_mqtt dm = false ->
      DeviceManager.mqtt_handler (snd r) = DeviceManager.mqtt_handler dm).
Proof.
  intros Hm. cbv zeta. unfold DeviceManager.add_device. rewrite Hm.
  destruct (MongoDBHandler.add_device dev name ty loc proj now_text m)
    as [result m']. simpl.
  destruct (result && DeviceManager.has_mqtt dm) eqn:E; simpl.
  - split; [reflexivity|]. split; [|discriminate].
    now rewrite (proj1 (notify_registry _ _ _ _ _ _)).
  - auto.
Qed.

(** X22. The manager never lists no device: as long as it has its demo
    devices, [get_devices] returns them when the registry is absent,
    not connected or empty, and the registered devices otherwise. *)
Theorem manager_lists_some_device (dm : DeviceManager.t M) :
  DeviceManager.demo_devices dm <> [] ->
  let r := DeviceManager.get_devices dm in
  match fst r with
  | inl demos =>
      demos = DeviceManager.demo_devices dm /\ demos <> []
      /\ forall m, DeviceManager.mongo_handler dm = Some m ->
                   MongoDBHandler.is_connected m = true ->
                   fst (MongoDBHandler.get_devices m) = []
  | inr devices =>
      devices <> []
      /\ exists m, DeviceManager.mongo_handler dm = Some m
                   /\ MongoDBHandler.is_connected m = true
                   /\ fst (MongoDBHandler.get_devices m) = devices
  end
  /\ DeviceManager.demo_devices (snd r) = DeviceManager.demo_devices dm.
Proof.
  intros Hdemo. cbv zeta. unfold DeviceManager.get_devices.
  destruct (DeviceManager.mongo_handler dm) as [m|] eqn:Hm; simpl.
  - destruct (MongoDBHandler.is_connected m) eqn:Hc; simpl.
    + destruct (MongoDBHandler.get_devices m) as [[|x ds] m'] eqn:Hg; simpl.
      * split; [|reflexivity]. split; [reflexivity|]. split; [exact Hdemo|].
        intros m0 [= <-] _. now rewrite Hg.
      * split; [|reflexivity]. split; [discriminate|].
        exists m. rewrite Hg. auto.
    + split; [|reflexivity]. split; [reflexivity|]. split; [exact Hdemo|].
      intros m0 [= <-] H. congruence.
  - split; [|reflexivity]. split; [reflexivity|]. split; [exact Hdemo|].
    intros m0 H. discriminate.
Qed.

End ManagerFacts.

Lemma demo_device_is_not_removed_witness :
  let r := DeviceManager.remove_device None Sample.publish_message "demo-1"
             (FDec 7 0) Sample.manager in
  fst r = true
  /\ DeviceManager.mongo_handler (snd r)
     = Some (Sample.mongo [Sample.demo1; Sample.temp1])
  /\ DeviceManager.mqtt_handler (snd r) = []
  /\ (forall x,
        MongoDBHandler.find_one "demo-1"
          (stored (Sample.mongo [Sample.demo1; Sample.temp1])) = Some x ->
        exists m', DeviceManager.mongo_handler (snd r) = Some m'
                   /\ MongoDBHandler.find_one "demo-1" (stored m') = Some x).
Proof.
  exact (demo_device_is_not_removed None Sample.publish_message "demo-1"
           (FDec 7 0) Sample.manager
           (Sample.mongo [Sample.demo1; Sample.temp1]) eq_refl eq_refl).
Defined.

Lemma manager_add_is_registry_add_witness :
  fst (DeviceManager.add_device None Sample.publish_message "temp-2"
         "Hygrometer" None None None "2024-05-01 12:00:00" (FDec 7 0)
         Sample.manager)
  = fst (MongoDBHandler.add_device "temp-2" "Hygrometer" None None None
           "2024-05-01 12:00:00" (Sample.mongo [Sample.demo1; Sample.temp1])).
Proof.
  exact (proj1 (manager_add_is_registry_add None Sample.publish_message
                  "temp-2" "Hygrometer" None None None "2024-05-01 12:00:00"
                  (FDec 7 0) Sample.manager
                  (Sample.mongo [Sample.demo1; Sample.temp1]) eq_refl)).
Defined.

Lemma manager_lists_some_device_witness :
  DeviceManager.demo_devices
    (snd (DeviceManager.get_devices Sample.manager))
  = DeviceManager.demo_devices Sample.manager.
Proof.
  apply (proj2 (manager_lists_some_device Sample.manager
                  ltac:(discriminate))).
Defined.
